(** * NV verification automation: a shallow embedding and its properties

    The development follows the three Python modules of the repository:
    the common base class [NVAutomation] (reading NV items, trimming the
    definition file, re-typing input items), and the QCT verifier
    [NVAutomationQCT] (comparison, report template, report publishing).

    Python values are embedded as follows: [int] as [Z], text as [string]
    (one [ascii] per code point below 256), lists as [list], exceptions as
    the [Raise] branch of [result], and the XML DOM of [xml.dom.minidom] as
    a tree of nodes that carry their object identity. *)

From Stdlib Require Import ZArith List String Ascii Bool Lia Permutation.
From Stdlib Require Import DecimalString.
Import ListNotations.
Open Scope string_scope.
Open Scope Z_scope.
Set Warnings "-register-all".

(** ** Exceptions and results *)

(** The exceptions that reach a caller of the modelled functions.
    [NVAutomationError] is the repository's own error class and carries
    the fixed part of its message. *)
Inductive exn : Type :=
| NVAutomationError (msg : string)
| IndexError
| UnboundLocalError
| ValueError
| TypeError
| IOError
| LookupError.

Inductive result (A : Type) : Type :=
| Ok (a : A)
| Raise (e : exn).
Arguments Ok {A} a.
Arguments Raise {A} e.

Definition bind {A B : Type} (r : result A) (k : A -> result B) : result B :=
  match r with
  | Ok a => k a
  | Raise e => Raise e
  end.

Notation "x <- c ;; k" := (bind c (fun x => k))
  (at level 61, c at next level, right associativity).

Definition is_domain_error {A : Type} (r : result A) : Prop :=
  exists msg, r = Raise (NVAutomationError msg).

(** ** Python text operations used by the code *)

Module PyStr.

(** [str.isspace] on one code point below 256. *)
Definition isspace (c : ascii) : bool :=
  let n := nat_of_ascii c in
  ((9 <=? n) && (n <=? 13) || (28 <=? n) && (n <=? 32)
   || (n =? 133) || (n =? 160))%nat.

Fixpoint lstrip (s : string) : string :=
  match s with
  | String c s' => if isspace c then lstrip s' else s
  | EmptyString => EmptyString
  end.

(** Removes trailing white space: a character is kept when something
    that is kept follows it, or when it is not white space itself. *)
Fixpoint rstrip (s : string) : string :=
  match s with
  | String c s' =>
      match rstrip s' with
      | EmptyString => if isspace c then EmptyString else String c EmptyString
      | r => String c r
      end
  | EmptyString => EmptyString
  end.

(** [s.strip()] *)
Definition strip (s : string) : string := rstrip (lstrip s).

Definition lower_char (c : ascii) : ascii :=
  let n := nat_of_ascii c in
  if ((65 <=? n) && (n <=? 90)
      || (192 <=? n) && (n <=? 222) && negb (n =? 215))%nat
  then ascii_of_nat (n + 32) else c.

(** [s.lower()] *)
Fixpoint lower (s : string) : string :=
  match s with
  | String c s' => String (lower_char c) (lower s')
  | EmptyString => EmptyString
  end.

Definition digit_of (c : ascii) : option Z :=
  let n := nat_of_ascii c in
  if ((48 <=? n) && (n <=? 57))%nat then Some (Z.of_nat (n - 48)) else None.

(** The white space that [int] accepts around a number: the six ASCII
    white space characters and, of the other code points below 256, NEL
    and the no-break space.  Unlike [str.isspace], the separators 28 to 31
    are not among them. *)
Definition int_space (c : ascii) : bool :=
  let n := nat_of_ascii c in
  ((9 <=? n) && (n <=? 13) || (n =? 32) || (n =? 133) || (n =? 160))%nat.

Fixpoint skip_space (s : string) : string :=
  match s with
  | String c s' => if int_space c then skip_space s' else s
  | EmptyString => EmptyString
  end.

Fixpoint drop_trailing_space (s : string) : string :=
  match s with
  | String c s' =>
      match drop_trailing_space s' with
      | EmptyString => if int_space c then EmptyString
                       else String c EmptyString
      | r => String c r
      end
  | EmptyString => EmptyString
  end.

(** Reads what may follow a digit up to the end of the string: a digit,
    or one underscore and a digit. *)
Fixpoint digits (acc : Z) (s : string) : option Z :=
  match s with
  | EmptyString => Some acc
  | String c s' =>
      match digit_of c with
      | Some d => digits (10 * acc + d) s'
      | None =>
          if Ascii.eqb c "_" then
            match s' with
            | String c' s'' =>
                match digit_of c' with
                | Some d => digits (10 * acc + d) s''
                | None => None
                end
            | EmptyString => None
            end
          else None
      end
  end.

(** A digit, and then what may follow a digit. *)
Definition unsigned (s : string) : option Z :=
  match s with
  | EmptyString => None
  | String c s' =>
      match digit_of c with
      | Some d => digits d s'
      | None => None
      end
  end.

(** [sys.get_int_max_str_digits()], as the interpreter starts. *)
Definition max_str_digits : Z := 4300.

Fixpoint count_digits (s : string) : Z :=
  match s with
  | EmptyString => 0
  | String c s' =>
      match digit_of c with
      | Some _ => 1 + count_digits s'
      | None => count_digits s'
      end
  end.

(** [int(s)] on text: the white space around the number is dropped, one
    sign is allowed, then decimal digits, which single underscores may
    separate; a text with more than [max_str_digits] digits is refused.
    [None] stands for the [ValueError] that Python raises. *)
Definition int (s : string) : option Z :=
  let number := drop_trailing_space (skip_space s) in
  if max_str_digits <? count_digits number then None
  else
    match number with
    | String "-" s' => option_map Z.opp (unsigned s')
    | String "+" s' => unsigned s'
    | s' => unsigned s'
    end.

(** [str(n)] for an integer. *)
Definition str_of_int (n : Z) : string :=
  NilZero.string_of_int (Z.to_int n).

(** [re.search(pat, line)] for a pattern made of literal characters:
    does [pat] occur somewhere in [s]? *)
Fixpoint search (pat s : string) : bool :=
  if String.prefix pat s then true
  else match s with
       | String _ s' => search pat s'
       | EmptyString => false
       end.

Fixpoint drop (n : nat) (s : string) : string :=
  match n, s with
  | S n', String _ s' => drop n' s'
  | _, _ => s
  end.

(** [s.replace(old, "")] for a non-empty [old]: every occurrence found
    scanning from the left is removed.  [fuel] bounds the number of
    scanning steps and is the length of [s] at the call. *)
Fixpoint remove_all (fuel : nat) (old s : string) : string :=
  match fuel with
  | O => s
  | S fuel' =>
      match s with
      | EmptyString => EmptyString
      | String c s' =>
          if String.prefix old s
          then remove_all fuel' old (drop (String.length old) s)
          else String c (remove_all fuel' old s')
      end
  end.

Definition remove (old s : string) : string :=
  remove_all (String.length s) old s.

End PyStr.

(** ** The XML object model of [xml.dom.minidom] *)

Module Dom.

(** A node carries [key], its object identity: two references denote the
    same Python object exactly when their keys agree.  A document is the
    list of the child nodes of its [Document] object. *)
Inductive node : Type :=
| Element (key : nat) (tagName : string)
          (attributes : list (string * string)) (childNodes : list node)
| Text (key : nat) (data : string)
| Comment (key : nat) (data : string).

Definition document : Type := list node.

Definition key_of (n : node) : nat :=
  match n with
  | Element k _ _ _ => k
  | Text k _ => k
  | Comment k _ => k
  end.

Definition children (n : node) : list node :=
  match n with
  | Element _ _ _ cs => cs
  | _ => []
  end.

(** [node.nodeValue]: the data of a character-data node, [None] for an
    element. *)
Definition nodeValue (n : node) : option string :=
  match n with
  | Element _ _ _ _ => None
  | Text _ d => Some d
  | Comment _ d => Some d
  end.

Fixpoint lookup_attr (name : string) (attrs : list (string * string))
  : option string :=
  match attrs with
  | [] => None
  | (a, v) :: attrs' => if String.eqb a name then Some v
                        else lookup_attr name attrs'
  end.

(** [tag.getAttribute(name)]: the empty string when the attribute is
    absent. *)
Definition getAttribute (n : node) (name : string) : string :=
  match n with
  | Element _ _ attrs _ =>
      match lookup_attr name attrs with
      | Some v => v
      | None => ""
      end
  | _ => ""
  end.

Definition hasAttribute (n : node) (name : string) : bool :=
  match n with
  | Element _ _ attrs _ =>
      match lookup_attr name attrs with Some _ => true | None => false end
  | _ => false
  end.

(** A node followed by everything below it, in document order. *)
Fixpoint subtree (n : node) : list node :=
  n :: match n with
       | Element _ _ _ cs => flat_map subtree cs
       | _ => []
       end.

Definition nodes (d : list node) : list node := flat_map subtree d.

Definition keys (d : list node) : list nat := map key_of (nodes d).

Definition has_tag (name : string) (n : node) : bool :=
  match n with
  | Element _ t _ _ => String.eqb t name
  | _ => false
  end.

(** [document.getElementsByTagName(name)]: the list is built when the
    call is made and is not updated by later changes of the tree. *)
Definition getElementsByTagName (d : document) (name : string)
  : list node :=
  filter (has_tag name) (nodes d).

(** Takes the node with identity [k] out of the forest [d]: the node as
    it is now, and the forest without it. *)
Fixpoint detach_below (k : nat) (n : node) : option (node * node) :=
  match n with
  | Element k' t a cs =>
      match
        (fix go (l : list node) : option (node * list node) :=
           match l with
           | [] => None
           | c :: l' =>
               if Nat.eqb (key_of c) k then Some (c, l')
               else match detach_below k c with
                    | Some (x, c') => Some (x, c' :: l')
                    | None =>
                        match go l' with
                        | Some (x, l'') => Some (x, c :: l'')
                        | None => None
                        end
                    end
           end) cs
      with
      | Some (x, cs') => Some (x, Element k' t a cs')
      | None => None
      end
  | _ => None
  end.

Fixpoint detach (k : nat) (d : list node) : option (node * list node) :=
  match d with
  | [] => None
  | c :: d' =>
      if Nat.eqb (key_of c) k then Some (c, d')
      else match detach_below k c with
           | Some (x, c') => Some (x, c' :: d')
           | None =>
               match detach k d' with
               | Some (x, d'') => Some (x, c :: d'')
               | None => None
               end
           end
  end.

(** The two trees [create_new_definition_file] works on: what is left of
    the parsed master document, and the child nodes of the new
    [NvDefinition] root element. *)
Record trees : Type := mkTrees {
  master : document;
  root_tag : list node
}.

(** [root_tag.appendChild(tag)]: a node that has a parent is first
    removed from it, with everything below it, and then becomes the last
    child of [root_tag]. *)
Definition appendChild (t : trees) (tag : node) : trees :=
  match detach (key_of tag) (master t) with
  | Some (n, m') => mkTrees m' (root_tag t ++ [n])
  | None =>
      match detach (key_of tag) (root_tag t) with
      | Some (n, r') => mkTrees (master t) (r' ++ [n])
      | None => mkTrees (master t) (root_tag t ++ [tag])
      end
  end.

End Dom.

(** ** The outside world *)

(** What [xml.dom.minidom.parse] does with a file: it returns a
    document, or it raises ExpatError, or IOError, or another exception
    [e], one that is an instance of neither class; so the parser raises
    LookupError for an encoding declaration that names an encoding it does
    not know, and ValueError for one that names a multi-byte encoding. *)
Inductive parse_outcome : Type :=
| Parsed (d : Dom.document)
| ParseExpatError
| ParseIOError
| ParseOtherError (e : exn).

(** The files a run can read, and the paths it can open for writing.
    [readlines] gives the lines of a text file, [None] when opening or
    reading it raises IOError; [writable] says whether [open(path, "w")]
    succeeds.  The world holds text files that the interpreter can decode
    and reports that it can encode: UnicodeDecodeError and
    UnicodeEncodeError, which no handler of the code catches, are outside
    it. *)
Record world : Type := mkWorld {
  parse : string -> parse_outcome;
  readlines : string -> option (list string);
  writable : string -> bool
}.

(** What a run does to the file system, oldest first. *)
Inductive event : Type :=
| Opened (path : string)
| WroteXml (path : string) (root_name : string) (childNodes : list Dom.node)
| WroteText (path : string) (content : string).

(** ** Module [nv]: the common code *)

Definition NEW_DEFINITION_FILE_PREFIX : string := "new_definition_".
Definition NV_TYPE_EFS_RANGE : Z := 65535.

Inductive nv_type : Type := NV_TYPE_EFS | NV_TYPE_ETS | NV_TYPE_TA | NV_TYPE_NV.

Definition nv_type_eqb (a b : nv_type) : bool :=
  match a, b with
  | NV_TYPE_EFS, NV_TYPE_EFS | NV_TYPE_ETS, NV_TYPE_ETS
  | NV_TYPE_TA, NV_TYPE_TA | NV_TYPE_NV, NV_TYPE_NV => true
  | _, _ => false
  end.

(** The text of a type tag, as it is printed in the report. *)
Definition nv_type_text (t : nv_type) : string :=
  match t with
  | NV_TYPE_EFS => "EFS"
  | NV_TYPE_ETS => "ETS"
  | NV_TYPE_TA => "TA"
  | NV_TYPE_NV => "NV"
  end.

Record NVItem : Type := mkNVItem {
  nv_id : Z;
  nv_name : string;
  nv_values : string;
  nv_type_of : nv_type
}.

(** [NVItem(nv_id, nv_name, nv_values)] with the default type. *)
Definition NVItem_default (i : Z) (name values : string) : NVItem :=
  mkNVItem i name values NV_TYPE_NV.

(** The fields of [self]. [new_def_file] is the name made in [__init__]
    from the prefix and a fresh UUID. *)
Record automation : Type := mkAutomation {
  definition_file : string;
  input_file : string;
  connection_port : string;
  new_def_file : string;
  out_file : string
}.

Definition _get_nv_type (nv_id : Z) (nv_calibrated : string) : nv_type :=
  let nv_type := NV_TYPE_NV in
  let nv_type :=
    if String.eqb (PyStr.lower (PyStr.strip nv_calibrated)) "true"
    then NV_TYPE_TA
    else if String.eqb (PyStr.lower (PyStr.strip nv_calibrated)) "ets"
         then NV_TYPE_ETS
         else nv_type in
  let nv_type :=
    if nv_id >? NV_TYPE_EFS_RANGE then NV_TYPE_EFS else nv_type in
  nv_type.

(** [tag.childNodes[0].nodeValue], evaluated outside the [try] block. *)
Definition first_child_value (tag : Dom.node) : result (option string) :=
  match Dom.children tag with
  | [] => Raise IndexError
  | c :: _ => Ok (Dom.nodeValue c)
  end.

(** The [try] block of the reading loop: [int(nv_id)] raises ValueError,
    [nv_values.strip()] on [None] raises AttributeError, and both are
    re-raised as the domain error with the same message. *)
Definition make_item (nv_id nv_name : string) (nv_values : option string)
    (nv_calibrated : string) : result NVItem :=
  match PyStr.int nv_id with
  | None => Raise (NVAutomationError "Invalid NV item found: ")
  | Some i =>
      match nv_values with
      | None => Raise (NVAutomationError "Invalid NV item found: ")
      | Some v =>
          Ok (mkNVItem i (PyStr.strip nv_name) (PyStr.strip v)
                       (_get_nv_type i nv_calibrated))
      end
  end.

(** The loop over the [NvItem] tags; [nv_items] is the list built so far. *)
Fixpoint read_tags (tags : list Dom.node) (nv_items : list NVItem)
  : result (list NVItem) :=
  match tags with
  | [] => Ok nv_items
  | tag :: rest =>
      let nv_id := Dom.getAttribute tag "id" in
      let nv_name := Dom.getAttribute tag "name" in
      nv_values <- first_child_value tag ;;
      let nv_calibrated := Dom.getAttribute tag "calibrated" in
      item <- make_item nv_id nv_name nv_values nv_calibrated ;;
      read_tags rest (nv_items ++ [item])
  end.

Definition _read_nv_items (w : world) (nv_file : string)
  : result (list NVItem) :=
  match parse w nv_file with
  | ParseExpatError =>
      Raise (NVAutomationError "Error in parsing the input file: ")
  | ParseIOError => Raise (NVAutomationError "IOError: ")
  | ParseOtherError e => Raise e
  | Parsed dom => read_tags (Dom.getElementsByTagName dom "NvItem") []
  end.

(** [nv_file] is [None] for the default argument; an empty name is as
    false as [None]. *)
Definition read_input_file (w : world) (self : automation)
    (nv_file : option string) : result (list Z) :=
  let nv_file :=
    match nv_file with
    | None | Some "" => input_file self
    | Some f => f
    end in
  nv_items <- _read_nv_items w nv_file ;;
  Ok (map nv_id nv_items).

(** The first loop of the trimmer: every [DataType] tag is appended. *)
Definition copy_data_types (tags : list Dom.node) (t : Dom.trees)
  : Dom.trees :=
  fold_left Dom.appendChild tags t.

(** The inner loop of the trimmer, over the input ids, for one [NvItem]
    tag: [int(tag_id)] is evaluated at every turn and raises ValueError. *)
Fixpoint copy_if_listed (tag : Dom.node) (input_nv_id_list : list Z)
    (t : Dom.trees) : result Dom.trees :=
  match input_nv_id_list with
  | [] => Ok t
  | nv_id :: ids' =>
      let tag_id := Dom.getAttribute tag "id" in
      match PyStr.int tag_id with
      | None => Raise ValueError
      | Some n =>
          copy_if_listed tag ids'
            (if nv_id =? n then Dom.appendChild t tag else t)
      end
  end.

(** The outer loop of the trimmer, over the [NvItem] tags. *)
Fixpoint copy_nv_items (tags : list Dom.node) (input_nv_id_list : list Z)
    (t : Dom.trees) : result Dom.trees :=
  match tags with
  | [] => Ok t
  | tag :: rest =>
      t' <- copy_if_listed tag input_nv_id_list t ;;
      copy_nv_items rest input_nv_id_list t'
  end.

(** The [except] clauses that close the trimmer's [try] block. *)
Definition trimmer_handler (e : exn) : exn :=
  match e with
  | TypeError => NVAutomationError "Invalid type nv item found: "
  | ValueError => NVAutomationError "Invalid nv item found: "
  | IOError => NVAutomationError "Error in creating new definition file: "
  | _ => NVAutomationError "Unknown error in creating new definitionfile: "
  end.

(** The body of the trimmer's [try] block: the new document and the
    events of writing it. *)
Definition build_definition (w : world) (self : automation)
    (dom : Dom.document) (input_nv_id_list : list Z)
  : result (list Dom.node) * list event :=
  let t := Dom.mkTrees dom [] in
  let t := copy_data_types (Dom.getElementsByTagName dom "DataType") t in
  match copy_nv_items (Dom.getElementsByTagName (Dom.master t) "NvItem")
                      input_nv_id_list t with
  | Raise e => (Raise e, [])
  | Ok t =>
      if writable w (new_def_file self)
      then (Ok (Dom.root_tag t),
            [Opened (new_def_file self);
             WroteXml (new_def_file self) "NvDefinition" (Dom.root_tag t)])
      else (Raise IOError, [])
  end.

(** The value the function hands back is Python's [None], here [None];
    a returned file name would be [Some name]. *)
Definition create_new_definition_file (w : world) (self : automation)
  : result (option string) * list event :=
  match read_input_file w self None with
  | Raise e => (Raise e, [])
  | Ok input_nv_id_list =>
      match parse w (definition_file self) with
      | ParseExpatError =>
          (Raise (NVAutomationError "Error in parsing the definition file: "),
           [])
      | ParseIOError =>
          (Raise (NVAutomationError "Error in reading definition file: "), [])
      | ParseOtherError e => (Raise e, [])
      | Parsed dom =>
          match build_definition w self dom input_nv_id_list with
          | (Raise e, evs) => (Raise (trimmer_handler e), evs)
          | (Ok _, evs) => (Ok None, evs)
          end
      end
  end.

(** The inner loop of the re-typing step for one input item: the first
    definition item with the same id and name gives its type. *)
Fixpoint retype (nv_item : NVItem) (def_nv_item_list : list NVItem)
  : NVItem :=
  match def_nv_item_list with
  | [] => nv_item
  | def_nv_item :: rest =>
      if (nv_id nv_item =? nv_id def_nv_item)
         && String.eqb (nv_name nv_item) (nv_name def_nv_item)
      then mkNVItem (nv_id nv_item) (nv_name nv_item) (nv_values nv_item)
                    (nv_type_of def_nv_item)
      else retype nv_item rest
  end.

(** The two loops of the re-typing step.  The items are updated in place;
    the update of an item depends on its id and name only, which never
    change, so the list afterwards is the list of the updated items. *)
Definition update_items (input_nv_item_list def_nv_item_list : list NVItem)
  : list NVItem :=
  map (fun nv_item => retype nv_item def_nv_item_list) input_nv_item_list.

Definition _update_nv_items_with_def_file (w : world) (self : automation)
    (input_nv_item_list : list NVItem) : result (list NVItem) :=
  def_nv_item_list <- _read_nv_items w (new_def_file self) ;;
  Ok (update_items input_nv_item_list def_nv_item_list).

(** ** Module [verification]: the QCT verifier *)

Definition REPORT_FILE : string := "verification_report.html".
(** The template lies next to the module; its directory is not modelled. *)
Definition REPORT_TEMPLATE_FILE : string := "verification_report_template.txt".

Inductive verification_result : Type := RESULT_OK | RESULT_NG.

Definition verification_result_text (r : verification_result) : string :=
  match r with RESULT_OK => "OK" | RESULT_NG => "NG" end.

Definition RESULT_PASSED : string := "<span style='color:green;'>PASSED</span>".
Definition RESULT_FAILED : string := "<span style='color:red;'>FAILED</span>".
Definition RESULT_SKIPPED : string := "<span style='color:gray;'>SKIPPED</span>".
Definition REPORT_SUMMARY_PASSED : string :=
  "<span style='color:green;'>PASSED</span>".
Definition REPORT_SUMMARY_FAILED : string :=
  "<span style='color:red;'>FAILED</span>".

Record VerificationItem : Type := mkVerificationItem {
  input_nv_item : NVItem;
  output_nv_item : NVItem;
  verification_result_of : verification_result
}.

(** An argument of the [%] operator. *)
Inductive pyval : Type :=
| PInt (n : Z)
| PStr (s : string).

(** The [%] operator of Python text, [template % args]. *)
Definition formatter : Type := string -> list pyval -> result string.

Definition same_key (a b : NVItem) : bool :=
  (nv_id a =? nv_id b) && String.eqb (nv_name a) (nv_name b).

(** The inner loop of [verify]: [Some out_nv_item] when the loop was left
    by [break], with the item it stopped at; [None] when the flag
    [found_matched_in_nv_item] stayed false. *)
Fixpoint find_output (in_nv_item : NVItem) (output_nv_items : list NVItem)
  : option NVItem :=
  match output_nv_items with
  | [] => None
  | out_nv_item :: rest =>
      if same_key in_nv_item out_nv_item then Some out_nv_item
      else find_output in_nv_item rest
  end.

(** One turn of the outer loop of [verify]. *)
Definition verify_item (in_nv_item : NVItem) (output_nv_items : list NVItem)
  : VerificationItem :=
  match find_output in_nv_item output_nv_items with
  | Some out_nv_item =>
      if String.eqb (nv_values in_nv_item) (nv_values out_nv_item)
      then mkVerificationItem in_nv_item out_nv_item RESULT_OK
      else mkVerificationItem in_nv_item out_nv_item RESULT_NG
  | None =>
      mkVerificationItem in_nv_item (NVItem_default (-1) "" "") RESULT_NG
  end.

(** The outer loop of [verify]; [verification_result_list] is the list
    built so far. *)
Fixpoint verify_loop (input_nv_items output_nv_items : list NVItem)
    (verification_result_list : list VerificationItem)
  : list VerificationItem :=
  match input_nv_items with
  | [] => verification_result_list
  | in_nv_item :: rest =>
      verify_loop rest output_nv_items
        (verification_result_list ++ [verify_item in_nv_item output_nv_items])
  end.

(** The scan of the template lines; each of the three locals is [None]
    until a line binds it. *)
Fixpoint scan_template (lines : list string)
    (report_header report_values report_footer : option string)
  : option string * option string * option string :=
  match lines with
  | [] => (report_header, report_values, report_footer)
  | line :: rest =>
      if PyStr.search "%header%" line then
        scan_template rest
          (Some (PyStr.remove "%header%" (PyStr.strip line)))
          report_values report_footer
      else if PyStr.search "%values%" line then
        scan_template rest report_header
          (Some (PyStr.remove "%values%" (PyStr.strip line)))
          report_footer
      else if PyStr.search "%footer%" line then
        scan_template rest report_header report_values
          (Some (PyStr.remove "%footer%" (PyStr.strip line)))
      else scan_template rest report_header report_values report_footer
  end.

Definition _read_report_template (w : world) (report_template_file : string)
  : result (string * string * string) :=
  match readlines w report_template_file with
  | None => Raise (NVAutomationError "Unable to read the template file: ")
  | Some lines =>
      match scan_template lines None None None with
      | (Some report_header, Some report_values, Some report_footer) =>
          Ok (report_header, report_values, report_footer)
      | _ => Raise UnboundLocalError
      end
  end.

(** The choice of the state of one row, with the summary so far. *)
Definition row_state (result : VerificationItem) (summary : string)
  : string * string :=
  let nv_item_verification_result := RESULT_PASSED in
  if nv_type_eqb (nv_type_of (input_nv_item result)) NV_TYPE_NV
     && match verification_result_of result with
        | RESULT_NG => true
        | RESULT_OK => false
        end
  then (RESULT_FAILED, REPORT_SUMMARY_FAILED)
  else if negb (nv_type_eqb (nv_type_of (input_nv_item result)) NV_TYPE_NV)
       then (RESULT_SKIPPED, summary)
       else (nv_item_verification_result, summary).

(** The seven values that fill the slots of the values line. *)
Definition row_args (result : VerificationItem) (state : string)
  : list pyval :=
  [PInt (nv_id (input_nv_item result));
   PStr (nv_values (input_nv_item result));
   PStr (nv_values (output_nv_item result));
   PStr (nv_name (input_nv_item result));
   PStr (nv_name (output_nv_item result));
   PStr (nv_type_text (nv_type_of (input_nv_item result)));
   PStr state].

(** The loop over the results, with the two variables it updates. *)
Fixpoint render_rows (fmt : formatter) (REPORT_VALUES : string)
    (result_list : list VerificationItem) (report_values summary : string)
  : result (string * string) :=
  match result_list with
  | [] => Ok (report_values, summary)
  | result :: rest =>
      let '(state, summary) := row_state result summary in
      row <- fmt REPORT_VALUES (row_args result state) ;;
      render_rows fmt REPORT_VALUES rest (report_values ++ row) summary
  end.

(** The [except (IOError, TypeError)] clause of the publisher. *)
Definition publisher_handler (e : exn) : exn :=
  match e with
  | IOError | TypeError => NVAutomationError "Unable to publish the result: "
  | _ => e
  end.

Definition publish_verification_result (w : world) (fmt : formatter)
    (result_list : list VerificationItem) (report_file : string)
  : result unit * list event :=
  let summary := REPORT_SUMMARY_PASSED in
  let summary :=
    match result_list with
    | [] => REPORT_SUMMARY_FAILED
    | _ => summary
    end in
  match _read_report_template w REPORT_TEMPLATE_FILE with
  | Raise e => (Raise e, [])
  | Ok (REPORT_HEADER, REPORT_VALUES, REPORT_FOOTER) =>
      if writable w report_file then
        match
          (rendered <- render_rows fmt REPORT_VALUES result_list "" summary ;;
           let '(report_values, summary) := rendered in
           footer <- fmt REPORT_FOOTER [PStr summary] ;;
           Ok (REPORT_HEADER ++ report_values ++ footer))
        with
        | Ok content =>
            (Ok tt, [Opened report_file; WroteText report_file content])
        | Raise e => (Raise (publisher_handler e), [Opened report_file])
        end
      else (Raise (publisher_handler IOError), [])
  end.

(** [verify] from the point where both lists have been read.
    [report_file] is [None] for the default argument; an empty name is as
    false as [None]. *)
Definition verify_items (w : world) (fmt : formatter)
    (input_nv_items output_nv_items : list NVItem)
    (report_file : option string)
  : result (list VerificationItem) * list event :=
  match input_nv_items, output_nv_items with
  | [], _ | _, [] =>
      (Raise (NVAutomationError
                "Can't verify. Problem in input or output nv items."), [])
  | _, _ =>
      let verification_result_list :=
        verify_loop input_nv_items output_nv_items [] in
      match report_file with
      | None | Some "" => (Ok verification_result_list, [])
      | Some f =>
          match publish_verification_result w fmt verification_result_list f
          with
          | (Raise e, evs) => (Raise e, evs)
          | (Ok _, evs) => (Ok verification_result_list, evs)
          end
      end
  end.

Definition verify (w : world) (fmt : formatter) (self : automation)
    (report_file : option string)
  : result (list VerificationItem) * list event :=
  match _read_nv_items w (input_file self) with
  | Raise e => (Raise e, [])
  | Ok read_items =>
      match _update_nv_items_with_def_file w self read_items with
      | Raise e => (Raise e, [])
      | Ok input_nv_items =>
          match _read_nv_items w (out_file self) with
          | Raise e => (Raise e, [])
          | Ok output_nv_items =>
              verify_items w fmt input_nv_items output_nv_items report_file
          end
      end
  end.

(** A formatter for the examples: the conversions [%s], [%d] and [%%] of
    the [%] operator.  Too few or too many arguments, or text given to
    [%d], raise TypeError; any other conversion raises ValueError. *)
Definition pyval_text (v : pyval) : string :=
  match v with
  | PInt n => PyStr.str_of_int n
  | PStr s => s
  end.

Fixpoint format_percent (template : string) (args : list pyval)
  : result string :=
  match template with
  | EmptyString =>
      match args with
      | [] => Ok EmptyString
      | _ => Raise TypeError
      end
  | String "%" EmptyString => Raise ValueError
  | String "%" (String c rest) =>
      if Ascii.eqb c "%" then
        r <- format_percent rest args ;; Ok (String "%" r)
      else if Ascii.eqb c "s" then
        match args with
        | a :: args' =>
            r <- format_percent rest args' ;; Ok (pyval_text a ++ r)
        | [] => Raise TypeError
        end
      else if Ascii.eqb c "d" then
        match args with
        | PInt n :: args' =>
            r <- format_percent rest args' ;; Ok (PyStr.str_of_int n ++ r)
        | _ => Raise TypeError
        end
      else Raise ValueError
  | String c rest => r <- format_percent rest args ;; Ok (String c r)
  end.

(** ** Module [verification]: the device reader *)

Definition QCT_COMMAND_TOOL_NAME : string := "qmsl_nvtool_msvc7r.exe".

(** [s.split(sep)] for a separator of one character: the pieces between
    the separators, empty pieces included. *)
Fixpoint split_on (sep : ascii) (s : string) : list string :=
  match s with
  | EmptyString => [EmptyString]
  | String c s' =>
      if Ascii.eqb c sep then EmptyString :: split_on sep s'
      else match split_on sep s' with
           | piece :: pieces => String c piece :: pieces
           | [] => [String c EmptyString]
           end
  end.

(** The machine the tool runs on: the PATH variable ([None] when it is
    not set), the path functions of [os], [processes.run_cmd], of whose
    result only the text [result[1]] is used ([None] stands for
    ChildExecutionError), what a launched command does to the files, and
    the files that [os.remove] can remove. *)
Record host : Type := mkHost {
  environ_PATH : option string;
  pathsep : ascii;
  path_join : string -> string -> string;
  isfile : string -> bool;
  access_X_OK : string -> bool;
  run_cmd : list string -> option string;
  after_run : list string -> world -> world;
  removable : string -> bool
}.

(** The exceptions of the outer layers: those of [exn], KeyError for a
    variable that is not set, SystemExit of the option parser, and the
    error class of the parameter module. *)
Inductive py_exn : Type :=
| Of (e : exn)
| KeyError
| SystemExit (code : Z)
| NVParameterError (msg : string).

Inductive outcome (A : Type) : Type :=
| Done (a : A)
| Failed (e : py_exn).
Arguments Done {A} a.
Arguments Failed {A} e.

Definition is_exe (h : host) (fpath : string) : bool :=
  isfile h fpath && access_X_OK h fpath.

(** The loop over the entries of PATH, left by [return True]. *)
Fixpoint tool_on_path (h : host) (PATH : list string) (command_tool : string)
  : bool :=
  match PATH with
  | [] => false
  | p :: rest =>
      if is_exe h (path_join h p command_tool) then true
      else tool_on_path h rest command_tool
  end.

Definition command_tool_exists (h : host) (command_tool : string)
  : outcome bool :=
  match environ_PATH h with
  | None => Failed KeyError
  | Some path => Done (tool_on_path h (split_on (pathsep h) path) command_tool)
  end.

(** The argument vector of the tool. *)
Definition cmdandargs (self : automation) (definition_file : string)
  : list string :=
  [QCT_COMMAND_TOOL_NAME; "-ph2src"; "-def=" ++ definition_file;
   "-src=" ++ out_file self; "-qpst"; "-com=" ++ connection_port self].

(** The result, and the commands that were launched, oldest first. *)
Definition read_nv_items_from_phone (h : host) (self : automation)
    (definition_file : string) : outcome unit * list (list string) :=
  match command_tool_exists h QCT_COMMAND_TOOL_NAME with
  | Failed e => (Failed e, [])
  | Done false =>
      (Failed (Of (NVAutomationError
                     "QCT tool '%s' not found.  Check the path in your environment")),
       [])
  | Done true =>
      let cmd := cmdandargs self definition_file in
      match run_cmd h cmd with
      | None =>
          (Failed (Of (NVAutomationError
                         "Unable to run the QCT command tool: ")), [cmd])
      | Some output =>
          if PyStr.search "Command failed" output
          then (Failed (Of (NVAutomationError
                              "Invalid parameter used in QCT command tool.")),
                [cmd])
          else (Done tt, [cmd])
      end
  end.

(** ** Module [verification]: the command line *)

(** The options after parsing, with the defaults filled in; the report
    file and the port have none. *)
Record options : Type := mkOptions {
  opt_definition_file : string;
  opt_input_file : string;
  opt_output_file : string;
  opt_report_file : option string;
  opt_port_num : option string
}.

(** What a run of the command line does: what it does to files, the
    commands it launches and the files it removes, oldest first.  The
    messages of [logging] are left out. *)
Inductive action : Type :=
| OnFile (e : event)
| Launched (cmd : list string)
| Removed (path : string).

(** The lines of a text, each with the line feed that ends it. *)
Fixpoint keep_lines (s : string) : list string :=
  match s with
  | EmptyString => []
  | String c s' =>
      if Ascii.eqb c "010" then String c EmptyString :: keep_lines s'
      else match keep_lines s' with
           | line :: lines => String c line :: lines
           | [] => [String c EmptyString]
           end
  end.

(** The files after an event.  Parsing a file that [writexml] has written
    gives the written document under a new document element; a file that
    was only opened for writing is empty.  The text view of a written XML
    file and the parse of a written text file are left as they were: no
    stage of a run reads them. *)
Definition written (w : world) (ev : event) : world :=
  match ev with
  | Opened path =>
      mkWorld (fun p => if String.eqb p path then ParseExpatError
                        else parse w p)
              (fun p => if String.eqb p path then Some [] else readlines w p)
              (writable w)
  | WroteXml path root_name childNodes =>
      mkWorld (fun p => if String.eqb p path
                        then Parsed [Dom.Element
                                       (S (list_max (Dom.keys childNodes)))
                                       root_name [] childNodes]
                        else parse w p)
              (readlines w)
              (writable w)
  | WroteText path content =>
      mkWorld (parse w)
              (fun p => if String.eqb p path then Some (keep_lines content)
                        else readlines w p)
              (writable w)
  end.

(** [os.remove(path)] inside [try]: the removal, when it can be done. *)
Definition remove_quietly (h : host) (path : string) : list action :=
  if removable h path then [Removed path] else [].

(** The two ways to the report: [verify] with the default report file,
    or [verify] without one followed by the publisher. *)
Definition verify_and_publish (w : world) (fmt : formatter)
    (nv_automation : automation) (report_file : option string)
  : result unit * list event :=
  match report_file with
  | None =>
      match verify w fmt nv_automation (Some REPORT_FILE) with
      | (Raise e, evs) => (Raise e, evs)
      | (Ok _, evs) => (Ok tt, evs)
      end
  | Some f =>
      match verify w fmt nv_automation None with
      | (Raise e, evs) => (Raise e, evs)
      | (Ok result_list, evs) =>
          match publish_verification_result w fmt result_list f with
          | (r, evs') => (r, (evs ++ evs')%list)
          end
      end
  end.

(** [_main()] on parsed options; [uuid] is the text of the UUID drawn in
    [__init__]. *)
Definition _main (h : host) (w : world) (fmt : formatter) (uuid : string)
    (o : options) : outcome unit * list action :=
  match opt_port_num o with
  | None | Some "" => (Failed (SystemExit 2), [])
  | Some port_num =>
      let nv_automation :=
        mkAutomation (opt_definition_file o) (opt_input_file o) port_num
                     (NEW_DEFINITION_FILE_PREFIX ++ uuid ++ ".xml")
                     (opt_output_file o) in
      match create_new_definition_file w nv_automation with
      | (Raise e, evs) => (Failed (Of e), map OnFile evs)
      | (Ok _, evs) =>
          let w := fold_left written evs w in
          match read_nv_items_from_phone h nv_automation
                  (new_def_file nv_automation) with
          | (Failed (Of (NVAutomationError _)), cmds) =>
              (Failed (Of (NVAutomationError
                             "Unable to read nv items from phone: ")),
               (map OnFile evs ++ map Launched cmds
                ++ remove_quietly h (new_def_file nv_automation))%list)
          | (Failed e, cmds) =>
              (Failed e, (map OnFile evs ++ map Launched cmds)%list)
          | (Done _, cmds) =>
              let w := fold_left (fun w cmd => after_run h cmd w) cmds w in
              match verify_and_publish w fmt nv_automation
                      (opt_report_file o) with
              | (Raise e, evs') =>
                  (Failed (Of e),
                   (map OnFile evs ++ map Launched cmds
                    ++ map OnFile evs')%list)
              | (Ok _, evs') =>
                  (Done tt,
                   (map OnFile evs ++ map Launched cmds ++ map OnFile evs'
                    ++ remove_quietly h (new_def_file nv_automation))%list)
              end
          end
      end
  end.

(** ** Module [parameter] *)

(** [list(set(first_nvids).difference(set(second_nvids)))].  A Python
    set has no order of its own; the list here follows the first
    occurrences in [first_nvids]. *)
Definition find_unique (first_nvids second_nvids : list Z) : list Z :=
  nodup Z.eq_dec
    (filter (fun x => negb (existsb (Z.eqb x) second_nvids)) first_nvids).

(** [node.firstChild] *)
Definition firstChild (n : Dom.node) : option Dom.node :=
  match Dom.children n with
  | [] => None
  | c :: _ => Some c
  end.

(** The node with identity [k] as it is now in the forest [d]. *)
Definition node_of_key (k : nat) (d : list Dom.node) : option Dom.node :=
  find (fun n => Nat.eqb (Dom.key_of n) k) (Dom.nodes d).

(** [node.nodeValue = v], for the node with identity [k], wherever it is
    in the tree [n]: the data of a character-data node is replaced. *)
Fixpoint set_in (k : nat) (v : string) (n : Dom.node) : Dom.node :=
  match n with
  | Dom.Element k' t a cs => Dom.Element k' t a (map (set_in k v) cs)
  | Dom.Text k' d => if Nat.eqb k' k then Dom.Text k' v else n
  | Dom.Comment k' d => if Nat.eqb k' k then Dom.Comment k' v else n
  end.

Definition set_nodeValue (k : nat) (v : string) (t : Dom.trees)
  : Dom.trees :=
  Dom.mkTrees (map (set_in k v) (Dom.master t))
              (map (set_in k v) (Dom.root_tag t)).

(** The object behind the reference [target_item]: the node with its
    identity in the target document or under the new root. *)
Definition current (t : Dom.trees) (target_item : Dom.node) : Dom.node :=
  match node_of_key (Dom.key_of target_item) (Dom.master t) with
  | Some n => n
  | None =>
      match node_of_key (Dom.key_of target_item) (Dom.root_tag t) with
      | Some n => n
      | None => target_item
      end
  end.

(** [copy_existing]: [master] is the document that holds the target
    items and [root_tag] holds the children of [root_element].  ValueError
    of [int] and AttributeError of a missing first child or of a first
    child without text are raised again as NVParameterError, whose
    message ends with the text of the first error, left out here; the
    trees are given as they are when the function ends. *)
Fixpoint copy_existing (nvid : Z) (target_items : list Dom.node)
    (t : Dom.trees) : outcome unit * Dom.trees :=
  match target_items with
  | [] => (Done tt, t)
  | target_item :: rest =>
      let target_nvid := Dom.getAttribute target_item "id" in
      match PyStr.int target_nvid with
      | None => (Failed (NVParameterError "Invalid NV item found: "), t)
      | Some n =>
          if nvid =? n then
            match firstChild (current t target_item) with
            | None =>
                (Failed (NVParameterError "Invalid NV item found: "), t)
            | Some c =>
                match Dom.nodeValue c with
                | None =>
                    (Failed (NVParameterError "Invalid NV item found: "), t)
                | Some value =>
                    let target_value := PyStr.strip value in
                    let t := set_nodeValue (Dom.key_of c) target_value t in
                    let t := Dom.appendChild t target_item in
                    copy_existing nvid rest t
                end
            end
          else copy_existing nvid rest t
      end
  end.

Module NVParameter.

(** [parse]: the parsed document and the list of its [NvItem] elements;
    ExpatError and IOError of [minidom.parse] are raised again as
    NVParameterError.  The message ends with the text of the first error,
    which is left out here. *)
Definition parse (w : world) (parse_file : string)
  : outcome (Dom.document * list Dom.node) :=
  match parse w parse_file with
  | ParseExpatError =>
      Failed (NVParameterError
                ("Error in parsing the " ++ parse_file ++ " file: "))
  | ParseIOError =>
      Failed (NVParameterError
                ("Error in reading the " ++ parse_file ++ " file: "))
  | ParseOtherError e => Failed (Of e)
  | Parsed parsed_doc =>
      let parsed_items := Dom.getElementsByTagName parsed_doc "NvItem" in
      Done (parsed_doc, parsed_items)
  end.

End NVParameter.

(** ** Vocabulary of the statements *)

(** The first item of [l] with the key of [a]: what is before it does not
    have that key. *)
Definition first_with_key (a : NVItem) (l : list NVItem) (b : NVItem) : Prop :=
  exists before after,
    l = (before ++ b :: after)%list /\
    (forall x, In x before ->
       ~ (nv_id a = nv_id x /\ nv_name a = nv_name x)) /\
    nv_id a = nv_id b /\ nv_name a = nv_name b.

Definition no_key (a : NVItem) (l : list NVItem) : Prop :=
  forall x, In x l -> ~ (nv_id a = nv_id x /\ nv_name a = nv_name x).

Definition is_failed_nv (result : VerificationItem) : bool :=
  nv_type_eqb (nv_type_of (input_nv_item result)) NV_TYPE_NV
  && match verification_result_of result with
     | RESULT_NG => true
     | RESULT_OK => false
     end.

(** The verification state a row must show. *)
Definition state_rule (result : VerificationItem) (state : string) : Prop :=
  (nv_type_of (input_nv_item result) <> NV_TYPE_NV ->
   state = RESULT_SKIPPED) /\
  (nv_type_of (input_nv_item result) = NV_TYPE_NV ->
   verification_result_of result = RESULT_NG -> state = RESULT_FAILED) /\
  (nv_type_of (input_nv_item result) = NV_TYPE_NV ->
   verification_result_of result = RESULT_OK -> state = RESULT_PASSED).

(** Some result is a plain NV item whose comparison gave NG. *)
Definition has_failed_nv (result_list : list VerificationItem) : Prop :=
  exists result, In result result_list /\
    nv_type_of (input_nv_item result) = NV_TYPE_NV /\
    verification_result_of result = RESULT_NG.

(** The rows of a report, one after the other. *)
Definition join (rows : list string) : string :=
  fold_right String.append EmptyString rows.

(** [pat] occurs in [s]. *)
Definition occurs (pat s : string) : Prop :=
  exists before after, s = before ++ pat ++ after.

(** The three markers of the report template. *)
Definition markers : list string := ["%header%"; "%values%"; "%footer%"].

(** The first child of [tag] is missing or carries no text value. *)
Definition missing_text (tag : Dom.node) : Prop :=
  match Dom.children tag with
  | [] => True
  | c :: _ => Dom.nodeValue c = None
  end.

Definition missing_attribute (tag : Dom.node) : Prop :=
  Dom.hasAttribute tag "id" = false \/
  Dom.hasAttribute tag "name" = false \/
  Dom.hasAttribute tag "calibrated" = false.

(** The strict reading rule: every [NvItem] element with an id that is
    not an integer, without text content or without one of its attributes
    makes the read fail with the domain error. *)
Definition reader_rejects_incomplete_items : Prop :=
  forall (w : world) (nv_file : string) (dom : Dom.document) (tag : Dom.node),
    parse w nv_file = Parsed dom ->
    In tag (Dom.getElementsByTagName dom "NvItem") ->
    PyStr.int (Dom.getAttribute tag "id") = None \/
    missing_text tag \/ missing_attribute tag ->
    is_domain_error (_read_nv_items w nv_file).

(** The record that the reader builds from a tag with an integer id [i]
    and the text [v] in its first child. *)
Definition item_of_tag (tag : Dom.node) (i : Z) (v : string) : NVItem :=
  mkNVItem i (PyStr.strip (Dom.getAttribute tag "name")) (PyStr.strip v)
           (_get_nv_type i (Dom.getAttribute tag "calibrated")).

Definition readable_tag (tag : Dom.node) (item : NVItem) : Prop :=
  exists i v, PyStr.int (Dom.getAttribute tag "id") = Some i /\
    first_child_value tag = Ok (Some v) /\
    item = item_of_tag tag i v.

(** A node that cannot have children: character data. *)
Definition is_leaf (n : Dom.node) : bool :=
  match n with
  | Dom.Element _ _ _ _ => false
  | _ => true
  end.

(** A declaration of a definition document: a [DataType] or an [NvItem]
    element. *)
Definition is_decl (n : Dom.node) : bool :=
  Dom.has_tag "DataType" n || Dom.has_tag "NvItem" n.

Definition declarations (d : Dom.document) : list Dom.node :=
  filter is_decl (Dom.nodes d).

(** The shape of a definition document: declarations follow one another,
    none lies inside another one. *)
Definition flat_declarations (d : Dom.document) : Prop :=
  forall n x, In n (Dom.nodes d) -> is_decl n = true ->
    In x (Dom.nodes (Dom.children n)) -> is_decl x = false.

(** The two conditions on a master document, as tests. *)
Definition flat_declarationsb (d : Dom.document) : bool :=
  forallb (fun n => negb (is_decl n)
                    || forallb (fun x => negb (is_decl x))
                               (Dom.nodes (Dom.children n)))
          (Dom.nodes d).

Fixpoint distinctb (l : list nat) : bool :=
  match l with
  | [] => true
  | k :: l' => negb (existsb (Nat.eqb k) l') && distinctb l'
  end.

(** The id of [tag], read as an integer, is one of [ids]. *)
Definition listed (ids : list Z) (tag : Dom.node) : bool :=
  match PyStr.int (Dom.getAttribute tag "id") with
  | Some n => existsb (Z.eqb n) ids
  | None => false
  end.

Definition other_key (k : nat) (n : Dom.node) : bool :=
  negb (Nat.eqb (Dom.key_of n) k).

Definition not_among (l : list Dom.node) (n : Dom.node) : bool :=
  negb (existsb (Nat.eqb (Dom.key_of n)) (map Dom.key_of l)).

(** What the loops of the trimmer keep true: all keys are distinct, and
    what is left of the master document is a definition document. *)
Definition trimmer_invariant (t : Dom.trees) : Prop :=
  NoDup (Dom.keys (Dom.master t) ++ Dom.keys (Dom.root_tag t)) /\
  flat_declarations (Dom.master t).

(** White space is at neither end of [s]. *)
Definition no_outer_space (s : string) : Prop :=
  (forall c s', s = String c s' -> PyStr.isspace c = false) /\
  (forall s' c, s = s' ++ String c "" -> PyStr.isspace c = false).

(** The type EFS goes with the ids above the EFS range, and with no
    other id. *)
Definition efs_by_id (item : NVItem) : Prop :=
  nv_type_of item = NV_TYPE_EFS <-> nv_id item > NV_TYPE_EFS_RANGE.

(** The pair an item is matched by. *)
Definition item_key (item : NVItem) : Z * string :=
  (nv_id item, nv_name item).

(** The device-read list [outs] does not confirm the input item [i]: no
    item has its id and name, or the first one that has them holds other
    values. *)
Definition mismatch (i : NVItem) (outs : list NVItem) : Prop :=
  no_key i outs \/
  exists o, first_with_key i outs o /\ nv_values i <> nv_values o.

(** The part of the report that a template line stands for: the first of
    header, values and footer whose marker the line holds. *)
Inductive role : Type := Header | Values | Footer.

Definition role_marker (r : role) : string :=
  match r with
  | Header => "%header%"
  | Values => "%values%"
  | Footer => "%footer%"
  end.

Definition line_role (line : string) : option role :=
  if PyStr.search "%header%" line then Some Header
  else if PyStr.search "%values%" line then Some Values
  else if PyStr.search "%footer%" line then Some Footer
  else None.

Definition role_eqb (a : option role) (r : role) : bool :=
  match a, r with
  | Some Header, Header | Some Values, Values | Some Footer, Footer => true
  | _, _ => false
  end.

(** The text of the last line of [lines] that stands for [r]: the line
    without outer white space and without the marker. *)
Fixpoint last_of_role (r : role) (lines : list string) : option string :=
  match lines with
  | [] => None
  | line :: rest =>
      match last_of_role r rest with
      | Some text => Some text
      | None =>
          if role_eqb (line_role line) r
          then Some (PyStr.remove (role_marker r) (PyStr.strip line))
          else None
      end
  end.

(** Some entry of the PATH variable holds an executable file named
    [tool]. *)
Definition on_PATH (h : host) (tool : string) : Prop :=
  exists path p, environ_PATH h = Some path /\
    In p (split_on (pathsep h) path) /\
    isfile h (path_join h p tool) = true /\
    access_X_OK h (path_join h p tool) = true.

(** The id of [tag], read as an integer, is [nvid]. *)
Definition has_id (nvid : Z) (tag : Dom.node) : bool :=
  match PyStr.int (Dom.getAttribute tag "id") with
  | Some n => nvid =? n
  | None => false
  end.

(** A character-data node with its text stripped, and an element with
    the text of its first child stripped. *)
Definition strip_data (c : Dom.node) : Dom.node :=
  match c with
  | Dom.Text k d => Dom.Text k (PyStr.strip d)
  | Dom.Comment k d => Dom.Comment k (PyStr.strip d)
  | _ => c
  end.

Definition with_stripped_text (n : Dom.node) : Dom.node :=
  match n with
  | Dom.Element k t a (c :: cs) => Dom.Element k t a (strip_data c :: cs)
  | _ => n
  end.

(** The first child of [tag] is character data. *)
Definition has_text (tag : Dom.node) : Prop :=
  exists c value, firstChild tag = Some c /\ Dom.nodeValue c = Some value.

(** An item that [copy_existing] can pass: its id is an integer, and it
    has a text to strip when its id is the one looked for. *)
Definition copyable (nvid : Z) (tag : Dom.node) : Prop :=
  PyStr.int (Dom.getAttribute tag "id") <> None /\
  (has_id nvid tag = true -> has_text tag).

(** The trimming rule for every master document, whatever its shape: an
    [NvItem] element of the master document is somewhere in the written
    file exactly when its id, read as an integer, is among the input
    ids. *)
Definition trimmer_keeps_listed_items_only : Prop :=
  forall (w : world) (self : automation) (ids : list Z)
         (dom : Dom.document) (r : option string) (evs : list event)
         (kept : list Dom.node) (e : Dom.node),
    read_input_file w self None = Ok ids ->
    parse w (definition_file self) = Parsed dom ->
    NoDup (Dom.keys dom) ->
    create_new_definition_file w self = (Ok r, evs) ->
    In (WroteXml (new_def_file self) "NvDefinition" kept) evs ->
    In e (Dom.getElementsByTagName dom "NvItem") ->
    (In e (Dom.nodes kept) <->
     exists n, PyStr.int (Dom.getAttribute e "id") = Some n /\ In n ids).

(** ** A small run, used in the examples *)

(** [<NvItem id=.. name=.. calibrated=..>value</NvItem>]; the text node
    takes the next key. *)
Definition nv_tag (key : nat) (id name calibrated value : string) : Dom.node :=
  Dom.Element key "NvItem"
    [("id", id); ("name", name); ("calibrated", calibrated)]
    [Dom.Text (S key) value].

Definition input_xml : Dom.document :=
  [Dom.Element 0 "NvSource" []
     [nv_tag 1 "1" "a" "false" "5";
      nv_tag 3 "2" " b " "true" " 3 ";
      nv_tag 5 "3" "c" "false" "7"]].

Definition data_type_tag (key : nat) (name : string) : Dom.node :=
  Dom.Element key "DataType" [("name", name)]
    [Dom.Element (S key) "Member" [("type", "uint8")] []].

Definition definition_xml : Dom.document :=
  [Dom.Element 10 "NvDefinition" []
     [data_type_tag 11 "t1";
      nv_tag 13 "1" "a" "false" "uint8";
      nv_tag 15 "2" "b" "true" "uint8";
      nv_tag 17 "4" "d" "false" "t1";
      data_type_tag 19 "t2";
      nv_tag 21 "3" "c" "false" "t2"]].

Definition new_definition_xml : Dom.document :=
  [Dom.Element 30 "NvDefinition" []
     [data_type_tag 11 "t1";
      data_type_tag 19 "t2";
      nv_tag 13 "1" "a" "false" "uint8";
      nv_tag 15 "2" "b" "true" "uint8";
      nv_tag 21 "3" "c" "false" "t2"]].

Definition nv_out_xml : Dom.document :=
  [Dom.Element 40 "NvSource" []
     [nv_tag 41 "2" "b" "false" "9";
      nv_tag 43 "1" "a" "false" "5";
      nv_tag 45 "3" "x" "false" "7"]].

Definition template_lines : list string :=
  ["<html><table>%header%";
   "<tr>%d|%s|%s|%s|%s|%s|%s</tr>%values%";
   "</table>%s</html>%footer%"].

Definition run_self : automation :=
  mkAutomation "definition.xml" "input.xml" "COM3"
               "new_definition_1b4e28ba.xml" "nv_out.xml".

Definition run_world : world :=
  mkWorld
    (fun path =>
       if String.eqb path "definition.xml" then Parsed definition_xml
       else if String.eqb path "input.xml" then Parsed input_xml
       else if String.eqb path "new_definition_1b4e28ba.xml"
            then Parsed new_definition_xml
       else if String.eqb path "nv_out.xml" then Parsed nv_out_xml
       else ParseIOError)
    (fun path =>
       if String.eqb path REPORT_TEMPLATE_FILE then Some template_lines
       else None)
    (fun _ => true).

Definition run_input_items : list NVItem :=
  [mkNVItem 1 "a" "5" NV_TYPE_NV;
   mkNVItem 2 "b" "3" NV_TYPE_TA;
   mkNVItem 3 "c" "7" NV_TYPE_NV].

Definition run_definition_items : list NVItem :=
  [mkNVItem 1 "a" "uint8" NV_TYPE_NV;
   mkNVItem 2 "b" "uint8" NV_TYPE_TA;
   mkNVItem 3 "c" "t2" NV_TYPE_NV].

Definition run_output_items : list NVItem :=
  [mkNVItem 2 "b" "9" NV_TYPE_NV;
   mkNVItem 1 "a" "5" NV_TYPE_NV;
   mkNVItem 3 "x" "7" NV_TYPE_NV].

(** The same run with a device that gave nothing back. *)
Definition silent_world : world :=
  mkWorld
    (fun path =>
       if String.eqb path "nv_out.xml"
       then Parsed [Dom.Element 40 "NvSource" [] []]
       else parse run_world path)
    (readlines run_world)
    (writable run_world).

Definition run_results : list VerificationItem :=
  [mkVerificationItem (mkNVItem 1 "a" "5" NV_TYPE_NV)
     (mkNVItem 1 "a" "5" NV_TYPE_NV) RESULT_OK;
   mkVerificationItem (mkNVItem 2 "b" "3" NV_TYPE_TA)
     (mkNVItem 2 "b" "9" NV_TYPE_NV) RESULT_NG;
   mkVerificationItem (mkNVItem 3 "c" "7" NV_TYPE_NV)
     (mkNVItem (-1) "" "" NV_TYPE_NV) RESULT_NG].

Definition run_report : string :=
  "<html><table>"
  ++ "<tr>1|5|5|a|a|NV|<span style='color:green;'>PASSED</span></tr>"
  ++ "<tr>2|3|9|b|b|TA|<span style='color:gray;'>SKIPPED</span></tr>"
  ++ "<tr>3|7||c||NV|<span style='color:red;'>FAILED</span></tr>"
  ++ "</table><span style='color:red;'>FAILED</span></html>".

Definition run_events : list event :=
  [Opened "report.html"; WroteText "report.html" run_report].

(** A template in which the values line is missing. *)
Definition broken_world : world :=
  mkWorld (parse run_world)
          (fun path =>
             if String.eqb path REPORT_TEMPLATE_FILE
             then Some ["<html>%header%"; "</html>%footer%"]
             else None)
          (writable run_world).

(** An input file whose only item has neither a name nor a calibrated
    attribute. *)
Definition bare_world : world :=
  mkWorld
    (fun _ => Parsed [Dom.Element 0 "NvSource" []
                        [Dom.Element 1 "NvItem" [("id", "7")]
                           [Dom.Text 2 " 5 "]]])
    (fun _ => None)
    (fun _ => true).

(** An input file with a good item in front of one whose id is a word. *)
Definition word_id_world : world :=
  mkWorld
    (fun _ => Parsed [Dom.Element 0 "NvSource" []
                        [nv_tag 1 "1" "a" "false" "5";
                         nv_tag 3 "two" "b" "false" "6"]])
    (fun _ => None)
    (fun _ => true).

(** A master document outside the shape of a definition document: an
    [NvItem] element lies inside a [DataType] element. *)
Definition nested_world : world :=
  mkWorld
    (fun path =>
       if String.eqb path "definition.xml"
       then Parsed [Dom.Element 10 "NvDefinition" []
                      [Dom.Element 11 "DataType" [("name", "t1")]
                         [nv_tag 12 "9" "z" "false" "uint8"];
                       nv_tag 14 "1" "a" "false" "t1"]]
       else parse run_world path)
    (readlines run_world)
    (writable run_world).

(** A formatter for a values line whose slots do not fit the arguments. *)
Definition failing_format : formatter := fun _ _ => Raise TypeError.

(** A master document with an id that is a word. *)
Definition word_master_xml : Dom.document :=
  [Dom.Element 10 "NvDefinition" []
     [data_type_tag 11 "t1";
      nv_tag 13 "one" "a" "false" "uint8";
      nv_tag 15 "2" "b" "true" "uint8"]].

(** The run with that master document, and the same with an input file
    that holds no item. *)
Definition word_master_world : world :=
  mkWorld
    (fun path =>
       if String.eqb path "definition.xml" then Parsed word_master_xml
       else parse run_world path)
    (readlines run_world)
    (writable run_world).

Definition no_input_world : world :=
  mkWorld
    (fun path =>
       if String.eqb path "input.xml"
       then Parsed [Dom.Element 0 "NvSource" [] []]
       else parse word_master_world path)
    (readlines run_world)
    (writable run_world).

(** The run with a definition file that does not exist. *)
Definition lost_self : automation :=
  mkAutomation "missing.xml" "input.xml" "COM3"
               "new_definition_1b4e28ba.xml" "nv_out.xml".

(** A Windows host with the tool in the second entry of PATH; the tool
    answers with the text in [answer], or cannot be launched. *)
Definition tool_host (answer : option string) : host :=
  mkHost (Some "C:\bin;C:\qct")
         ";"
         (fun dir name => dir ++ "\" ++ name)
         (fun path => String.eqb path "C:\qct\qmsl_nvtool_msvc7r.exe")
         (fun _ => true)
         (fun _ => answer)
         (fun _ w => w)
         (fun _ => true).

(** The same host without a PATH variable. *)
Definition bare_host : host :=
  mkHost None ";" (fun dir name => dir ++ "\" ++ name)
         (fun _ => true) (fun _ => true) (fun _ => Some "") (fun _ w => w)
         (fun _ => true).

(** The options of the run, and of a run without a report option. *)
Definition run_options : options :=
  mkOptions "definition.xml" "input.xml" "nv_out.xml" (Some "report.html")
            (Some "COM3").

Definition default_options : options :=
  mkOptions "definition.xml" "input.xml" "nv_out.xml" None (Some "COM3").

(** A host whose tool leaves nothing in the output file. *)
Definition silent_host : host :=
  mkHost (Some "C:\bin;C:\qct")
         ";"
         (fun dir name => dir ++ "\" ++ name)
         (fun path => String.eqb path "C:\qct\qmsl_nvtool_msvc7r.exe")
         (fun _ => true)
         (fun _ => Some "done")
         (fun _ w =>
            mkWorld (fun path =>
                       if String.eqb path "nv_out.xml"
                       then Parsed [Dom.Element 40 "NvSource" [] []]
                       else parse w path)
                    (readlines w) (writable w))
         (fun _ => true).

(** A target document of [copy_existing] in which the second of two
    items with id 2 has no text. *)
Definition empty_item : Dom.node :=
  Dom.Element 3 "NvItem" [("id", "2"); ("name", "b")] [].

Definition gapped_xml : Dom.document :=
  [Dom.Element 0 "NvSource" []
     [nv_tag 1 "2" "a" "false" " 5 "; empty_item;
      nv_tag 4 "2" "c" "false" "7"]].


(** * Properties *)

(** ** Classification of an item *)

(** C2: an id above 65535 gives EFS whatever the calibrated attribute is;
    otherwise the calibrated text, stripped and lowercased, gives TA for
    "true", ETS for "ets" and NV for anything else. *)
Theorem get_nv_type_classification (id : Z) (calibrated : string) :
  _get_nv_type id calibrated =
    if id >? 65535 then NV_TYPE_EFS
    else if String.eqb (PyStr.lower (PyStr.strip calibrated)) "true"
         then NV_TYPE_TA
         else if String.eqb (PyStr.lower (PyStr.strip calibrated)) "ets"
              then NV_TYPE_ETS
              else NV_TYPE_NV.
Proof.
  unfold _get_nv_type, NV_TYPE_EFS_RANGE.
  destruct (id >? 65535); reflexivity.
Qed.

Example get_nv_type_efs : _get_nv_type 65536 " True " = NV_TYPE_EFS.
Proof. reflexivity. Qed.

Example get_nv_type_ta : _get_nv_type 65535 " True " = NV_TYPE_TA.
Proof. reflexivity. Qed.

Example get_nv_type_ets : _get_nv_type 7 "ETS" = NV_TYPE_ETS.
Proof. reflexivity. Qed.

Example get_nv_type_nv : _get_nv_type 7 "false" = NV_TYPE_NV.
Proof. reflexivity. Qed.

(** ** Matching by id and name *)

Lemma same_key_spec (a b : NVItem) :
  same_key a b = true <-> nv_id a = nv_id b /\ nv_name a = nv_name b.
Proof.
  unfold same_key. rewrite andb_true_iff, Z.eqb_eq, String.eqb_eq. tauto.
Qed.

Lemma same_key_false (a b : NVItem) :
  same_key a b = false <-> ~ (nv_id a = nv_id b /\ nv_name a = nv_name b).
Proof.
  rewrite <- same_key_spec. destruct (same_key a b); split; intros H.
  - discriminate.
  - exfalso. now apply H.
  - intros E. discriminate.
  - reflexivity.
Qed.

Lemma find_output_some (a : NVItem) (l : list NVItem) (b : NVItem) :
  find_output a l = Some b -> first_with_key a l b.
Proof.
  induction l as [|x l IH]; simpl; intros H.
  - discriminate.
  - destruct (same_key a x) eqn:E.
    + injection H as <-. exists [], l. split; [reflexivity|].
      split; [intros y []|]. now apply same_key_spec.
    + destruct (IH H) as (before & after & -> & Hb & Hk).
      exists (x :: before), after. split; [reflexivity|].
      split; [|exact Hk].
      intros y [<-|Hy]; [now apply same_key_false | now apply Hb].
Qed.

Lemma find_output_none (a : NVItem) (l : list NVItem) :
  find_output a l = None -> no_key a l.
Proof.
  induction l as [|x l IH]; simpl; intros H y Hy.
  - destruct Hy.
  - destruct (same_key a x) eqn:E; [discriminate|].
    destruct Hy as [<-|Hy]; [now apply same_key_false | now apply IH].
Qed.

Lemma first_with_key_no_key (a b : NVItem) (l : list NVItem) :
  first_with_key a l b -> no_key a l -> False.
Proof.
  intros (before & after & -> & _ & Hk) Hn.
  apply (Hn b); [apply in_or_app; right; now left | exact Hk].
Qed.

(** ** Re-typing the input items *)

Lemma retype_fields (i : NVItem) (defs : list NVItem) :
  nv_id (retype i defs) = nv_id i /\
  nv_name (retype i defs) = nv_name i /\
  nv_values (retype i defs) = nv_values i.
Proof.
  induction defs as [|d defs IH]; simpl.
  - auto.
  - destruct (_ && _); simpl; auto.
Qed.

Lemma retype_type (i : NVItem) (defs : list NVItem) :
  (exists d, first_with_key i defs d /\
             nv_type_of (retype i defs) = nv_type_of d) \/
  (no_key i defs /\ retype i defs = i).
Proof.
  induction defs as [|d defs IH]; simpl.
  - right. split; [intros x []|reflexivity].
  - fold (same_key i d). destruct (same_key i d) eqn:E.
    + left. exists d. split; [|reflexivity].
      exists [], defs. split; [reflexivity|].
      split; [intros x []|now apply same_key_spec].
    + destruct IH as [(d' & (before & after & -> & Hb & Hk) & Ht)|[Hn He]].
      * left. exists d'. split; [|exact Ht].
        exists (d :: before), after. split; [reflexivity|].
        split; [|exact Hk].
        intros x [<-|Hx]; [now apply same_key_false | now apply Hb].
      * right. split; [|exact He].
        intros x [<-|Hx]; [now apply same_key_false | now apply Hn].
Qed.

(** C9: the re-typing step keeps the length and the order of the input
    list and every item's id, name and values; an item takes the type of
    the first definition item with the same id and the same name, and an
    item for which no definition item has both is left as it was. *)
Theorem update_changes_type_only (w : world) (self : automation)
    (input_nv_item_list def_nv_item_list : list NVItem) :
  _read_nv_items w (new_def_file self) = Ok def_nv_item_list ->
  exists updated,
    _update_nv_items_with_def_file w self input_nv_item_list = Ok updated /\
    List.length updated = List.length input_nv_item_list /\
    forall k i, nth_error input_nv_item_list k = Some i ->
      exists o, nth_error updated k = Some o /\
        nv_id o = nv_id i /\ nv_name o = nv_name i /\
        nv_values o = nv_values i /\
        ((exists d, first_with_key i def_nv_item_list d /\
                    nv_type_of o = nv_type_of d) \/
         (no_key i def_nv_item_list /\ o = i)).
Proof.
  intros Hread. unfold _update_nv_items_with_def_file. rewrite Hread. simpl.
  eexists. split; [reflexivity|]. unfold update_items.
  split; [apply length_map|].
  intros k i Hk. exists (retype i def_nv_item_list).
  split; [exact (map_nth_error (fun x => retype x def_nv_item_list) _ _ Hk)|].
  destruct (retype_fields i def_nv_item_list) as (H1 & H2 & H3).
  repeat (split; [assumption|]). apply retype_type.
Qed.

(** ** The comparison *)

Lemma verify_loop_map (ins outs : list NVItem) (acc : list VerificationItem) :
  verify_loop ins outs acc
  = (acc ++ map (fun i => verify_item i outs) ins)%list.
Proof.
  revert acc. induction ins as [|i ins IH]; intros acc; simpl.
  - now rewrite app_nil_r.
  - rewrite IH, <- app_assoc. reflexivity.
Qed.

Lemma verify_item_input (i : NVItem) (outs : list NVItem) :
  input_nv_item (verify_item i outs) = i.
Proof.
  unfold verify_item. destruct (find_output i outs); [|reflexivity].
  destruct (String.eqb _ _); reflexivity.
Qed.

Lemma verify_item_cases (i : NVItem) (outs : list NVItem) :
  (exists o, first_with_key i outs o /\
     output_nv_item (verify_item i outs) = o /\
     (nv_values i = nv_values o ->
      verification_result_of (verify_item i outs) = RESULT_OK) /\
     (nv_values i <> nv_values o ->
      verification_result_of (verify_item i outs) = RESULT_NG)) \/
  (no_key i outs /\
   output_nv_item (verify_item i outs) = mkNVItem (-1) "" "" NV_TYPE_NV /\
   verification_result_of (verify_item i outs) = RESULT_NG).
Proof.
  unfold verify_item. destruct (find_output i outs) as [o|] eqn:E.
  - left. exists o. split; [now apply find_output_some|].
    destruct (String.eqb_spec (nv_values i) (nv_values o)); simpl;
      repeat split; congruence.
  - right. split; [now apply find_output_none|]. split; reflexivity.
Qed.

Lemma verify_items_nonempty (w : world) (fmt : formatter)
    (ins outs : list NVItem) (rf : option string) :
  ins <> [] -> outs <> [] ->
  verify_items w fmt ins outs None = (Ok (verify_loop ins outs []), []) /\
  forall l, fst (verify_items w fmt ins outs rf) = Ok l ->
            l = verify_loop ins outs [].
Proof.
  intros Hi Ho. destruct ins as [|i ins]; [congruence|].
  destruct outs as [|o outs]; [congruence|].
  split; [reflexivity|]. intros l. unfold verify_items.
  destruct rf as [[|c f]|]; simpl fst;
    try (intros [= <-]; reflexivity).
  match goal with
  | |- context [publish_verification_result ?a ?b ?c ?d] =>
      destruct (publish_verification_result a b c d) as [[[]|e] evs]
  end; simpl; [intros [= <-]; reflexivity | discriminate].
Qed.

Lemma verify_reads (w : world) (fmt : formatter) (self : automation)
    (read_items ins outs : list NVItem) (rf : option string) :
  _read_nv_items w (input_file self) = Ok read_items ->
  _update_nv_items_with_def_file w self read_items = Ok ins ->
  _read_nv_items w (out_file self) = Ok outs ->
  verify w fmt self rf = verify_items w fmt ins outs rf.
Proof.
  intros H1 H2 H3. unfold verify. now rewrite H1, H2, H3.
Qed.

(** C1: with both lists non-empty, [verify] returns one result per input
    item, in the order of the input list, each holding its input item.  An
    input item is paired with the first device-read item that has the same
    id and the same name, and the result is OK when the value texts are
    equal and NG when they differ; when no device-read item has both the
    id and the name, the result is NG and the output is the empty item
    with id -1. *)
Theorem verify_one_result_per_input (w : world) (fmt : formatter)
    (self : automation)
    (read_items input_nv_items output_nv_items : list NVItem) :
  _read_nv_items w (input_file self) = Ok read_items ->
  _update_nv_items_with_def_file w self read_items = Ok input_nv_items ->
  _read_nv_items w (out_file self) = Ok output_nv_items ->
  input_nv_items <> [] -> output_nv_items <> [] ->
  exists l,
    verify w fmt self None = (Ok l, []) /\
    (forall report_file l',
       fst (verify w fmt self report_file) = Ok l' -> l' = l) /\
    List.length l = List.length input_nv_items /\
    forall k i, nth_error input_nv_items k = Some i ->
      exists v, nth_error l k = Some v /\ input_nv_item v = i /\
        ((exists o, first_with_key i output_nv_items o /\
            output_nv_item v = o /\
            (nv_values i = nv_values o ->
             verification_result_of v = RESULT_OK) /\
            (nv_values i <> nv_values o ->
             verification_result_of v = RESULT_NG)) \/
         (no_key i output_nv_items /\
          output_nv_item v = mkNVItem (-1) "" "" NV_TYPE_NV /\
          verification_result_of v = RESULT_NG)).
Proof.
  intros H1 H2 H3 Hi Ho.
  exists (verify_loop input_nv_items output_nv_items []).
  split.
  { rewrite (verify_reads _ _ _ _ _ _ _ H1 H2 H3).
    now apply (verify_items_nonempty w fmt _ _ None). }
  split.
  { intros rf l'. rewrite (verify_reads _ _ _ _ _ _ _ H1 H2 H3).
    now apply verify_items_nonempty. }
  rewrite verify_loop_map. simpl app.
  split; [apply length_map|].
  intros k i Hk. exists (verify_item i output_nv_items).
  split; [exact (map_nth_error (fun x => verify_item x output_nv_items) _ _ Hk)|].
  split; [apply verify_item_input | apply verify_item_cases].
Qed.

(** C6: when the input list or the device-read list is empty, [verify]
    raises the domain error: no result list is returned, and nothing is
    opened or written, so no report exists. *)
Theorem verify_empty_list_fails (w : world) (fmt : formatter)
    (self : automation)
    (read_items input_nv_items output_nv_items : list NVItem)
    (report_file : option string) :
  _read_nv_items w (input_file self) = Ok read_items ->
  _update_nv_items_with_def_file w self read_items = Ok input_nv_items ->
  _read_nv_items w (out_file self) = Ok output_nv_items ->
  input_nv_items = [] \/ output_nv_items = [] ->
  exists msg,
    verify w fmt self report_file = (Raise (NVAutomationError msg), []).
Proof.
  intros H1 H2 H3 He.
  rewrite (verify_reads _ _ _ _ _ _ _ H1 H2 H3).
  eexists. unfold verify_items.
  destruct He as [-> | ->]; [reflexivity|].
  destruct input_nv_items; reflexivity.
Qed.

Lemma run_reads :
  _read_nv_items run_world (input_file run_self) = Ok run_input_items /\
  _read_nv_items run_world (new_def_file run_self) = Ok run_definition_items /\
  _read_nv_items run_world (out_file run_self) = Ok run_output_items /\
  _update_nv_items_with_def_file run_world run_self run_input_items
  = Ok run_input_items.
Proof. repeat split; vm_compute; reflexivity. Qed.

Lemma update_changes_type_only_witness :
  exists updated,
    _update_nv_items_with_def_file run_world run_self
      [mkNVItem 2 "b" "3" NV_TYPE_NV; mkNVItem 2 "z" "3" NV_TYPE_ETS]
    = Ok updated /\
    List.length updated = 2%nat /\
    forall k i,
      nth_error [mkNVItem 2 "b" "3" NV_TYPE_NV; mkNVItem 2 "z" "3" NV_TYPE_ETS] k
      = Some i ->
      exists o, nth_error updated k = Some o /\
        nv_id o = nv_id i /\ nv_name o = nv_name i /\
        nv_values o = nv_values i /\
        ((exists d, first_with_key i run_definition_items d /\
                    nv_type_of o = nv_type_of d) \/
         (no_key i run_definition_items /\ o = i)).
Proof.
  apply (update_changes_type_only run_world run_self
           [mkNVItem 2 "b" "3" NV_TYPE_NV; mkNVItem 2 "z" "3" NV_TYPE_ETS]
           run_definition_items).
  vm_compute; reflexivity.
Defined.

Example update_retypes_by_id_and_name :
  _update_nv_items_with_def_file run_world run_self
    [mkNVItem 2 "b" "3" NV_TYPE_NV; mkNVItem 2 "z" "3" NV_TYPE_ETS]
  = Ok [mkNVItem 2 "b" "3" NV_TYPE_TA; mkNVItem 2 "z" "3" NV_TYPE_ETS].
Proof. vm_compute; reflexivity. Qed.

Lemma verify_one_result_per_input_witness :
  run_input_items <> [] /\ run_output_items <> [] /\
  exists l,
    verify run_world format_percent run_self None = (Ok l, []) /\
    (forall report_file l',
       fst (verify run_world format_percent run_self report_file) = Ok l' ->
       l' = l) /\
    List.length l = List.length run_input_items /\
    forall k i, nth_error run_input_items k = Some i ->
      exists v, nth_error l k = Some v /\ input_nv_item v = i /\
        ((exists o, first_with_key i run_output_items o /\
            output_nv_item v = o /\
            (nv_values i = nv_values o ->
             verification_result_of v = RESULT_OK) /\
            (nv_values i <> nv_values o ->
             verification_result_of v = RESULT_NG)) \/
         (no_key i run_output_items /\
          output_nv_item v = mkNVItem (-1) "" "" NV_TYPE_NV /\
          verification_result_of v = RESULT_NG)).
Proof.
  split; [discriminate|]. split; [discriminate|].
  apply (verify_one_result_per_input run_world format_percent run_self
           run_input_items run_input_items run_output_items).
  - vm_compute; reflexivity.
  - vm_compute; reflexivity.
  - vm_compute; reflexivity.
  - discriminate.
  - discriminate.
Defined.

(** The scenarios of the comparison: equal values, differing values of
    an item that is not plain NV, and a device item whose name drifted. *)
Example verify_run :
  fst (verify run_world format_percent run_self None)
  = Ok [mkVerificationItem (mkNVItem 1 "a" "5" NV_TYPE_NV)
          (mkNVItem 1 "a" "5" NV_TYPE_NV) RESULT_OK;
        mkVerificationItem (mkNVItem 2 "b" "3" NV_TYPE_TA)
          (mkNVItem 2 "b" "9" NV_TYPE_NV) RESULT_NG;
        mkVerificationItem (mkNVItem 3 "c" "7" NV_TYPE_NV)
          (mkNVItem (-1) "" "" NV_TYPE_NV) RESULT_NG].
Proof. vm_compute; reflexivity. Qed.

Lemma verify_empty_list_fails_witness :
  exists msg,
    verify silent_world format_percent run_self (Some "report.html")
    = (Raise (NVAutomationError msg), []).
Proof.
  apply (verify_empty_list_fails silent_world format_percent run_self
           run_input_items run_input_items [] (Some "report.html")).
  - vm_compute; reflexivity.
  - vm_compute; reflexivity.
  - vm_compute; reflexivity.
  - right; reflexivity.
Defined.

(** ** The report *)

Lemma append_assoc (a b c : string) : (a ++ b) ++ c = a ++ (b ++ c).
Proof. induction a as [|x a IH]; simpl; [reflexivity | now rewrite IH]. Qed.

Lemma append_empty_r (a : string) : a ++ "" = a.
Proof. induction a as [|x a IH]; simpl; [reflexivity | now rewrite IH]. Qed.

Lemma nv_type_eqb_spec (a b : nv_type) : nv_type_eqb a b = true <-> a = b.
Proof. destruct a, b; simpl; split; intros H; congruence. Qed.

(** The state chosen for a row follows the rule, whatever the summary. *)
Lemma row_state_rule (r : VerificationItem) (summary : string) :
  state_rule r (fst (row_state r summary)).
Proof.
  unfold state_rule, row_state.
  destruct (nv_type_of (input_nv_item r)), (verification_result_of r);
    simpl; repeat split; intros; congruence.
Qed.

Lemma is_failed_nv_spec (r : VerificationItem) :
  is_failed_nv r = true <->
  nv_type_of (input_nv_item r) = NV_TYPE_NV /\
  verification_result_of r = RESULT_NG.
Proof.
  unfold is_failed_nv.
  destruct (nv_type_of (input_nv_item r)), (verification_result_of r);
    simpl; (split; [intros H; try discriminate; split; reflexivity
                   | intros [H1 H2]; congruence]).
Qed.

Lemma has_failed_nv_spec (results : list VerificationItem) :
  existsb is_failed_nv results = true <-> has_failed_nv results.
Proof.
  rewrite existsb_exists. unfold has_failed_nv.
  split; intros (r & Hin & H); exists r; (split; [exact Hin|]);
    now apply is_failed_nv_spec.
Qed.

(** The summary after a row: FAILED once a plain NV row is NG, and
    otherwise what it was. *)
Lemma row_state_summary (r : VerificationItem) (summary : string) :
  snd (row_state r summary)
  = if is_failed_nv r then REPORT_SUMMARY_FAILED else summary.
Proof.
  unfold row_state, is_failed_nv.
  destruct (nv_type_of (input_nv_item r)), (verification_result_of r);
    reflexivity.
Qed.

Lemma render_rows_spec (fmt : formatter) (V : string)
    (results : list VerificationItem) (acc summary vals summary' : string) :
  render_rows fmt V results acc summary = Ok (vals, summary') ->
  exists rows,
    vals = acc ++ join rows /\
    Forall2 (fun r row => exists state,
               fmt V (row_args r state) = Ok row /\ state_rule r state)
            results rows /\
    summary' = if existsb is_failed_nv results
               then REPORT_SUMMARY_FAILED else summary.
Proof.
  revert acc summary. induction results as [|r results IH];
    intros acc summary; simpl.
  - intros [= <- <-]. exists []. simpl. rewrite append_empty_r.
    repeat split. constructor.
  - pose proof (row_state_rule r summary) as Hrule.
    pose proof (row_state_summary r summary) as Hsum.
    destruct (row_state r summary) as [state s1]. simpl in Hrule, Hsum.
    destruct (fmt V (row_args r state)) as [row|e] eqn:Hrow; simpl;
      [|discriminate].
    intros H. destruct (IH _ _ H) as (rows & -> & Hall & ->).
    exists (row :: rows). simpl. rewrite append_assoc.
    split; [reflexivity|]. split.
    { constructor; [exists state; now split | exact Hall]. }
    rewrite Hsum. destruct (is_failed_nv r), (existsb is_failed_nv results);
      reflexivity.
Qed.

(** What a successful call of the publisher has done. *)
Lemma publish_ok (w : world) (fmt : formatter)
    (results : list VerificationItem) (report_file : string)
    (evs : list event) :
  publish_verification_result w fmt results report_file = (Ok tt, evs) ->
  exists header values footer rows summary foot,
    _read_report_template w REPORT_TEMPLATE_FILE
    = Ok (header, values, footer) /\
    evs = [Opened report_file;
           WroteText report_file (header ++ join rows ++ foot)] /\
    Forall2 (fun r row => exists state,
               fmt values (row_args r state) = Ok row /\ state_rule r state)
            results rows /\
    fmt footer [PStr summary] = Ok foot /\
    summary = if match results with [] => true | _ => false end
                 || existsb is_failed_nv results
              then REPORT_SUMMARY_FAILED else REPORT_SUMMARY_PASSED.
Proof.
  unfold publish_verification_result.
  destruct (_read_report_template w REPORT_TEMPLATE_FILE)
    as [[[header values] footer]|e]; [|discriminate].
  destruct (writable w report_file); [|discriminate].
  destruct (render_rows fmt values results "" _) as [[vals s]|e] eqn:Hr;
    simpl; [|discriminate].
  destruct (fmt footer [PStr s]) as [foot|e] eqn:Hf; simpl; [|discriminate].
  intros [= <-].
  destruct (render_rows_spec _ _ _ _ _ _ _ Hr) as (rows & -> & Hall & Hs).
  exists header, values, footer, rows, s, foot.
  split; [reflexivity|]. split; [reflexivity|]. split; [exact Hall|].
  split; [exact Hf|]. rewrite Hs.
  destruct results as [|r results]; [reflexivity|].
  cbn [orb]. destruct (existsb is_failed_nv (r :: results)); reflexivity.
Qed.

(** The publisher writes a report whenever the template can be read, the
    report file can be opened and the formatting goes through. *)
Lemma publish_total (w : world) (fmt : formatter)
    (results : list VerificationItem) (report_file : string)
    (t : string * string * string) :
  _read_report_template w REPORT_TEMPLATE_FILE = Ok t ->
  writable w report_file = true ->
  (forall template args, exists s, fmt template args = Ok s) ->
  exists evs,
    publish_verification_result w fmt results report_file = (Ok tt, evs).
Proof.
  intros Ht Hw Hfmt. unfold publish_verification_result.
  rewrite Ht, Hw. destruct t as [[header values] footer].
  assert (Hrows : forall l acc s, exists p,
             render_rows fmt values l acc s = Ok p).
  { induction l as [|r l IH]; intros acc s; simpl.
    - eexists; reflexivity.
    - destruct (row_state r s) as [state s1].
      destruct (Hfmt values (row_args r state)) as (row & ->). simpl.
      apply IH. }
  match goal with
  | |- context [render_rows fmt values results ?a ?s] =>
      destruct (Hrows results a s) as ([vals s'] & ->)
  end.
  simpl. destruct (Hfmt footer [PStr s']) as (foot & ->). simpl.
  eexists; reflexivity.
Qed.

(** C7: in a report that was written, the row of every result shows the
    state SKIPPED when the input item is not of type NV, FAILED when it is
    of type NV and the comparison gave NG, and PASSED otherwise. *)
Theorem publish_row_states (w : world) (fmt : formatter)
    (result_list : list VerificationItem) (report_file : string)
    (evs : list event) :
  publish_verification_result w fmt result_list report_file = (Ok tt, evs) ->
  exists header values footer rows foot,
    _read_report_template w REPORT_TEMPLATE_FILE
    = Ok (header, values, footer) /\
    evs = [Opened report_file;
           WroteText report_file (header ++ join rows ++ foot)] /\
    Forall2 (fun result row => exists state,
               fmt values (row_args result state) = Ok row /\
               (nv_type_of (input_nv_item result) <> NV_TYPE_NV ->
                state = RESULT_SKIPPED) /\
               (nv_type_of (input_nv_item result) = NV_TYPE_NV ->
                verification_result_of result = RESULT_NG ->
                state = RESULT_FAILED) /\
               (nv_type_of (input_nv_item result) = NV_TYPE_NV ->
                verification_result_of result = RESULT_OK ->
                state = RESULT_PASSED))
            result_list rows.
Proof.
  intros H.
  destruct (publish_ok _ _ _ _ _ H)
    as (header & values & footer & rows & summary & foot
        & Ht & -> & Hall & _ & _).
  exists header, values, footer, rows, foot.
  split; [exact Ht|]. split; [reflexivity|]. exact Hall.
Qed.

(** C8: in a report that was written, the footer is filled with the
    summary FAILED exactly when the result list is empty or holds a
    result of type NV with the comparison NG; in every other case it is
    filled with PASSED. *)
Theorem publish_summary (w : world) (fmt : formatter)
    (result_list : list VerificationItem) (report_file : string)
    (evs : list event) :
  publish_verification_result w fmt result_list report_file = (Ok tt, evs) ->
  exists header values footer rows summary foot,
    _read_report_template w REPORT_TEMPLATE_FILE
    = Ok (header, values, footer) /\
    evs = [Opened report_file;
           WroteText report_file (header ++ join rows ++ foot)] /\
    fmt footer [PStr summary] = Ok foot /\
    (summary = REPORT_SUMMARY_FAILED <->
     result_list = [] \/ has_failed_nv result_list) /\
    (~ (result_list = [] \/ has_failed_nv result_list) ->
     summary = REPORT_SUMMARY_PASSED).
Proof.
  intros H.
  destruct (publish_ok _ _ _ _ _ H)
    as (header & values & footer & rows & summary & foot
        & Ht & -> & _ & Hf & Hs).
  exists header, values, footer, rows, summary, foot.
  split; [exact Ht|]. split; [reflexivity|]. split; [exact Hf|].
  rewrite <- has_failed_nv_spec.
  destruct result_list as [|r l].
  - simpl in Hs. subst summary. split; [split; auto|].
    intros Hn. exfalso. apply Hn. now left.
  - cbn [orb] in Hs. subst summary.
    destruct (existsb is_failed_nv (r :: l)).
    + split; [split; auto|]. intros Hn. exfalso. apply Hn. now right.
    + split; [|reflexivity]. split; [discriminate|].
      intros [Hc|Hc]; discriminate.
Qed.

Example publish_run :
  publish_verification_result run_world format_percent run_results
    "report.html"
  = (Ok tt, run_events).
Proof. vm_compute; reflexivity. Qed.

(** An empty result list gives a report without rows that says FAILED. *)
Example publish_nothing :
  publish_verification_result run_world format_percent [] "report.html"
  = (Ok tt,
     [Opened "report.html";
      WroteText "report.html"
        "<html><table></table><span style='color:red;'>FAILED</span></html>"]).
Proof. vm_compute; reflexivity. Qed.

Lemma publish_row_states_witness :
  exists header values footer rows foot,
    _read_report_template run_world REPORT_TEMPLATE_FILE
    = Ok (header, values, footer) /\
    run_events = [Opened "report.html";
                  WroteText "report.html" (header ++ join rows ++ foot)] /\
    Forall2 (fun result row => exists state,
               format_percent values (row_args result state) = Ok row /\
               (nv_type_of (input_nv_item result) <> NV_TYPE_NV ->
                state = RESULT_SKIPPED) /\
               (nv_type_of (input_nv_item result) = NV_TYPE_NV ->
                verification_result_of result = RESULT_NG ->
                state = RESULT_FAILED) /\
               (nv_type_of (input_nv_item result) = NV_TYPE_NV ->
                verification_result_of result = RESULT_OK ->
                state = RESULT_PASSED))
            run_results rows.
Proof.
  apply (publish_row_states run_world format_percent run_results
           "report.html" run_events).
  vm_compute; reflexivity.
Defined.

Lemma publish_summary_witness :
  exists header values footer rows summary foot,
    _read_report_template run_world REPORT_TEMPLATE_FILE
    = Ok (header, values, footer) /\
    run_events = [Opened "report.html";
                  WroteText "report.html" (header ++ join rows ++ foot)] /\
    format_percent footer [PStr summary] = Ok foot /\
    (summary = REPORT_SUMMARY_FAILED <->
     run_results = [] \/ has_failed_nv run_results) /\
    (~ (run_results = [] \/ has_failed_nv run_results) ->
     summary = REPORT_SUMMARY_PASSED).
Proof.
  apply (publish_summary run_world format_percent run_results
           "report.html" run_events).
  vm_compute; reflexivity.
Defined.

(** ** The report template *)

Lemma prefix_occurs (p s : string) :
  String.prefix p s = true <-> exists after, s = p ++ after.
Proof.
  revert s. induction p as [|a p IH]; intros s; simpl.
  - destruct s; split; intros _; try reflexivity; eexists; reflexivity.
  - destruct s as [|b s]; simpl.
    + split; [discriminate | intros (x & Hx); discriminate].
    + destruct (ascii_dec a b) as [->|Hab].
      * rewrite IH. split; intros (x & Hx); exists x; congruence.
      * split; [discriminate | intros (x & Hx); congruence].
Qed.

Lemma search_unfold (pat s : string) :
  PyStr.search pat s
  = if String.prefix pat s then true
    else match s with
         | String _ s' => PyStr.search pat s'
         | EmptyString => false
         end.
Proof. destruct s; reflexivity. Qed.

Lemma search_occurs (pat s : string) :
  PyStr.search pat s = true <-> occurs pat s.
Proof.
  split.
  - induction s as [|c s IH]; rewrite search_unfold;
      destruct (String.prefix pat _) eqn:E.
    + intros _. apply prefix_occurs in E. destruct E as (x & Hx).
      exists "", x. exact Hx.
    + discriminate.
    + intros _. apply prefix_occurs in E. destruct E as (x & Hx).
      exists "", x. exact Hx.
    + intros H. destruct (IH H) as (b & a & ->).
      exists (String c b), a. reflexivity.
  - intros (b & a & ->). induction b as [|c b IH].
    + assert (E : String.prefix pat (pat ++ a) = true)
        by (apply prefix_occurs; now exists a).
      change ("" ++ pat ++ a) with (pat ++ a).
      rewrite search_unfold. now rewrite E.
    + change (String c b ++ pat ++ a) with (String c (b ++ pat ++ a)).
      rewrite search_unfold, IH.
      destruct (String.prefix pat _); reflexivity.
Qed.

Lemma search_not_occurs (pat s : string) :
  ~ occurs pat s -> PyStr.search pat s = false.
Proof.
  intros H. destruct (PyStr.search pat s) eqn:E; [|reflexivity].
  exfalso. now apply H, search_occurs.
Qed.

(** Each local of the scan is bound at the end only if it was bound before
    or some line holds its marker. *)
Lemma scan_template_bound (lines : list string) (h v f : option string) :
  let '(h', v', f') := scan_template lines h v f in
  (h' <> None -> h <> None \/
     exists line, In line lines /\ occurs "%header%" line) /\
  (v' <> None -> v <> None \/
     exists line, In line lines /\ occurs "%values%" line) /\
  (f' <> None -> f <> None \/
     exists line, In line lines /\ occurs "%footer%" line).
Proof.
  revert h v f. induction lines as [|line lines IH]; intros h v f; simpl.
  - repeat split; intros H; now left.
  - destruct (PyStr.search "%header%" line) eqn:Eh;
      [|destruct (PyStr.search "%values%" line) eqn:Ev;
        [|destruct (PyStr.search "%footer%" line) eqn:Ef]];
      match goal with
      | |- context [scan_template lines ?a ?b ?c] =>
          specialize (IH a b c); destruct (scan_template lines a b c)
            as [[h' v'] f']
      end;
      destruct IH as (Hh & Hv & Hf);
      (split; [|split]); intros H;
      match goal with
      | Hx : ?x <> None -> _, Hy : ?x <> None |- _ =>
          destruct (Hx Hy) as [Hb|(l & Hl & Ho)];
            [|right; exists l; split; [now right | exact Ho]]
      end;
      try (now left);
      right; exists line; (split; [now left|]); now apply search_occurs.
Qed.

(** A local whose marker is on no line keeps the binding it had. *)
Lemma scan_template_unbound (lines : list string) (h v f : option string) :
  let '(h', v', f') := scan_template lines h v f in
  ((forall line, In line lines -> ~ occurs "%header%" line) -> h' = h) /\
  ((forall line, In line lines -> ~ occurs "%values%" line) -> v' = v) /\
  ((forall line, In line lines -> ~ occurs "%footer%" line) -> f' = f).
Proof.
  revert h v f. induction lines as [|line lines IH]; intros h v f; simpl.
  - repeat split; reflexivity.
  - destruct (PyStr.search "%header%" line) eqn:Eh;
      [|destruct (PyStr.search "%values%" line) eqn:Ev;
        [|destruct (PyStr.search "%footer%" line) eqn:Ef]];
      match goal with
      | |- context [scan_template lines ?a ?b ?c] =>
          specialize (IH a b c); destruct (scan_template lines a b c)
            as [[h' v'] f']
      end;
      destruct IH as (Hh & Hv & Hf);
      (split; [|split]); intros H;
      try (match goal with
           | E : PyStr.search ?m line = true |- _ =>
               exfalso; apply (H line); [now left | now apply search_occurs]
           end);
      match goal with
      | Hx : _ -> ?x = ?y |- ?x = ?y =>
          apply Hx; intros l Hl; apply H; now right
      end.
Qed.

(** C10: the template reader returns only when the file is readable and
    each of the three markers occurs on some line; on a readable file in
    which one of the markers occurs on no line it ends with
    UnboundLocalError, which is not the domain error; the domain error is
    raised exactly when the file cannot be read. *)
Theorem read_report_template_markers (w : world) (file : string) :
  (forall t, _read_report_template w file = Ok t ->
     exists lines, readlines w file = Some lines /\
       forall m, In m markers ->
         exists line, In line lines /\ occurs m line) /\
  (forall lines m, readlines w file = Some lines -> In m markers ->
     (forall line, In line lines -> ~ occurs m line) ->
     _read_report_template w file = Raise UnboundLocalError) /\
  (is_domain_error (_read_report_template w file) <->
   readlines w file = None).
Proof.
  unfold _read_report_template.
  destruct (readlines w file) as [lines|].
  - pose proof (scan_template_bound lines None None None) as Hb.
    pose proof (scan_template_unbound lines None None None) as Hu.
    destruct (scan_template lines None None None) as [[h v] f].
    destruct Hb as (Hh & Hv & Hf). destruct Hu as (Uh & Uv & Uf).
    split; [|split].
    + intros t Ht. exists lines. split; [reflexivity|].
      destruct h as [h|]; [|discriminate].
      destruct v as [v|]; [|discriminate].
      destruct f as [f|]; [|discriminate].
      intros m [<-|[<-|[<-|[]]]].
      * destruct Hh as [Hn|Hx]; [discriminate | now elim Hn | exact Hx].
      * destruct Hv as [Hn|Hx]; [discriminate | now elim Hn | exact Hx].
      * destruct Hf as [Hn|Hx]; [discriminate | now elim Hn | exact Hx].
    + intros lines' m [= <-] [<-|[<-|[<-|[]]]] Hno.
      * rewrite (Uh Hno). reflexivity.
      * rewrite (Uv Hno). destruct h; reflexivity.
      * rewrite (Uf Hno). destruct h, v; reflexivity.
    + split; [|discriminate].
      intros (msg & Hm). destruct h, v, f; discriminate.
  - split; [discriminate|]. split; [discriminate|].
    split; [reflexivity|]. intros _. eexists; reflexivity.
Qed.

Lemma read_report_template_markers_witness :
  (exists lines, readlines run_world REPORT_TEMPLATE_FILE = Some lines /\
     forall m, In m markers ->
       exists line, In line lines /\ occurs m line) /\
  _read_report_template broken_world REPORT_TEMPLATE_FILE
  = Raise UnboundLocalError.
Proof.
  destruct (read_report_template_markers run_world REPORT_TEMPLATE_FILE)
    as (Hok & _ & _).
  destruct (read_report_template_markers broken_world REPORT_TEMPLATE_FILE)
    as (_ & Hmiss & _).
  split.
  - apply (Hok ("<html><table>", "<tr>%d|%s|%s|%s|%s|%s|%s</tr>",
                "</table>%s</html>")).
    vm_compute; reflexivity.
  - apply (Hmiss ["<html>%header%"; "</html>%footer%"] "%values%").
    + vm_compute; reflexivity.
    + right; left; reflexivity.
    + intros line [<-|[<-|[]]] Ho; apply search_occurs in Ho;
        vm_compute in Ho; discriminate.
Defined.

(** One line that holds all three markers binds the header only. *)
Example template_one_line :
  _read_report_template
    (mkWorld (parse run_world)
             (fun _ => Some ["%header%%values%%footer%"])
             (writable run_world))
    REPORT_TEMPLATE_FILE
  = Raise UnboundLocalError.
Proof. vm_compute; reflexivity. Qed.

(** ** Reading the items of a file *)

Lemma make_item_ok (tag : Dom.node) (nv_values : option string)
    (item : NVItem) :
  make_item (Dom.getAttribute tag "id") (Dom.getAttribute tag "name")
            nv_values (Dom.getAttribute tag "calibrated") = Ok item ->
  exists i v, PyStr.int (Dom.getAttribute tag "id") = Some i /\
    nv_values = Some v /\ item = item_of_tag tag i v.
Proof.
  unfold make_item.
  destruct (PyStr.int (Dom.getAttribute tag "id")) as [i|]; [|discriminate].
  destruct nv_values as [v|]; [|discriminate].
  intros [= <-]. exists i, v. repeat split.
Qed.

Lemma make_item_raise (nv_id nv_name : string) (nv_values : option string)
    (nv_calibrated : string) (e : exn) :
  make_item nv_id nv_name nv_values nv_calibrated = Raise e ->
  exists msg, e = NVAutomationError msg.
Proof.
  unfold make_item. destruct (PyStr.int nv_id); [destruct nv_values|];
    intros [= <-]; eexists; reflexivity.
Qed.

(** A loop that returns has made one record from every tag, in order. *)
Lemma read_tags_ok (tags : list Dom.node) (acc items : list NVItem) :
  read_tags tags acc = Ok items ->
  exists made, items = (acc ++ made)%list /\ Forall2 readable_tag tags made.
Proof.
  revert acc. induction tags as [|tag tags IH]; intros acc; simpl.
  - intros [= <-]. exists []. split; [now rewrite app_nil_r | constructor].
  - unfold first_child_value at 1.
    destruct (Dom.children tag) as [|c cs] eqn:Hc; simpl; [discriminate|].
    destruct (make_item _ _ _ _) as [item|e] eqn:Hm; simpl; [|discriminate].
    intros H. destruct (IH _ H) as (made & -> & Hall).
    exists (item :: made). rewrite <- app_assoc. split; [reflexivity|].
    constructor; [|exact Hall].
    destruct (make_item_ok _ _ _ Hm) as (i & v & Hi & Hv & ->).
    exists i, v. unfold first_child_value. rewrite Hc, Hv. repeat split.
    exact Hi.
Qed.

(** A tag that cannot be read makes the loop raise the domain error, as
    long as no tag is without children. *)
Lemma read_tags_error (tags : list Dom.node) (acc : list NVItem)
    (tag : Dom.node) :
  (forall t, In t tags -> Dom.children t <> []) ->
  In tag tags ->
  PyStr.int (Dom.getAttribute tag "id") = None \/
    first_child_value tag = Ok None ->
  is_domain_error (read_tags tags acc).
Proof.
  revert acc. induction tags as [|t tags IH]; intros acc Hch Hin Hbad.
  - destruct Hin.
  - simpl. unfold first_child_value at 1.
    destruct (Dom.children t) as [|c cs] eqn:Hc;
      [exfalso; now apply (Hch t (or_introl eq_refl))|].
    simpl. destruct (make_item _ _ _ _) as [item|e] eqn:Hm; simpl.
    + destruct Hin as [<-|Hin].
      * exfalso.
        destruct (make_item_ok _ _ _ Hm) as (i & v & Hi & Hv & _).
        destruct Hbad as [Hb|Hb]; [congruence|].
        unfold first_child_value in Hb. rewrite Hc in Hb. congruence.
      * apply IH; [|exact Hin|exact Hbad].
        intros x Hx. apply Hch. now right.
    + destruct (make_item_raise _ _ _ _ _ Hm) as (msg & ->).
      eexists; reflexivity.
Qed.

(** The loop returns when every tag has an integer id and a text. *)
Lemma read_tags_total (tags : list Dom.node) (acc : list NVItem) :
  Forall (fun tag => exists item, readable_tag tag item) tags ->
  exists items, read_tags tags acc = Ok items.
Proof.
  intros H. revert acc. induction H as [|tag tags Ht _ IH]; intros acc; simpl.
  - eexists; reflexivity.
  - destruct Ht as (item & i & v & Hi & Hv & _).
    rewrite Hv. simpl. unfold make_item. rewrite Hi. simpl. apply IH.
Qed.

Lemma getAttribute_absent (tag : Dom.node) (name : string) :
  Dom.hasAttribute tag name = false -> Dom.getAttribute tag name = "".
Proof.
  destruct tag as [k t attrs cs| |]; simpl; try reflexivity.
  destruct (Dom.lookup_attr name attrs); [discriminate | reflexivity].
Qed.

(** C5, as the code has it: a read that returns has made one record from
    every NvItem element, in document order, so no element is skipped; an
    id that is not an integer (an absent id is the empty text) or a first
    child without a text value on any element makes the whole read fail
    with the domain error, when every NvItem element has a child node; an
    absent name or calibrated attribute is read as the empty text and
    does not make the read fail. *)
Theorem read_nv_items_all_or_nothing (w : world) (nv_file : string)
    (dom : Dom.document) :
  parse w nv_file = Parsed dom ->
  (forall items, _read_nv_items w nv_file = Ok items ->
     Forall2 readable_tag (Dom.getElementsByTagName dom "NvItem") items) /\
  ((forall t, In t (Dom.getElementsByTagName dom "NvItem") ->
      Dom.children t <> []) ->
   forall tag, In tag (Dom.getElementsByTagName dom "NvItem") ->
     PyStr.int (Dom.getAttribute tag "id") = None \/
       first_child_value tag = Ok None ->
     is_domain_error (_read_nv_items w nv_file)) /\
  (Forall (fun tag => exists item, readable_tag tag item)
          (Dom.getElementsByTagName dom "NvItem") ->
   exists items, _read_nv_items w nv_file = Ok items) /\
  (forall tag name, Dom.hasAttribute tag name = false ->
     Dom.getAttribute tag name = "").
Proof.
  intros Hp. unfold _read_nv_items. rewrite Hp.
  split; [|split; [|split]].
  - intros items H. destruct (read_tags_ok _ _ _ H) as (made & -> & Hall).
    exact Hall.
  - intros Hch tag Hin Hbad. now apply (read_tags_error _ _ tag).
  - apply read_tags_total.
  - apply getAttribute_absent.
Qed.

Lemma read_nv_items_all_or_nothing_witness :
  (forall items, _read_nv_items bare_world "input.xml" = Ok items ->
     Forall2 readable_tag
       [Dom.Element 1 "NvItem" [("id", "7")] [Dom.Text 2 " 5 "]] items) /\
  is_domain_error (_read_nv_items word_id_world "input.xml") /\
  exists items, _read_nv_items bare_world "input.xml" = Ok items.
Proof.
  destruct (read_nv_items_all_or_nothing bare_world "input.xml" _ eq_refl)
    as (Hok & _ & Htotal & _).
  destruct (read_nv_items_all_or_nothing word_id_world "input.xml" _ eq_refl)
    as (_ & Hbad & _ & _).
  split; [exact Hok|]. split.
  - apply (Hbad ltac:(intros t [<-|[<-|[]]]; discriminate)
             (nv_tag 3 "two" "b" "false" "6")).
    + right; left; reflexivity.
    + left; reflexivity.
  - apply Htotal. constructor; [|constructor].
    exists (mkNVItem 7 "" "5" NV_TYPE_NV), 7, " 5 ". repeat split.
Defined.

(** An item without name and without calibrated attribute is read, with
    an empty name and the type NV: the strict reading rule does not hold. *)
Lemma reader_accepts_missing_attributes :
  _read_nv_items bare_world "input.xml" = Ok [mkNVItem 7 "" "5" NV_TYPE_NV] /\
  ~ reader_rejects_incomplete_items.
Proof.
  split; [reflexivity|]. intros H.
  destruct (H bare_world "input.xml" _
              (Dom.Element 1 "NvItem" [("id", "7")] [Dom.Text 2 " 5 "])
              eq_refl (or_introl eq_refl)) as (msg & Hm).
  - right; right. right; left. reflexivity.
  - discriminate.
Qed.

(** An element without any child node ends the read with IndexError. *)
Example read_empty_element :
  _read_nv_items
    (mkWorld (fun _ => Parsed [Dom.Element 0 "NvSource" []
                [Dom.Element 1 "NvItem"
                   [("id", "7"); ("name", "a"); ("calibrated", "false")] []]])
             (fun _ => None) (fun _ => true))
    "input.xml"
  = Raise IndexError.
Proof. reflexivity. Qed.

Example read_run_input :
  _read_nv_items run_world "input.xml" = Ok run_input_items.
Proof. vm_compute; reflexivity. Qed.

(** ** Facts about the object model *)

(** Induction over a node with all the nodes below it. *)
Lemma node_forest_ind (P : Dom.node -> Prop) :
  (forall k t a cs, Forall P cs -> P (Dom.Element k t a cs)) ->
  (forall k s, P (Dom.Text k s)) ->
  (forall k s, P (Dom.Comment k s)) ->
  forall n, P n.
Proof.
  intros HE HT HC. fix IH 1. intros [k t a cs|k s|k s].
  - apply HE. induction cs as [|c cs IHcs]; constructor.
    + apply IH.
    + exact IHcs.
  - apply HT.
  - apply HC.
Qed.

(** Induction over a forest: its first tree, which is an element with a
    forest of children or a leaf, and the trees after it. *)
Lemma forest_ind (Q : list Dom.node -> Prop) :
  Q [] ->
  (forall k t a cs rest, Q cs -> Q rest -> Q (Dom.Element k t a cs :: rest)) ->
  (forall n rest, is_leaf n = true -> Q rest -> Q (n :: rest)) ->
  forall d, Q d.
Proof.
  intros Hnil HE HL.
  assert (Hn : forall n rest, Q rest -> Q (n :: rest)).
  { induction n as [k t a cs IHcs|k s|k s] using node_forest_ind;
      intros rest Hrest; [|now apply HL..].
    apply HE; [|exact Hrest].
    induction IHcs as [|c cs Hc _ IH]; [exact Hnil | now apply Hc]. }
  induction d as [|n d IH]; [exact Hnil | now apply Hn].
Qed.

Lemma detach_below_element (k k' : nat) (t : string)
    (a : list (string * string)) (cs : list Dom.node) :
  Dom.detach_below k (Dom.Element k' t a cs)
  = match Dom.detach k cs with
    | Some (x, cs') => Some (x, Dom.Element k' t a cs')
    | None => None
    end.
Proof.
  simpl.
  match goal with
  | |- match ?f cs with _ => _ end = _ =>
      assert (E : forall l, f l = Dom.detach k l)
        by (induction l as [|c l IHl]; simpl; [|rewrite IHl]; reflexivity);
      rewrite E
  end.
  reflexivity.
Qed.

Lemma detach_element (k k' : nat) (t : string) (a : list (string * string))
    (cs rest : list Dom.node) :
  Dom.detach k (Dom.Element k' t a cs :: rest)
  = if Nat.eqb k' k then Some (Dom.Element k' t a cs, rest)
    else match Dom.detach k cs with
         | Some (x, cs') => Some (x, Dom.Element k' t a cs' :: rest)
         | None =>
             match Dom.detach k rest with
             | Some (x, rest') => Some (x, Dom.Element k' t a cs :: rest')
             | None => None
             end
         end.
Proof.
  change (Dom.detach k (Dom.Element k' t a cs :: rest))
    with (if Nat.eqb k' k then Some (Dom.Element k' t a cs, rest)
          else match Dom.detach_below k (Dom.Element k' t a cs) with
               | Some (x, c') => Some (x, c' :: rest)
               | None =>
                   match Dom.detach k rest with
                   | Some (x, rest') => Some (x, Dom.Element k' t a cs :: rest')
                   | None => None
                   end
               end).
  rewrite detach_below_element.
  destruct (Dom.detach k cs) as [[x cs']|]; reflexivity.
Qed.

Lemma detach_leaf (k : nat) (n : Dom.node) (rest : list Dom.node) :
  is_leaf n = true ->
  Dom.detach k (n :: rest)
  = if Nat.eqb (Dom.key_of n) k then Some (n, rest)
    else match Dom.detach k rest with
         | Some (x, rest') => Some (x, n :: rest')
         | None => None
         end.
Proof. destruct n; [discriminate | reflexivity..]. Qed.

Lemma nodes_element (k : nat) (t : string) (a : list (string * string))
    (cs rest : list Dom.node) :
  Dom.nodes (Dom.Element k t a cs :: rest)
  = (Dom.Element k t a cs :: Dom.nodes cs ++ Dom.nodes rest)%list.
Proof. reflexivity. Qed.

Lemma nodes_leaf (n : Dom.node) (rest : list Dom.node) :
  is_leaf n = true -> Dom.nodes (n :: rest) = n :: Dom.nodes rest.
Proof. destruct n; [discriminate | reflexivity..]. Qed.

Lemma keys_leaf (n : Dom.node) (rest : list Dom.node) :
  is_leaf n = true -> Dom.keys (n :: rest) = Dom.key_of n :: Dom.keys rest.
Proof. intros H. unfold Dom.keys. now rewrite (nodes_leaf _ _ H). Qed.

Lemma leaf_not_decl (n : Dom.node) : is_leaf n = true -> is_decl n = false.
Proof. destruct n; [discriminate | reflexivity..]. Qed.

Lemma nodes_app (d1 d2 : list Dom.node) :
  Dom.nodes (d1 ++ d2) = (Dom.nodes d1 ++ Dom.nodes d2)%list.
Proof. apply flat_map_app. Qed.

Lemma keys_app (d1 d2 : list Dom.node) :
  Dom.keys (d1 ++ d2) = (Dom.keys d1 ++ Dom.keys d2)%list.
Proof. unfold Dom.keys. now rewrite nodes_app, map_app. Qed.

Lemma keys_element (k : nat) (t : string) (a : list (string * string))
    (cs rest : list Dom.node) :
  Dom.keys (Dom.Element k t a cs :: rest)
  = (k :: Dom.keys cs ++ Dom.keys rest)%list.
Proof. unfold Dom.keys. rewrite nodes_element. simpl. now rewrite map_app. Qed.

Lemma in_keys (n : Dom.node) (d : list Dom.node) :
  In n (Dom.nodes d) -> In (Dom.key_of n) (Dom.keys d).
Proof. apply in_map. Qed.

(** The detached node is a node of the forest and has the key asked for. *)
Lemma detach_in (k : nat) (d : list Dom.node) :
  forall n d', Dom.detach k d = Some (n, d') ->
    In n (Dom.nodes d) /\ Dom.key_of n = k.
Proof.
  induction d as [|k' t a cs rest IHcs IHrest|c rest Hleaf IH]
    using forest_ind; intros n d'.
  - discriminate.
  - rewrite detach_element, nodes_element.
    destruct (Nat.eqb_spec k' k) as [->|Hk].
    + intros [= <- <-]. split; [now left | reflexivity].
    + destruct (Dom.detach k cs) as [[x cs']|].
      * intros [= <- <-]. destruct (IHcs _ _ eq_refl) as [Hin Hkey].
        split; [right; apply in_or_app; now left | exact Hkey].
      * destruct (Dom.detach k rest) as [[x rest']|]; [|discriminate].
        intros [= <- <-]. destruct (IHrest _ _ eq_refl) as [Hin Hkey].
        split; [right; apply in_or_app; now right | exact Hkey].
  - rewrite (detach_leaf _ _ _ Hleaf), (nodes_leaf _ _ Hleaf).
    destruct (Nat.eqb_spec (Dom.key_of c) k) as [E|Hk].
    + intros [= <- <-]. split; [now left | exact E].
    + destruct (Dom.detach k rest) as [[x rest']|]; [|discriminate].
      intros [= <- <-]. destruct (IH _ _ eq_refl) as [Hin Hkey].
      split; [now right | exact Hkey].
Qed.

(** A key that no node of the forest has is not found. *)
Lemma detach_none (k : nat) (d : list Dom.node) :
  ~ In k (Dom.keys d) -> Dom.detach k d = None.
Proof.
  induction d as [|k' t a cs rest IHcs IHrest|c rest Hleaf IH]
    using forest_ind; intros Hk.
  - reflexivity.
  - rewrite detach_element. rewrite keys_element in Hk.
    destruct (Nat.eqb_spec k' k) as [->|Hne]; [exfalso; apply Hk; now left|].
    rewrite IHcs, IHrest; [reflexivity| |];
      intros H; apply Hk; right; apply in_or_app; auto.
  - rewrite (detach_leaf _ _ _ Hleaf). rewrite (keys_leaf _ _ Hleaf) in Hk.
    destruct (Nat.eqb_spec (Dom.key_of c) k) as [E|Hne];
      [exfalso; apply Hk; now left|].
    rewrite IH; [reflexivity|]. intros H; apply Hk; now right.
Qed.

(** Detaching moves keys and loses none: the keys of the forest are those
    of the detached tree and those of what is left. *)
Lemma detach_keys (k : nat) (d : list Dom.node) :
  forall n d', Dom.detach k d = Some (n, d') ->
    Permutation (Dom.keys d) (Dom.keys [n] ++ Dom.keys d').
Proof.
  induction d as [|k' t a cs rest IHcs IHrest|c rest Hleaf IH]
    using forest_ind; intros n d'.
  - discriminate.
  - rewrite detach_element.
    destruct (Nat.eqb k' k).
    + intros [= <- <-]. change (Dom.Element k' t a cs :: rest)
        with ([Dom.Element k' t a cs] ++ rest)%list.
      rewrite keys_app. reflexivity.
    + destruct (Dom.detach k cs) as [[x cs']|].
      * intros [= <- <-]. rewrite !keys_element.
        rewrite (IHcs _ _ eq_refl). rewrite <- app_assoc.
        apply Permutation_middle.
      * destruct (Dom.detach k rest) as [[x rest']|]; [|discriminate].
        intros [= <- <-]. rewrite !keys_element.
        rewrite (IHrest _ _ eq_refl).
        change (k' :: Dom.keys cs ++ Dom.keys [x] ++ Dom.keys rest')%list
          with ((k' :: Dom.keys cs) ++ Dom.keys [x] ++ Dom.keys rest')%list.
        change (k' :: Dom.keys cs ++ Dom.keys rest')%list
          with ((k' :: Dom.keys cs) ++ Dom.keys rest')%list.
        rewrite !app_assoc. apply Permutation_app_tail.
        apply Permutation_app_comm.
  - rewrite (detach_leaf _ _ _ Hleaf). destruct (Nat.eqb (Dom.key_of c) k).
    + intros [= <- <-]. change (c :: rest) with ([c] ++ rest)%list.
      rewrite keys_app. reflexivity.
    + destruct (Dom.detach k rest) as [[x rest']|]; [|discriminate].
      intros [= <- <-]. rewrite !(keys_leaf c) by exact Hleaf.
      rewrite (IH _ _ eq_refl). apply Permutation_middle.
Qed.

Lemma NoDup_app_disjoint (A : Type) (l1 l2 : list A) (x : A) :
  NoDup (l1 ++ l2) -> In x l1 -> ~ In x l2.
Proof.
  induction l1 as [|a l1 IH]; simpl; intros Hnd Hin; [destruct Hin|].
  apply NoDup_cons_iff in Hnd. destruct Hnd as [Ha Hnd].
  destruct Hin as [->|Hin]; [|now apply IH].
  intros H. apply Ha, in_or_app. now right.
Qed.

Lemma NoDup_keys_element (k : nat) (t : string) (a : list (string * string))
    (cs rest : list Dom.node) :
  NoDup (Dom.keys (Dom.Element k t a cs :: rest)) ->
  ~ In k (Dom.keys cs) /\ ~ In k (Dom.keys rest) /\
  NoDup (Dom.keys cs) /\ NoDup (Dom.keys rest) /\
  (forall x, In x (Dom.keys cs) -> ~ In x (Dom.keys rest)).
Proof.
  rewrite keys_element. intros H. apply NoDup_cons_iff in H.
  destruct H as [Hk Hnd].
  split; [intros H; apply Hk, in_or_app; now left|].
  split; [intros H; apply Hk, in_or_app; now right|].
  split; [now apply NoDup_app_remove_r in Hnd|].
  split; [now apply NoDup_app_remove_l in Hnd|].
  intros x. now apply NoDup_app_disjoint.
Qed.

Lemma NoDup_keys_leaf (n : Dom.node) (rest : list Dom.node) :
  is_leaf n = true ->
  NoDup (Dom.keys (n :: rest)) ->
  ~ In (Dom.key_of n) (Dom.keys rest) /\ NoDup (Dom.keys rest).
Proof.
  intros Hleaf H. rewrite (keys_leaf _ _ Hleaf) in H.
  now apply NoDup_cons_iff in H.
Qed.

(** With distinct keys, asking for the key of a node of the forest
    detaches that very node. *)
Lemma detach_found (d : list Dom.node) :
  NoDup (Dom.keys d) ->
  forall n, In n (Dom.nodes d) ->
    exists d', Dom.detach (Dom.key_of n) d = Some (n, d').
Proof.
  induction d as [|k' t a cs rest IHcs IHrest|c rest Hleaf IH]
    using forest_ind; intros Hnd n Hin.
  - destruct Hin.
  - destruct (NoDup_keys_element _ _ _ _ _ Hnd)
      as (Hkc & Hkr & Hc & Hr & Hdis).
    rewrite detach_element. rewrite nodes_element in Hin.
    destruct Hin as [<-|Hin].
    + simpl. rewrite Nat.eqb_refl. eexists; reflexivity.
    + apply in_app_or in Hin.
      destruct (Nat.eqb_spec k' (Dom.key_of n)) as [E|_].
      { exfalso. destruct Hin as [Hin|Hin]; apply in_keys in Hin;
          rewrite <- E in Hin; auto. }
      destruct Hin as [Hin|Hin].
      * destruct (IHcs Hc n Hin) as (cs' & ->). eexists; reflexivity.
      * rewrite (detach_none (Dom.key_of n) cs).
        -- destruct (IHrest Hr n Hin) as (rest' & ->). eexists; reflexivity.
        -- intros H. apply (Hdis _ H). now apply in_keys.
  - destruct (NoDup_keys_leaf _ _ Hleaf Hnd) as (Hk & Hr).
    rewrite (detach_leaf _ _ _ Hleaf). rewrite (nodes_leaf _ _ Hleaf) in Hin.
    destruct Hin as [<-|Hin].
    + rewrite Nat.eqb_refl. eexists; reflexivity.
    + destruct (Nat.eqb_spec (Dom.key_of c) (Dom.key_of n)) as [E|_].
      { exfalso. apply in_keys in Hin. rewrite <- E in Hin. auto. }
      destruct (IH Hr n Hin) as (rest' & ->). eexists; reflexivity.
Qed.

Lemma filter_other_key (k : nat) (l : list Dom.node) :
  ~ In k (map Dom.key_of l) -> filter (other_key k) l = l.
Proof.
  induction l as [|x l IH]; simpl; intros H; [reflexivity|].
  unfold other_key at 1.
  destruct (Nat.eqb_spec (Dom.key_of x) k) as [E|_];
    [exfalso; apply H; now left|].
  simpl. rewrite IH; [reflexivity|]. intros Hin. apply H. now right.
Qed.

Lemma declarations_keys (k : nat) (d : list Dom.node) :
  ~ In k (Dom.keys d) -> filter (other_key k) (declarations d) = declarations d.
Proof.
  intros H. apply filter_other_key. intros Hin. apply H.
  apply in_map_iff in Hin. destruct Hin as (x & <- & Hx).
  apply in_keys. unfold declarations in Hx. now apply filter_In in Hx.
Qed.

Lemma declarations_element (k : nat) (t : string)
    (a : list (string * string)) (cs rest : list Dom.node) :
  declarations (Dom.Element k t a cs :: rest)
  = ((if is_decl (Dom.Element k t a cs) then [Dom.Element k t a cs] else [])
     ++ declarations cs ++ declarations rest)%list.
Proof.
  unfold declarations. rewrite nodes_element. simpl filter.
  rewrite filter_app. destruct (is_decl (Dom.Element k t a cs)); reflexivity.
Qed.

Lemma declarations_leaf (n : Dom.node) (rest : list Dom.node) :
  is_leaf n = true -> declarations (n :: rest) = declarations rest.
Proof.
  intros H. unfold declarations. rewrite (nodes_leaf _ _ H). simpl.
  now rewrite (leaf_not_decl _ H).
Qed.

Lemma flat_declarations_element (k : nat) (t : string)
    (a : list (string * string)) (cs rest : list Dom.node) :
  flat_declarations (Dom.Element k t a cs :: rest) ->
  flat_declarations cs /\ flat_declarations rest /\
  (is_decl (Dom.Element k t a cs) = true -> declarations cs = []).
Proof.
  intros H. split; [|split].
  - intros n x Hn. apply H. rewrite nodes_element. right.
    apply in_or_app. now left.
  - intros n x Hn. apply H. rewrite nodes_element. right.
    apply in_or_app. now right.
  - intros Hd. unfold declarations.
    assert (Hall : forall x, In x (Dom.nodes cs) -> is_decl x = false).
    { intros x Hx. apply (H (Dom.Element k t a cs) x); [now left|exact Hd|].
      exact Hx. }
    induction (Dom.nodes cs) as [|x l IH]; [reflexivity|].
    simpl. rewrite (Hall x (or_introl eq_refl)). apply IH.
    intros y Hy. apply Hall. now right.
Qed.

Lemma flat_declarations_cons (n : Dom.node) (rest : list Dom.node) :
  flat_declarations (n :: rest) -> flat_declarations rest.
Proof.
  intros H m x Hm. apply H. unfold Dom.nodes. simpl.
  apply in_or_app. now right.
Qed.

(** Detaching a declaration from a definition document leaves the other
    declarations as they were, in their order. *)
Lemma detach_declarations (k : nat) (d : list Dom.node) :
  NoDup (Dom.keys d) -> flat_declarations d ->
  forall n d', Dom.detach k d = Some (n, d') -> is_decl n = true ->
    declarations d' = filter (other_key k) (declarations d).
Proof.
  induction d as [|k' t a cs rest IHcs IHrest|c rest Hleaf IH]
    using forest_ind; intros Hnd Hflat n d'.
  - discriminate.
  - destruct (NoDup_keys_element _ _ _ _ _ Hnd)
      as (Hkc & Hkr & Hc & Hr & Hdis).
    destruct (flat_declarations_element _ _ _ _ _ Hflat)
      as (Hfc & Hfr & Hin).
    rewrite detach_element.
    destruct (Nat.eqb_spec k' k) as [->|Hne].
    + intros [= <- <-] Hd. rewrite declarations_element, Hd, (Hin Hd).
      simpl. unfold other_key at 1. simpl. rewrite Nat.eqb_refl. simpl.
      symmetry. now apply declarations_keys.
    + destruct (Dom.detach k cs) as [[x cs']|] eqn:Hcs.
      * intros [= <- <-] Hd.
        destruct (detach_in _ _ _ _ Hcs) as [Hx Hkx].
        assert (Hc0 : is_decl (Dom.Element k' t a cs) = false).
        { destruct (is_decl (Dom.Element k' t a cs)) eqn:E; [|reflexivity].
          exfalso.
          assert (Hxd : In x (declarations cs))
            by (apply filter_In; now split).
          rewrite (Hin eq_refl) in Hxd. destruct Hxd. }
        rewrite !declarations_element.
        change (is_decl (Dom.Element k' t a cs'))
          with (is_decl (Dom.Element k' t a cs)).
        rewrite Hc0. simpl. rewrite filter_app.
        rewrite (IHcs Hc Hfc _ _ eq_refl Hd).
        rewrite (declarations_keys k rest); [reflexivity|].
        apply Hdis. rewrite <- Hkx. now apply in_keys.
      * destruct (Dom.detach k rest) as [[x rest']|] eqn:Hrest;
          [|discriminate].
        intros [= <- <-] Hd.
        destruct (detach_in _ _ _ _ Hrest) as [Hx Hkx].
        rewrite !declarations_element, !filter_app.
        rewrite (IHrest Hr Hfr _ _ eq_refl Hd).
        rewrite (declarations_keys k cs).
        -- f_equal. destruct (is_decl (Dom.Element k' t a cs));
             [|reflexivity].
           simpl. unfold other_key. simpl.
           destruct (Nat.eqb_spec k' k); [contradiction | reflexivity].
        -- intros H. apply (Hdis _ H). rewrite <- Hkx. now apply in_keys.
  - rewrite (detach_leaf _ _ _ Hleaf). destruct (Nat.eqb (Dom.key_of c) k).
    + intros [= <- <-] Hd. rewrite (leaf_not_decl _ Hleaf) in Hd.
      discriminate.
    + destruct (Dom.detach k rest) as [[x rest']|] eqn:Hrest; [|discriminate].
      intros [= <- <-] Hd.
      destruct (NoDup_keys_leaf _ _ Hleaf Hnd) as (_ & Hr).
      rewrite !(declarations_leaf c) by exact Hleaf.
      exact (IH Hr (flat_declarations_cons _ _ Hflat) _ _ eq_refl Hd).
Qed.

(** What is left after a declaration was detached is a definition
    document again. *)
Lemma detach_flat (k : nat) (d : list Dom.node) (n : Dom.node)
    (d' : list Dom.node) :
  NoDup (Dom.keys d) -> flat_declarations d ->
  Dom.detach k d = Some (n, d') -> is_decl n = true ->
  flat_declarations d'.
Proof.
  intros Hnd Hflat Hdet Hd m x Hm Hmd.
  assert (Hin : In m (declarations d')) by (apply filter_In; now split).
  rewrite (detach_declarations k d Hnd Hflat n d' Hdet Hd) in Hin.
  apply filter_In in Hin. destruct Hin as [Hin _].
  apply filter_In in Hin. destruct Hin as [Hin _].
  now apply (Hflat m x).
Qed.

Lemma detach_below_none (k : nat) (c : Dom.node) :
  ~ In k (Dom.keys [c]) -> Dom.detach_below k c = None.
Proof.
  intros H. pose proof (detach_none k [c] H) as E. simpl in E.
  destruct (Nat.eqb (Dom.key_of c) k); [discriminate|].
  destruct (Dom.detach_below k c) as [[x c']|]; [discriminate | reflexivity].
Qed.

(** The last tree of a forest is detached whole when no tree before it
    holds its key. *)
Lemma detach_last (r : list Dom.node) (tag : Dom.node) :
  ~ In (Dom.key_of tag) (Dom.keys r) ->
  Dom.detach (Dom.key_of tag) (r ++ [tag]) = Some (tag, r).
Proof.
  induction r as [|c r IH]; intros Hk.
  - simpl. now rewrite Nat.eqb_refl.
  - change (c :: r) with ([c] ++ r)%list in Hk. rewrite keys_app in Hk.
    simpl app. simpl Dom.detach.
    destruct (Nat.eqb_spec (Dom.key_of c) (Dom.key_of tag)) as [E|_].
    { exfalso. apply Hk, in_or_app. left. rewrite <- E.
      apply in_keys. unfold Dom.nodes. simpl. rewrite app_nil_r.
      destruct c; now left. }
    rewrite detach_below_none
      by (intros H; apply Hk, in_or_app; now left).
    rewrite IH by (intros H; apply Hk, in_or_app; now right).
    reflexivity.
Qed.

(** Appending a declaration that is still in the master document moves
    it, as it is, to the end of the new root. *)
Lemma appendChild_moves (t : Dom.trees) (tag : Dom.node) :
  trimmer_invariant t -> In tag (declarations (Dom.master t)) ->
  exists m',
    Dom.appendChild t tag = Dom.mkTrees m' (Dom.root_tag t ++ [tag]) /\
    trimmer_invariant (Dom.mkTrees m' (Dom.root_tag t ++ [tag])) /\
    declarations m'
    = filter (other_key (Dom.key_of tag)) (declarations (Dom.master t)).
Proof.
  intros [Hnd Hflat] Hin. apply filter_In in Hin. destruct Hin as [Hin Hd].
  assert (Hm : NoDup (Dom.keys (Dom.master t)))
    by now apply NoDup_app_remove_r in Hnd.
  destruct (detach_found _ Hm tag Hin) as (m' & Hdet).
  exists m'. unfold Dom.appendChild. rewrite Hdet.
  split; [reflexivity|]. split; [split|].
  - simpl. rewrite keys_app.
    apply (Permutation_NoDup (l := Dom.keys (Dom.master t)
                                   ++ Dom.keys (Dom.root_tag t))); [|exact Hnd].
    rewrite (detach_keys _ _ _ _ Hdet). rewrite <- app_assoc.
    rewrite (Permutation_app_comm (Dom.keys [tag])).
    rewrite <- !app_assoc. reflexivity.
  - simpl. now apply (detach_flat _ _ _ _ Hm Hflat Hdet).
  - now apply (detach_declarations _ _ Hm Hflat _ _ Hdet).
Qed.

(** Appending the last child of the new root once more changes nothing. *)
Lemma appendChild_again (m r : list Dom.node) (tag : Dom.node) :
  NoDup (Dom.keys m ++ Dom.keys (r ++ [tag])) ->
  Dom.appendChild (Dom.mkTrees m (r ++ [tag])) tag
  = Dom.mkTrees m (r ++ [tag]).
Proof.
  intros Hnd. unfold Dom.appendChild. simpl.
  assert (Hk : In (Dom.key_of tag) (Dom.keys (r ++ [tag]))).
  { rewrite keys_app. apply in_or_app. right. apply in_keys.
    unfold Dom.nodes. simpl. rewrite app_nil_r. destruct tag; now left. }
  rewrite detach_none.
  - rewrite detach_last; [reflexivity|].
    apply NoDup_app_remove_l in Hnd. rewrite keys_app in Hnd.
    intros H. apply (NoDup_app_disjoint _ _ _ _ Hnd H).
    apply in_keys. unfold Dom.nodes. simpl. rewrite app_nil_r.
    destruct tag; now left.
  - intros H. now apply (NoDup_app_disjoint _ _ _ _ Hnd H).
Qed.

(** Filtering a filtered list is filtering once with both tests. *)
Lemma filter_twice (also keep : Dom.node -> bool) (l : list Dom.node) :
  filter (fun x => also x && keep x) l = filter keep (filter also l).
Proof.
  induction l as [|x l IH]; [reflexivity|].
  simpl. destruct (also x); simpl; [destruct (keep x)|]; now rewrite IH.
Qed.

Lemma not_among_cons (tag : Dom.node) (l : list Dom.node) (x : Dom.node) :
  not_among (tag :: l) x = other_key (Dom.key_of tag) x && not_among l x.
Proof. unfold not_among, other_key. simpl. apply negb_orb. Qed.

Lemma not_among_spec (l : list Dom.node) (x : Dom.node) :
  not_among l x = true <-> ~ In (Dom.key_of x) (map Dom.key_of l).
Proof.
  unfold not_among. rewrite negb_true_iff, <- not_true_iff_false.
  rewrite existsb_exists. split; intros H Hc; apply H.
  - exists (Dom.key_of x). split; [exact Hc | apply Nat.eqb_refl].
  - destruct Hc as (k & Hk & E). apply Nat.eqb_eq in E. now subst.
Qed.

Lemma same_key_same_node (d : list Dom.node) (x y : Dom.node) :
  NoDup (Dom.keys d) -> In x (Dom.nodes d) -> In y (Dom.nodes d) ->
  Dom.key_of x = Dom.key_of y -> x = y.
Proof.
  unfold Dom.keys. induction (Dom.nodes d) as [|n l IH]; simpl;
    intros Hnd Hx Hy E; [destruct Hx|].
  apply NoDup_cons_iff in Hnd. destruct Hnd as [Hn Hnd].
  destruct Hx as [<-|Hx], Hy as [<-|Hy].
  - reflexivity.
  - exfalso. apply Hn. rewrite E. now apply in_map.
  - exfalso. apply Hn. rewrite <- E. now apply in_map.
  - now apply IH.
Qed.

(** Appending distinct declarations of the master document, one after
    the other, moves them all, in that order. *)
Lemma appendChild_all (l : list Dom.node) :
  forall t, trimmer_invariant t ->
    NoDup (map Dom.key_of l) -> incl l (declarations (Dom.master t)) ->
    exists m',
      fold_left Dom.appendChild l t = Dom.mkTrees m' (Dom.root_tag t ++ l) /\
      trimmer_invariant (Dom.mkTrees m' (Dom.root_tag t ++ l)) /\
      declarations m' = filter (not_among l) (declarations (Dom.master t)).
Proof.
  induction l as [|tag l IH]; intros t Hinv Hnd Hincl.
  - exists (Dom.master t). rewrite app_nil_r. destruct t as [m r]. simpl.
    split; [reflexivity|]. split; [exact Hinv|].
    symmetry. apply filter_true.
  - simpl in Hnd. apply NoDup_cons_iff in Hnd. destruct Hnd as [Htag Hnd].
    destruct (appendChild_moves t tag Hinv (Hincl tag (or_introl eq_refl)))
      as (m1 & E1 & Hinv1 & Hd1).
    destruct (IH (Dom.mkTrees m1 (Dom.root_tag t ++ [tag])) Hinv1 Hnd)
      as (m' & E & Hinv' & Hd').
    { intros x Hx. simpl. rewrite Hd1. apply filter_In.
      split; [apply Hincl; now right|].
      unfold other_key. apply negb_true_iff, Nat.eqb_neq.
      intros Ek. apply Htag. rewrite <- Ek. now apply in_map. }
    simpl in E, Hinv', Hd'. rewrite <- app_assoc in E, Hinv'. simpl in E, Hinv'.
    exists m'. simpl fold_left. rewrite E1, E.
    split; [reflexivity|]. split; [exact Hinv'|].
    rewrite Hd', Hd1, <- filter_twice. apply filter_ext.
    intros x. symmetry. apply not_among_cons.
Qed.

(** ** The definition trimmer *)

(** What a successful call of the trimmer has done. *)
Lemma create_ok (w : world) (self : automation) (r : option string)
    (evs : list event) :
  create_new_definition_file w self = (Ok r, evs) ->
  exists ids dom kept,
    read_input_file w self None = Ok ids /\
    parse w (definition_file self) = Parsed dom /\
    build_definition w self dom ids = (Ok kept, evs) /\
    r = None /\
    evs = [Opened (new_def_file self);
           WroteXml (new_def_file self) "NvDefinition" kept].
Proof.
  unfold create_new_definition_file.
  destruct (read_input_file w self None) as [ids|e]; [|discriminate].
  destruct (parse w (definition_file self)) as [dom| | |other]; try discriminate.
  destruct (build_definition w self dom ids) as [[kept|e] evs'] eqn:Hb;
    [|discriminate].
  intros [= <- <-]. exists ids, dom, kept.
  do 2 (split; [reflexivity|]). split; [exact Hb|]. split; [reflexivity|].
  unfold build_definition in Hb.
  destruct (copy_nv_items _ _ _) as [t|e]; [|discriminate].
  destruct (writable w (new_def_file self)); [|discriminate].
  injection Hb as <- <-. reflexivity.
Qed.

(** C4, as the code has it: a call of the trimmer that succeeds has
    written the new definition file under the name kept in [self], and
    hands back nothing (Python's [None]), not the name of that file. *)
Theorem create_new_definition_file_returns_nothing (w : world)
    (self : automation) (r : option string) (evs : list event) :
  create_new_definition_file w self = (Ok r, evs) ->
  r = None /\ r <> Some (new_def_file self) /\
  exists kept,
    evs = [Opened (new_def_file self);
           WroteXml (new_def_file self) "NvDefinition" kept].
Proof.
  intros H.
  destruct (create_ok _ _ _ _ H) as (ids & dom & kept & _ & _ & _ & -> & ->).
  split; [reflexivity|]. split; [discriminate|]. now exists kept.
Qed.

Lemma create_new_definition_file_returns_nothing_witness :
  (@None string) = None /\ None <> Some (new_def_file run_self) /\
  exists kept,
    [Opened "new_definition_1b4e28ba.xml";
     WroteXml "new_definition_1b4e28ba.xml" "NvDefinition"
       (Dom.children (hd (Dom.Text 0 "") new_definition_xml))]
    = [Opened (new_def_file run_self);
       WroteXml (new_def_file run_self) "NvDefinition" kept].
Proof.
  apply (create_new_definition_file_returns_nothing run_world run_self).
  vm_compute; reflexivity.
Defined.

Example create_run :
  create_new_definition_file run_world run_self
  = (Ok None,
     [Opened "new_definition_1b4e28ba.xml";
      WroteXml "new_definition_1b4e28ba.xml" "NvDefinition"
        [data_type_tag 11 "t1";
         data_type_tag 19 "t2";
         nv_tag 13 "1" "a" "false" "uint8";
         nv_tag 15 "2" "b" "true" "uint8";
         nv_tag 21 "3" "c" "false" "t2"]]).
Proof. vm_compute; reflexivity. Qed.

Lemma listed_spec (ids : list Z) (tag : Dom.node) :
  listed ids tag = true <->
  exists n, PyStr.int (Dom.getAttribute tag "id") = Some n /\ In n ids.
Proof.
  unfold listed. destruct (PyStr.int (Dom.getAttribute tag "id")) as [n|].
  - rewrite existsb_exists. split.
    + intros (x & Hx & E). apply Z.eqb_eq in E. subst. now exists x.
    + intros (x & [= <-] & Hx). exists n. split; [exact Hx | apply Z.eqb_refl].
  - split; [discriminate | intros (n & Hn & _); discriminate].
Qed.

(** Once the tag is the last child of the new root, the rest of the inner
    loop leaves the trees as they are. *)
Lemma copy_if_listed_after (tag : Dom.node) (ids : list Z)
    (m r : list Dom.node) (t' : Dom.trees) :
  NoDup (Dom.keys m ++ Dom.keys (r ++ [tag])) ->
  copy_if_listed tag ids (Dom.mkTrees m (r ++ [tag])) = Ok t' ->
  t' = Dom.mkTrees m (r ++ [tag]).
Proof.
  intros Hnd. induction ids as [|id ids IH]; simpl.
  - now intros [= <-].
  - destruct (PyStr.int (Dom.getAttribute tag "id")) as [n|]; [|discriminate].
    destruct (id =? n); [rewrite appendChild_again by exact Hnd|]; exact IH.
Qed.

(** The inner loop appends a tag of the master document when its id is
    among the input ids, however often the id is listed. *)
Lemma copy_if_listed_before (tag : Dom.node) (ids : list Z)
    (t t' : Dom.trees) :
  trimmer_invariant t -> In tag (declarations (Dom.master t)) ->
  copy_if_listed tag ids t = Ok t' ->
  t' = if listed ids tag then Dom.appendChild t tag else t.
Proof.
  intros Hinv Hin. unfold listed. induction ids as [|id ids IH]; simpl.
  - intros [= <-]. destruct (PyStr.int _); reflexivity.
  - destruct (PyStr.int (Dom.getAttribute tag "id")) as [n|]; [|discriminate].
    rewrite (Z.eqb_sym n id). destruct (id =? n); simpl.
    + destruct (appendChild_moves t tag Hinv Hin) as (m1 & -> & [Hnd _] & _).
      intros H. now apply copy_if_listed_after in H.
    + exact IH.
Qed.

Lemma copy_if_listed_total (tag : Dom.node) (ids : list Z) (t : Dom.trees) :
  ids = [] \/ PyStr.int (Dom.getAttribute tag "id") <> None ->
  exists t', copy_if_listed tag ids t = Ok t'.
Proof.
  intros [->|H]; [eexists; reflexivity|].
  revert t. induction ids as [|id ids IH]; intros t; simpl.
  - eexists; reflexivity.
  - destruct (PyStr.int (Dom.getAttribute tag "id")) as [n|];
      [apply IH | congruence].
Qed.

(** The outer loop appends, in document order, the tags whose id is
    among the input ids. *)
Lemma copy_nv_items_spec (tags : list Dom.node) (ids : list Z) :
  forall t t', trimmer_invariant t ->
    NoDup (map Dom.key_of tags) -> incl tags (declarations (Dom.master t)) ->
    copy_nv_items tags ids t = Ok t' ->
    Dom.root_tag t' = (Dom.root_tag t ++ filter (listed ids) tags)%list /\
    trimmer_invariant t'.
Proof.
  induction tags as [|tag tags IH]; intros t t' Hinv Hnd Hincl; simpl.
  - intros [= <-]. rewrite app_nil_r. now split.
  - apply NoDup_cons_iff in Hnd. destruct Hnd as [Htag Hnd].
    destruct (copy_if_listed tag ids t) as [t1|e] eqn:E1; simpl;
      [|discriminate].
    apply (copy_if_listed_before tag ids t t1 Hinv
             (Hincl tag (or_introl eq_refl))) in E1.
    destruct (listed ids tag); subst t1.
    + destruct (appendChild_moves t tag Hinv (Hincl tag (or_introl eq_refl)))
        as (m1 & -> & Hinv1 & Hd1).
      intros H. apply IH in H; [| exact Hinv1 | exact Hnd |].
      * simpl in H. rewrite <- app_assoc in H. exact H.
      * intros x Hx. simpl. rewrite Hd1. apply filter_In.
        split; [apply Hincl; now right|].
        unfold other_key. apply negb_true_iff, Nat.eqb_neq.
        intros Ek. apply Htag. rewrite <- Ek. now apply in_map.
    + intros H. apply IH in H; [exact H | exact Hinv | exact Hnd |].
      intros x Hx. apply Hincl. now right.
Qed.

Lemma copy_nv_items_total (tags : list Dom.node) (ids : list Z) :
  ids = [] \/
  (forall tag, In tag tags -> PyStr.int (Dom.getAttribute tag "id") <> None) ->
  forall t, exists t', copy_nv_items tags ids t = Ok t'.
Proof.
  intros H. induction tags as [|tag tags IH]; intros t; simpl.
  - eexists; reflexivity.
  - destruct (copy_if_listed_total tag ids t) as (t1 & ->).
    + destruct H as [H|H]; [now left | right; apply H; now left].
    + simpl. apply IH. destruct H as [H|H]; [now left|].
      right. intros x Hx. apply H. now right.
Qed.

Lemma tags_of_declarations (d : list Dom.node) (name : string) :
  name = "DataType" \/ name = "NvItem" ->
  Dom.getElementsByTagName d name = filter (Dom.has_tag name) (declarations d).
Proof.
  intros Hname. unfold Dom.getElementsByTagName, declarations.
  rewrite <- filter_twice. apply filter_ext. intros x. unfold is_decl.
  destruct Hname as [-> | ->];
    destruct (Dom.has_tag "DataType" x), (Dom.has_tag "NvItem" x);
    reflexivity.
Qed.

(** The tags picked out of nodes with distinct keys have distinct keys. *)
Lemma distinct_keys_filter (pick : Dom.node -> bool) (ns : list Dom.node) :
  NoDup (map Dom.key_of ns) -> NoDup (map Dom.key_of (filter pick ns)).
Proof.
  induction ns as [|n ns IH]; simpl; intros Hnd; [constructor|].
  apply NoDup_cons_iff in Hnd. destruct Hnd as [Hn Hnd].
  destruct (pick n); simpl; [|now apply IH].
  constructor; [|now apply IH].
  intros Hin. apply Hn. apply in_map_iff in Hin.
  destruct Hin as (y & <- & Hy). apply in_map.
  now apply filter_In in Hy.
Qed.

Lemma two_tags (x : Dom.node) :
  Dom.has_tag "DataType" x = true -> Dom.has_tag "NvItem" x = true -> False.
Proof.
  destruct x as [k t a cs| |]; simpl; try discriminate.
  intros H1 H2. apply String.eqb_eq in H1, H2. congruence.
Qed.

(** Moving the [DataType] tags away leaves the [NvItem] tags of the
    master document as they were, in their order. *)
Lemma nv_items_after_data_types (dom m1 : list Dom.node) :
  NoDup (Dom.keys dom) ->
  declarations m1
  = filter (not_among (Dom.getElementsByTagName dom "DataType"))
           (declarations dom) ->
  Dom.getElementsByTagName m1 "NvItem" = Dom.getElementsByTagName dom "NvItem".
Proof.
  intros Hnd Hd.
  rewrite !(tags_of_declarations _ "NvItem") by now right.
  rewrite Hd, <- filter_twice. apply filter_ext_in. intros x Hx.
  destruct (Dom.has_tag "NvItem" x) eqn:Hnv; [|apply andb_false_r].
  rewrite andb_true_r. apply not_among_spec. intros Hin.
  apply in_map_iff in Hin. destruct Hin as (y & Ek & Hy).
  apply filter_In in Hy. destruct Hy as [Hy Hdt].
  apply filter_In in Hx. destruct Hx as [Hx _].
  assert (E : y = x) by now apply (same_key_same_node dom).
  subst y. exact (two_tags x Hdt Hnv).
Qed.

(** What the trimmer puts under the new root: every [DataType] tag of the
    master document, then the [NvItem] tags whose id is among the input
    ids, each tag once and as it is in the master document. *)
Lemma build_definition_spec (w : world) (self : automation)
    (dom : Dom.document) (ids : list Z) (kept : list Dom.node)
    (evs : list event) :
  NoDup (Dom.keys dom) -> flat_declarations dom ->
  build_definition w self dom ids = (Ok kept, evs) ->
  kept = (Dom.getElementsByTagName dom "DataType"
          ++ filter (listed ids) (Dom.getElementsByTagName dom "NvItem"))%list
  /\ NoDup (Dom.keys kept).
Proof.
  intros Hnd Hflat. unfold build_definition, copy_data_types.
  assert (Hinv0 : trimmer_invariant (Dom.mkTrees dom [])).
  { split; [simpl; now rewrite app_nil_r | exact Hflat]. }
  destruct (appendChild_all (Dom.getElementsByTagName dom "DataType")
              (Dom.mkTrees dom []) Hinv0) as (m1 & -> & Hinv1 & Hd1).
  { apply distinct_keys_filter. exact Hnd. }
  { rewrite (tags_of_declarations _ "DataType") by now left.
    apply incl_filter. }
  simpl in Hinv1, Hd1. simpl Dom.master. simpl app.
  rewrite (nv_items_after_data_types dom m1 Hnd Hd1).
  destruct (copy_nv_items _ ids _) as [t2|e] eqn:E2; [|discriminate].
  destruct (writable w (new_def_file self)); [|discriminate].
  intros [= <- _].
  apply copy_nv_items_spec in E2; [| exact Hinv1 | |].
  - destruct E2 as [E2 [Hnd2 _]]. split; [exact E2|].
    now apply NoDup_app_remove_l in Hnd2.
  - rewrite <- (nv_items_after_data_types dom m1 Hnd Hd1).
    apply distinct_keys_filter. destruct Hinv1 as [H _].
    now apply NoDup_app_remove_r in H.
  - rewrite <- (nv_items_after_data_types dom m1 Hnd Hd1).
    rewrite (tags_of_declarations _ "NvItem") by now right.
    apply incl_filter.
Qed.

Lemma in_nodes_top (d : list Dom.node) (y : Dom.node) :
  In y d -> In y (Dom.nodes d).
Proof.
  intros H. apply in_flat_map. exists y. split; [exact H|].
  destruct y; now left.
Qed.

Lemma in_nodes_inv (d : list Dom.node) (x : Dom.node) :
  In x (Dom.nodes d) ->
  exists y, In y d /\ (x = y \/ In x (Dom.nodes (Dom.children y))).
Proof.
  intros H. apply in_flat_map in H. destruct H as (y & Hy & Hx).
  exists y. split; [exact Hy|].
  destruct y as [k t a cs|k s|k s]; simpl in Hx;
    destruct Hx as [<-|Hx]; auto; destruct Hx.
Qed.

(** C3, as the code has it: the master document being a definition
    document (its DataType and NvItem elements follow one another, none
    inside another one; its nodes are distinct objects), a
    call of the trimmer that succeeds writes a file whose root holds all
    the DataType elements of the master document followed by the NvItem
    elements whose id, read as an integer, is among the input ids.  So
    every DataType element is in the file, an NvItem element of the master
    document is in the file exactly when its id is among the input ids,
    and no element is in the file twice. *)
Theorem create_new_definition_file_contents (w : world) (self : automation)
    (ids : list Z) (dom : Dom.document) (r : option string)
    (evs : list event) :
  read_input_file w self None = Ok ids ->
  parse w (definition_file self) = Parsed dom ->
  NoDup (Dom.keys dom) -> flat_declarations dom ->
  create_new_definition_file w self = (Ok r, evs) ->
  exists kept,
    evs = [Opened (new_def_file self);
           WroteXml (new_def_file self) "NvDefinition" kept] /\
    kept = (Dom.getElementsByTagName dom "DataType"
            ++ filter (listed ids) (Dom.getElementsByTagName dom "NvItem"))%list
    /\
    (forall e, In e (Dom.getElementsByTagName dom "DataType") -> In e kept) /\
    (forall e, In e (Dom.getElementsByTagName dom "NvItem") ->
       (In e (Dom.nodes kept) <->
        exists n, PyStr.int (Dom.getAttribute e "id") = Some n /\ In n ids)) /\
    NoDup (Dom.keys kept).
Proof.
  intros Hids Hdom Hnd Hflat H.
  destruct (create_ok _ _ _ _ H)
    as (ids' & dom' & kept & Hids' & Hdom' & Hb & _ & ->).
  rewrite Hids in Hids'. rewrite Hdom in Hdom'.
  injection Hids' as <-. injection Hdom' as <-.
  destruct (build_definition_spec _ _ _ _ _ _ Hnd Hflat Hb) as [Hk Hnk].
  exists kept. split; [reflexivity|]. split; [exact Hk|].
  split; [|split; [|exact Hnk]].
  - intros e He. rewrite Hk. apply in_or_app. now left.
  - intros e He. rewrite <- listed_spec. split.
    + intros Hin. apply in_nodes_inv in Hin.
      destruct Hin as (y & Hy & Hey).
      pose proof He as He'. apply filter_In in He'. destruct He' as [_ Hnv].
      assert (Hyd : In y (Dom.nodes dom) /\ is_decl y = true).
      { rewrite Hk in Hy. apply in_app_or in Hy.
        destruct Hy as [Hy|Hy].
        - apply filter_In in Hy. destruct Hy as [Hy Ht]. split; [exact Hy|].
          unfold is_decl. now rewrite Ht.
        - apply filter_In in Hy. destruct Hy as [Hy _].
          apply filter_In in Hy. destruct Hy as [Hy Ht]. split; [exact Hy|].
          unfold is_decl. rewrite Ht. apply orb_true_r. }
      destruct Hey as [->|Hbelow].
      * rewrite Hk in Hy. apply in_app_or in Hy. destruct Hy as [Hy|Hy].
        -- apply filter_In in Hy. destruct Hy as [_ Hdt].
           destruct (two_tags _ Hdt Hnv).
        -- apply filter_In in Hy. tauto.
      * destruct Hyd as [Hyn Hyd].
        pose proof (Hflat y e Hyn Hyd Hbelow) as Hf.
        unfold is_decl in Hf. rewrite Hnv, orb_true_r in Hf. discriminate.
    + intros Hl. apply in_nodes_top. rewrite Hk. apply in_or_app. right.
      apply filter_In. now split.
Qed.

(** The trimmer succeeds on a definition document whose NvItem ids are
    integers, when the new file can be opened. *)
Lemma create_new_definition_file_total (w : world) (self : automation)
    (ids : list Z) (dom : Dom.document) :
  read_input_file w self None = Ok ids ->
  parse w (definition_file self) = Parsed dom ->
  NoDup (Dom.keys dom) -> flat_declarations dom ->
  (forall tag, In tag (Dom.getElementsByTagName dom "NvItem") ->
     PyStr.int (Dom.getAttribute tag "id") <> None) ->
  writable w (new_def_file self) = true ->
  exists evs, create_new_definition_file w self = (Ok None, evs).
Proof.
  intros Hids Hdom Hnd Hflat Hint Hw.
  unfold create_new_definition_file. rewrite Hids, Hdom.
  unfold build_definition, copy_data_types.
  assert (Hinv0 : trimmer_invariant (Dom.mkTrees dom [])).
  { split; [simpl; now rewrite app_nil_r | exact Hflat]. }
  destruct (appendChild_all (Dom.getElementsByTagName dom "DataType")
              (Dom.mkTrees dom []) Hinv0) as (m1 & -> & Hinv1 & Hd1).
  { apply distinct_keys_filter. exact Hnd. }
  { rewrite (tags_of_declarations _ "DataType") by now left.
    apply incl_filter. }
  simpl in Hd1. simpl Dom.master.
  rewrite (nv_items_after_data_types dom m1 Hnd Hd1).
  match goal with
  | |- context [copy_nv_items ?tags ids ?t] =>
      destruct (copy_nv_items_total tags ids (or_intror Hint) t) as (t2 & ->)
  end.
  rewrite Hw. eexists; reflexivity.
Qed.

Lemma flat_declarationsb_sound (d : Dom.document) :
  flat_declarationsb d = true -> flat_declarations d.
Proof.
  unfold flat_declarationsb. rewrite forallb_forall.
  intros H n x Hn Hd Hx. specialize (H n Hn). rewrite Hd in H. simpl in H.
  rewrite forallb_forall in H. specialize (H x Hx).
  now apply negb_true_iff in H.
Qed.

Lemma distinctb_sound (l : list nat) : distinctb l = true -> NoDup l.
Proof.
  induction l as [|k l IH]; simpl; intros H; [constructor|].
  apply andb_true_iff in H. destruct H as [Hk Hl].
  constructor; [|now apply IH].
  intros Hin. apply negb_true_iff in Hk.
  assert (E : existsb (Nat.eqb k) l = true)
    by (apply existsb_exists; exists k; split;
        [exact Hin | apply Nat.eqb_refl]).
  congruence.
Qed.

Lemma create_new_definition_file_contents_witness :
  exists kept,
    [Opened "new_definition_1b4e28ba.xml";
     WroteXml "new_definition_1b4e28ba.xml" "NvDefinition"
       [data_type_tag 11 "t1";
        data_type_tag 19 "t2";
        nv_tag 13 "1" "a" "false" "uint8";
        nv_tag 15 "2" "b" "true" "uint8";
        nv_tag 21 "3" "c" "false" "t2"]]
    = [Opened (new_def_file run_self);
       WroteXml (new_def_file run_self) "NvDefinition" kept] /\
    kept = (Dom.getElementsByTagName definition_xml "DataType"
            ++ filter (listed [1; 2; 3])
                 (Dom.getElementsByTagName definition_xml "NvItem"))%list /\
    (forall e, In e (Dom.getElementsByTagName definition_xml "DataType") ->
       In e kept) /\
    (forall e, In e (Dom.getElementsByTagName definition_xml "NvItem") ->
       (In e (Dom.nodes kept) <->
        exists n, PyStr.int (Dom.getAttribute e "id") = Some n /\
                  In n [1; 2; 3])) /\
    NoDup (Dom.keys kept).
Proof.
  apply (create_new_definition_file_contents run_world run_self
           [1; 2; 3] definition_xml None).
  - vm_compute; reflexivity.
  - vm_compute; reflexivity.
  - apply distinctb_sound. vm_compute; reflexivity.
  - apply flat_declarationsb_sound. vm_compute; reflexivity.
  - vm_compute; reflexivity.
Defined.

(** An id listed twice in the input file does not copy its item twice. *)
Example create_with_repeated_id :
  fst (build_definition run_world run_self definition_xml [3; 1; 3; 3])
  = Ok [data_type_tag 11 "t1";
        data_type_tag 19 "t2";
        nv_tag 13 "1" "a" "false" "uint8";
        nv_tag 21 "3" "c" "false" "t2"].
Proof. vm_compute; reflexivity. Qed.

(** Outside the shape of a definition document: an NvItem element that
    lies inside a DataType element goes into the file with it, whatever
    its id. *)
Example create_nested :
  flat_declarationsb
    [Dom.Element 10 "NvDefinition" []
       [Dom.Element 11 "DataType" [("name", "t1")]
          [nv_tag 12 "9" "z" "false" "uint8"];
        nv_tag 14 "1" "a" "false" "t1"]] = false /\
  create_new_definition_file nested_world run_self
  = (Ok None,
     [Opened "new_definition_1b4e28ba.xml";
      WroteXml "new_definition_1b4e28ba.xml" "NvDefinition"
        [Dom.Element 11 "DataType" [("name", "t1")]
           [nv_tag 12 "9" "z" "false" "uint8"];
         nv_tag 14 "1" "a" "false" "t1"]]).
Proof. split; vm_compute; reflexivity. Qed.

(** With the input ids 1, 2 and 3, the NvItem element with id 9 that
    lies inside a DataType element of the master document is written to
    the file: the trimming rule does not hold for every master document. *)
Lemma trimmer_writes_nested_item :
  read_input_file nested_world run_self None = Ok [1; 2; 3] /\
  In (nv_tag 12 "9" "z" "false" "uint8")
     (Dom.nodes
        [Dom.Element 11 "DataType" [("name", "t1")]
           [nv_tag 12 "9" "z" "false" "uint8"];
         nv_tag 14 "1" "a" "false" "t1"]) /\
  ~ trimmer_keeps_listed_items_only.
Proof.
  split; [vm_compute; reflexivity|].
  split; [right; left; reflexivity|].
  intros H.
  destruct (H nested_world run_self [1; 2; 3]
              [Dom.Element 10 "NvDefinition" []
                 [Dom.Element 11 "DataType" [("name", "t1")]
                    [nv_tag 12 "9" "z" "false" "uint8"];
                  nv_tag 14 "1" "a" "false" "t1"]]
              None
              [Opened "new_definition_1b4e28ba.xml";
               WroteXml "new_definition_1b4e28ba.xml" "NvDefinition"
                 [Dom.Element 11 "DataType" [("name", "t1")]
                    [nv_tag 12 "9" "z" "false" "uint8"];
                  nv_tag 14 "1" "a" "false" "t1"]]
              [Dom.Element 11 "DataType" [("name", "t1")]
                 [nv_tag 12 "9" "z" "false" "uint8"];
               nv_tag 14 "1" "a" "false" "t1"]
              (nv_tag 12 "9" "z" "false" "uint8")) as [Hin _].
  - vm_compute; reflexivity.
  - reflexivity.
  - apply distinctb_sound. vm_compute; reflexivity.
  - vm_compute; reflexivity.
  - right; left; reflexivity.
  - vm_compute. left. reflexivity.
  - destruct Hin as (n & Hn & Hin); [right; left; reflexivity|].
    vm_compute in Hn. injection Hn as <-.
    destruct Hin as [E|[E|[E|[]]]]; discriminate E.
Qed.

(** An id that is not an integer in the master document stops the
    trimmer with the domain error, and no file is written. *)
Example create_word_id :
  build_definition run_world run_self
    [Dom.Element 10 "NvDefinition" [] [nv_tag 13 "one" "a" "false" "uint8"]]
    [1]
  = (Raise ValueError, []) /\
  trimmer_handler ValueError = NVAutomationError "Invalid nv item found: ".
Proof. split; reflexivity. Qed.

(** What [int] accepts as an id: single underscores between digits and
    white space around the number, but no underscore at either end, no
    two in a row, and no space after the sign. *)
Example int_of_id_text :
  PyStr.int "1_0" = Some 10 /\ PyStr.int " +1_2_3 " = Some 123 /\
  PyStr.int "007" = Some 7 /\ PyStr.int "-0" = Some 0 /\
  PyStr.int "1__0" = None /\ PyStr.int "_1" = None /\
  PyStr.int "1_" = None /\ PyStr.int "- 5" = None /\
  PyStr.int "" = None /\ PyStr.int "one" = None.
Proof. repeat split; vm_compute; reflexivity. Qed.

(** * Further properties of the code *)

(** ** The reader of NV items *)

Lemma lstrip_first (s : string) (c : ascii) (s' : string) :
  PyStr.lstrip s = String c s' -> PyStr.isspace c = false.
Proof.
  induction s as [|a s IH]; simpl; [discriminate|].
  destruct (PyStr.isspace a) eqn:E; [exact IH|].
  intros [= <- _]. exact E.
Qed.

Lemma rstrip_first (c : ascii) (s : string) :
  PyStr.rstrip (String c s) = "" \/
  exists r, PyStr.rstrip (String c s) = String c r.
Proof.
  simpl. destruct (PyStr.rstrip s) as [|b r].
  - destruct (PyStr.isspace c); [now left | right; now exists ""].
  - right. now exists (String b r).
Qed.

Lemma rstrip_last (s t : string) (d : ascii) :
  PyStr.rstrip s = t ++ String d "" -> PyStr.isspace d = false.
Proof.
  revert t. induction s as [|c s IH]; intros t; simpl.
  - destruct t; discriminate.
  - destruct (PyStr.rstrip s) as [|b r] eqn:E.
    + destruct (PyStr.isspace c) eqn:Ec.
      * destruct t; discriminate.
      * destruct t as [|x t]; simpl.
        -- intros [= <-]. exact Ec.
        -- intros [= _ H]. destruct t; discriminate.
    + destruct t as [|x t]; simpl.
      * discriminate.
      * intros [= _ H]. exact (IH t H).
Qed.

Lemma strip_no_outer_space (s : string) : no_outer_space (PyStr.strip s).
Proof.
  unfold PyStr.strip. split.
  - intros c s' H. destruct (PyStr.lstrip s) as [|a x] eqn:E;
      [discriminate|].
    destruct (rstrip_first a x) as [H0|(r & Hr)]; rewrite H in *;
      [discriminate|].
    injection Hr as <- _. exact (lstrip_first _ _ _ E).
  - intros s' c H. exact (rstrip_last _ _ _ H).
Qed.

Lemma get_nv_type_efs_by_id (i : Z) (calibrated : string) :
  _get_nv_type i calibrated = NV_TYPE_EFS <-> i > NV_TYPE_EFS_RANGE.
Proof.
  unfold _get_nv_type.
  destruct (Z.gtb_spec i NV_TYPE_EFS_RANGE) as [H|H].
  - split; [intros _; lia | reflexivity].
  - split; [|lia].
    destruct (String.eqb _ "true"); [discriminate|].
    destruct (String.eqb _ "ets"); discriminate.
Qed.

Lemma readable_tag_facts (tag : Dom.node) (item : NVItem) :
  readable_tag tag item ->
  PyStr.int (Dom.getAttribute tag "id") = Some (nv_id item) /\
  no_outer_space (nv_name item) /\ no_outer_space (nv_values item) /\
  efs_by_id item.
Proof.
  intros (i & v & Hi & _ & ->). unfold item_of_tag, efs_by_id. simpl.
  split; [exact Hi|].
  split; [apply strip_no_outer_space|].
  split; [apply strip_no_outer_space | apply get_nv_type_efs_by_id].
Qed.

Lemma read_nv_items_readable (w : world) (nv_file : string)
    (dom : Dom.document) (items : list NVItem) :
  parse w nv_file = Parsed dom -> _read_nv_items w nv_file = Ok items ->
  Forall2 readable_tag (Dom.getElementsByTagName dom "NvItem") items.
Proof.
  unfold _read_nv_items. intros -> H.
  destruct (read_tags_ok _ _ _ H) as (made & -> & Hall). exact Hall.
Qed.

Lemma read_nv_items_parsed (w : world) (nv_file : string)
    (items : list NVItem) :
  _read_nv_items w nv_file = Ok items ->
  exists dom, parse w nv_file = Parsed dom.
Proof.
  unfold _read_nv_items. destruct (parse w nv_file) as [dom| | |other];
    try discriminate.
  intros _. now exists dom.
Qed.

Lemma Forall2_right (A B : Type) (R : A -> B -> Prop) (P : B -> Prop)
    (la : list A) (lb : list B) :
  (forall a b, R a b -> P b) -> Forall2 R la lb -> Forall P lb.
Proof. intros H. induction 1; constructor; eauto. Qed.

(** X1: [read_input_file] gives the ids of the NvItem elements of the
    file as integers, one per element and in document order, so an id
    that occurs twice in the file occurs twice in the list.  The file is
    the one named in the call, and the input file of [self] when the call
    names none or names the empty text. *)
Theorem read_input_file_ids (w : world) (self : automation)
    (nv_file : option string) (f : string) (dom : Dom.document)
    (ids : list Z) :
  (nv_file = Some f /\ f <> "") \/
  ((nv_file = None \/ nv_file = Some "") /\ f = input_file self) ->
  parse w f = Parsed dom ->
  read_input_file w self nv_file = Ok ids ->
  Forall2 (fun tag id => PyStr.int (Dom.getAttribute tag "id") = Some id)
          (Dom.getElementsByTagName dom "NvItem") ids.
Proof.
  intros Hf Hp H.
  assert (E : read_input_file w self nv_file
              = (nv_items <- _read_nv_items w f ;; Ok (map nv_id nv_items))).
  { destruct Hf as [[-> Hne]|[[->| ->] ->]]; try reflexivity.
    destruct f; [congruence | reflexivity]. }
  rewrite E in H.
  destruct (_read_nv_items w f) as [items|e] eqn:Hr; [|discriminate].
  injection H as <-.
  pose proof (read_nv_items_readable _ _ _ _ Hp Hr) as Hall.
  clear Hr E. induction Hall as [|tag item tags items Ht _ IH]; simpl;
    constructor; [|exact IH].
  now apply readable_tag_facts in Ht.
Qed.

Lemma read_input_file_ids_witness :
  Forall2 (fun tag id => PyStr.int (Dom.getAttribute tag "id") = Some id)
          (Dom.getElementsByTagName input_xml "NvItem") [1; 2; 3].
Proof.
  apply (read_input_file_ids run_world run_self None "input.xml").
  - right. split; [now left | reflexivity].
  - reflexivity.
  - vm_compute; reflexivity.
Defined.




(** X3: in every record that the reader returns, the name and the values
    have no white space at either end. *)
Theorem read_nv_items_trimmed (w : world) (nv_file : string)
    (items : list NVItem) :
  _read_nv_items w nv_file = Ok items ->
  Forall (fun item => no_outer_space (nv_name item) /\
                      no_outer_space (nv_values item)) items.
Proof.
  intros H. destruct (read_nv_items_parsed _ _ _ H) as (dom & Hp).
  eapply Forall2_right; [|exact (read_nv_items_readable _ _ _ _ Hp H)].
  intros tag item Hr. apply readable_tag_facts in Hr. tauto.
Qed.

Lemma read_nv_items_trimmed_witness :
  Forall (fun item => no_outer_space (nv_name item) /\
                      no_outer_space (nv_values item)) run_input_items.
Proof.
  apply (read_nv_items_trimmed run_world "input.xml").
  vm_compute; reflexivity.
Defined.

(** X4: in every list that the reader returns, a record has the type EFS
    exactly when its id is above 65535. *)
Theorem read_nv_items_efs_by_id (w : world) (nv_file : string)
    (items : list NVItem) :
  _read_nv_items w nv_file = Ok items ->
  Forall (fun item => nv_type_of item = NV_TYPE_EFS <-> nv_id item > 65535)
         items.
Proof.
  intros H. destruct (read_nv_items_parsed _ _ _ H) as (dom & Hp).
  eapply Forall2_right; [|exact (read_nv_items_readable _ _ _ _ Hp H)].
  intros tag item Hr. apply readable_tag_facts in Hr.
  exact (proj2 (proj2 (proj2 Hr))).
Qed.

Lemma read_nv_items_efs_by_id_witness :
  Forall (fun item => nv_type_of item = NV_TYPE_EFS <-> nv_id item > 65535)
         run_input_items.
Proof.
  apply (read_nv_items_efs_by_id run_world "input.xml").
  vm_compute; reflexivity.
Defined.

(** ** Re-typing, once more *)

Lemma read_items_efs_by_id (w : world) (nv_file : string)
    (items : list NVItem) :
  _read_nv_items w nv_file = Ok items -> Forall efs_by_id items.
Proof.
  intros H. destruct (read_nv_items_parsed _ _ _ H) as (dom & Hp).
  eapply Forall2_right; [|exact (read_nv_items_readable _ _ _ _ Hp H)].
  intros tag item Hr. now apply readable_tag_facts in Hr.
Qed.

Lemma retype_efs_by_id (i : NVItem) (defs : list NVItem) :
  efs_by_id i -> Forall efs_by_id defs -> efs_by_id (retype i defs).
Proof.
  intros Hi Hd. induction Hd as [|d defs Hd _ IH]; simpl; [exact Hi|].
  destruct (nv_id i =? nv_id d) eqn:E; simpl; [|exact IH].
  destruct (String.eqb (nv_name i) (nv_name d)); [|exact IH].
  apply Z.eqb_eq in E. unfold efs_by_id in *. simpl. now rewrite E.
Qed.

Lemma retype_twice (i : NVItem) (defs : list NVItem) :
  retype (retype i defs) defs = retype i defs.
Proof.
  induction defs as [|d defs IH]; simpl; [reflexivity|].
  destruct ((nv_id i =? nv_id d) && String.eqb (nv_name i) (nv_name d))
    eqn:E; simpl.
  - now rewrite E.
  - destruct (retype_fields i defs) as (H1 & H2 & _).
    rewrite H1, H2, E. exact IH.
Qed.

(** X5: re-typing keeps the rule that EFS goes with the ids above 65535:
    when the rule holds for the input items, as it does for items read
    from a file, it holds for the re-typed items. *)
Theorem update_keeps_efs_by_id (w : world) (self : automation)
    (input_nv_item_list updated : list NVItem) :
  Forall (fun item => nv_type_of item = NV_TYPE_EFS <-> nv_id item > 65535)
         input_nv_item_list ->
  _update_nv_items_with_def_file w self input_nv_item_list = Ok updated ->
  Forall (fun item => nv_type_of item = NV_TYPE_EFS <-> nv_id item > 65535)
         updated.
Proof.
  intros Hin. unfold _update_nv_items_with_def_file.
  destruct (_read_nv_items w (new_def_file self)) as [defs|e] eqn:Hr;
    [|discriminate].
  simpl. intros [= <-]. apply read_items_efs_by_id in Hr.
  unfold update_items. induction Hin as [|i l Hi _ IH]; simpl; constructor.
  - now apply (retype_efs_by_id i defs).
  - exact IH.
Qed.

Lemma update_keeps_efs_by_id_witness :
  Forall (fun item => nv_type_of item = NV_TYPE_EFS <-> nv_id item > 65535)
         [mkNVItem 2 "b" "3" NV_TYPE_TA; mkNVItem 70000 "e" "1" NV_TYPE_EFS].
Proof.
  apply (update_keeps_efs_by_id run_world run_self
           [mkNVItem 2 "b" "3" NV_TYPE_NV;
            mkNVItem 70000 "e" "1" NV_TYPE_EFS]).
  - repeat constructor; simpl; try discriminate; try lia.
  - vm_compute; reflexivity.
Defined.

(** X6: re-typing a list that has been re-typed against the same
    definition file changes nothing. *)
Theorem update_idempotent (w : world) (self : automation)
    (input_nv_item_list updated : list NVItem) :
  _update_nv_items_with_def_file w self input_nv_item_list = Ok updated ->
  _update_nv_items_with_def_file w self updated = Ok updated.
Proof.
  unfold _update_nv_items_with_def_file.
  destruct (_read_nv_items w (new_def_file self)) as [defs|e];
    [|discriminate].
  simpl. intros [= <-]. f_equal. unfold update_items.
  rewrite map_map. apply map_ext. intros i. apply retype_twice.
Qed.

Lemma update_idempotent_witness :
  _update_nv_items_with_def_file run_world run_self
    [mkNVItem 2 "b" "3" NV_TYPE_TA; mkNVItem 2 "z" "3" NV_TYPE_ETS]
  = Ok [mkNVItem 2 "b" "3" NV_TYPE_TA; mkNVItem 2 "z" "3" NV_TYPE_ETS].
Proof.
  apply (update_idempotent run_world run_self
           [mkNVItem 2 "b" "3" NV_TYPE_NV; mkNVItem 2 "z" "3" NV_TYPE_ETS]).
  vm_compute; reflexivity.
Defined.

(** ** Comparison and report together *)

Lemma find_output_first (i : NVItem) (outs : list NVItem) (o : NVItem) :
  first_with_key i outs o -> find_output i outs = Some o.
Proof.
  intros (before & after & -> & Hb & Hk).
  induction before as [|x before IH]; simpl.
  - apply same_key_spec in Hk. now rewrite Hk.
  - assert (E : same_key i x = false)
      by (apply same_key_false, Hb; now left).
    rewrite E. apply IH. intros y Hy. apply Hb. now right.
Qed.

Lemma find_output_no_key (i : NVItem) (outs : list NVItem) :
  no_key i outs -> find_output i outs = None.
Proof.
  intros Hn. destruct (find_output i outs) as [o|] eqn:E; [|reflexivity].
  exfalso. apply find_output_some in E.
  exact (first_with_key_no_key _ _ _ E Hn).
Qed.

(** The comparison of one input item gives NG exactly when the device
    list does not confirm the item. *)
Lemma verify_item_ng (i : NVItem) (outs : list NVItem) :
  verification_result_of (verify_item i outs) = RESULT_NG <-> mismatch i outs.
Proof.
  unfold verify_item, mismatch.
  destruct (find_output i outs) as [o|] eqn:E.
  - pose proof (find_output_some _ _ _ E) as Hf.
    destruct (String.eqb_spec (nv_values i) (nv_values o)) as [Hv|Hv]; simpl.
    + split; [discriminate|]. intros [Hn|(o' & Hf' & Hv')].
      * destruct (first_with_key_no_key _ _ _ Hf Hn).
      * apply find_output_first in Hf'. congruence.
    + split; [|reflexivity]. intros _. right. now exists o.
  - simpl. split; [|reflexivity]. intros _. left.
    now apply find_output_none.
Qed.

Lemma verify_none_ok (w : world) (fmt : formatter) (self : automation)
    (l : list VerificationItem) (evs : list event) :
  verify w fmt self None = (Ok l, evs) ->
  exists read_items ins outs,
    _read_nv_items w (input_file self) = Ok read_items /\
    _update_nv_items_with_def_file w self read_items = Ok ins /\
    _read_nv_items w (out_file self) = Ok outs /\
    ins <> [] /\ outs <> [] /\
    l = map (fun i => verify_item i outs) ins /\ evs = [].
Proof.
  unfold verify.
  destruct (_read_nv_items w (input_file self)) as [raw|e] eqn:H1;
    [|discriminate].
  destruct (_update_nv_items_with_def_file w self raw) as [ins|e] eqn:H2;
    [|discriminate].
  destruct (_read_nv_items w (out_file self)) as [outs|e] eqn:H3;
    [|discriminate].
  intros H. exists raw, ins, outs.
  split; [reflexivity|]. split; [exact H2|]. split; [reflexivity|].
  unfold verify_items in H.
  destruct ins as [|i ins]; [discriminate|].
  destruct outs as [|o outs]; [discriminate|].
  injection H as <- <-. repeat split; try discriminate.
  now rewrite verify_loop_map.
Qed.

(** X7: the two ways in which the command line makes a report give the
    same result: [verify] called with a report file does what [verify]
    called without one does, followed by the publisher on the list that
    was returned; the list is lost when the publisher fails. *)
Theorem verify_then_publish (w : world) (fmt : formatter)
    (self : automation) (l : list VerificationItem) (evs0 : list event)
    (c : ascii) (f : string) :
  verify w fmt self None = (Ok l, evs0) ->
  verify w fmt self (Some (String c f))
  = (match fst (publish_verification_result w fmt l (String c f)) with
     | Ok _ => Ok l
     | Raise e => Raise e
     end,
     snd (publish_verification_result w fmt l (String c f))).
Proof.
  intros H.
  destruct (verify_none_ok _ _ _ _ _ H)
    as (raw & ins & outs & H1 & H2 & H3 & Hi & Ho & -> & _).
  rewrite (verify_reads _ _ _ _ _ _ _ H1 H2 H3). unfold verify_items.
  destruct ins as [|i ins]; [congruence|].
  destruct outs as [|o outs]; [congruence|].
  rewrite verify_loop_map. simpl app.
  destruct (publish_verification_result w fmt _ (String c f)) as [[[]|e] evs];
    reflexivity.
Qed.

Lemma verify_then_publish_witness :
  verify run_world format_percent run_self (Some "report.html")
  = (match fst (publish_verification_result run_world format_percent
                  run_results "report.html") with
     | Ok _ => Ok run_results
     | Raise e => Raise e
     end,
     snd (publish_verification_result run_world format_percent
            run_results "report.html")).
Proof.
  apply (verify_then_publish run_world format_percent run_self
           run_results [] "r" "eport.html").
  vm_compute; reflexivity.
Defined.

Lemma verify_some_ok (w : world) (fmt : formatter) (self : automation)
    (c : ascii) (f : string) (l : list VerificationItem) (evs : list event) :
  verify w fmt self (Some (String c f)) = (Ok l, evs) ->
  exists read_items ins outs,
    _read_nv_items w (input_file self) = Ok read_items /\
    _update_nv_items_with_def_file w self read_items = Ok ins /\
    _read_nv_items w (out_file self) = Ok outs /\
    ins <> [] /\ l = map (fun i => verify_item i outs) ins /\
    publish_verification_result w fmt l (String c f) = (Ok tt, evs).
Proof.
  unfold verify.
  destruct (_read_nv_items w (input_file self)) as [raw|e] eqn:H1;
    [|discriminate].
  destruct (_update_nv_items_with_def_file w self raw) as [ins|e] eqn:H2;
    [|discriminate].
  destruct (_read_nv_items w (out_file self)) as [outs|e] eqn:H3;
    [|discriminate].
  intros H. exists raw, ins, outs.
  split; [reflexivity|]. split; [exact H2|]. split; [reflexivity|].
  unfold verify_items in H.
  destruct ins as [|i ins]; [discriminate|].
  destruct outs as [|o outs]; [discriminate|].
  rewrite verify_loop_map in H. simpl app in H.
  destruct (publish_verification_result w fmt _ (String c f))
    as [[[]|e] evs'] eqn:Hp; [|discriminate].
  injection H as <- <-. split; [discriminate|]. split; [reflexivity|].
  exact Hp.
Qed.

Lemma has_failed_nv_verify (ins outs : list NVItem) :
  has_failed_nv (map (fun i => verify_item i outs) ins) <->
  exists i, In i ins /\ nv_type_of i = NV_TYPE_NV /\ mismatch i outs.
Proof.
  unfold has_failed_nv. split.
  - intros (r & Hr & Ht & Hng). apply in_map_iff in Hr.
    destruct Hr as (i & <- & Hi). exists i. split; [exact Hi|].
    rewrite verify_item_input in Ht. split; [exact Ht|].
    now apply verify_item_ng.
  - intros (i & Hi & Ht & Hm). exists (verify_item i outs).
    split; [exact (in_map (fun x => verify_item x outs) _ _ Hi)|].
    rewrite verify_item_input.
    split; [exact Ht|]. now apply verify_item_ng.
Qed.

(** X8: from the files to the footer.  When [verify] is called with a
    report file and returns, a report has been written, and its footer is
    filled with FAILED exactly when some input item of type NV is not
    confirmed by the device-read list (no device item with its id and
    name, or other values in the first one that has them); otherwise it is
    filled with PASSED.  The result list that [verify] publishes is never
    empty. *)
Theorem verify_report_summary (w : world) (fmt : formatter)
    (self : automation) (read_items ins outs : list NVItem)
    (c : ascii) (f : string) (l : list VerificationItem) (evs : list event) :
  _read_nv_items w (input_file self) = Ok read_items ->
  _update_nv_items_with_def_file w self read_items = Ok ins ->
  _read_nv_items w (out_file self) = Ok outs ->
  verify w fmt self (Some (String c f)) = (Ok l, evs) ->
  l <> [] /\
  exists header values footer rows summary foot,
    _read_report_template w REPORT_TEMPLATE_FILE
    = Ok (header, values, footer) /\
    evs = [Opened (String c f);
           WroteText (String c f) (header ++ join rows ++ foot)] /\
    fmt footer [PStr summary] = Ok foot /\
    (summary = REPORT_SUMMARY_FAILED <->
     exists i, In i ins /\ nv_type_of i = NV_TYPE_NV /\ mismatch i outs) /\
    (~ (exists i, In i ins /\ nv_type_of i = NV_TYPE_NV /\ mismatch i outs) ->
     summary = REPORT_SUMMARY_PASSED).
Proof.
  intros H1 H2 H3 H.
  destruct (verify_some_ok _ _ _ _ _ _ _ H)
    as (raw' & ins' & outs' & H1' & H2' & H3' & Hne & -> & Hp).
  rewrite H1 in H1'. injection H1' as <-.
  rewrite H2 in H2'. injection H2' as <-.
  rewrite H3 in H3'. injection H3' as <-.
  split; [destruct ins; [congruence | discriminate]|].
  destruct (publish_ok _ _ _ _ _ Hp)
    as (header & values & footer & rows & summary & foot
        & Ht & -> & _ & Hf & Hs).
  exists header, values, footer, rows, summary, foot.
  split; [exact Ht|]. split; [reflexivity|]. split; [exact Hf|].
  rewrite <- has_failed_nv_verify, <- has_failed_nv_spec.
  destruct ins as [|i ins]; [congruence|].
  cbn [map orb] in Hs. subst summary.
  destruct (existsb is_failed_nv _).
  - split; [tauto|]. intros Hn. exfalso. now apply Hn.
  - split; [split; discriminate | reflexivity].
Qed.

Lemma verify_report_summary_witness :
  run_results <> [] /\
  exists header values footer rows summary foot,
    _read_report_template run_world REPORT_TEMPLATE_FILE
    = Ok (header, values, footer) /\
    run_events = [Opened "report.html";
                  WroteText "report.html" (header ++ join rows ++ foot)] /\
    format_percent footer [PStr summary] = Ok foot /\
    (summary = REPORT_SUMMARY_FAILED <->
     exists i, In i run_input_items /\ nv_type_of i = NV_TYPE_NV /\
               mismatch i run_output_items) /\
    (~ (exists i, In i run_input_items /\ nv_type_of i = NV_TYPE_NV /\
                  mismatch i run_output_items) ->
     summary = REPORT_SUMMARY_PASSED).
Proof.
  apply (verify_report_summary run_world format_percent run_self
           run_input_items run_input_items run_output_items
           "r" "eport.html" run_results run_events).
  - vm_compute; reflexivity.
  - vm_compute; reflexivity.
  - vm_compute; reflexivity.
  - vm_compute; reflexivity.
Defined.

(** ** The publisher when it fails *)

Lemma read_report_template_raise (w : world) (file : string) (e : exn) :
  _read_report_template w file = Raise e ->
  (exists msg, e = NVAutomationError msg) \/ e = UnboundLocalError.
Proof.
  unfold _read_report_template. destruct (readlines w file) as [lines|].
  - destruct (scan_template lines None None None) as [[[h|] [v|]] [f|]];
      intros [= <-]; now right.
  - intros [= <-]. left. eexists; reflexivity.
Qed.

Lemma render_rows_raise (fmt : formatter) (V : string)
    (results : list VerificationItem) (acc summary : string) (e : exn) :
  render_rows fmt V results acc summary = Raise e ->
  exists args, fmt V args = Raise e.
Proof.
  revert acc summary. induction results as [|r results IH];
    intros acc summary; simpl; [discriminate|].
  destruct (row_state r summary) as [state s1].
  destruct (fmt V (row_args r state)) as [row|e'] eqn:Hrow; simpl.
  - apply IH.
  - intros [= <-]. now exists (row_args r state).
Qed.

Lemma publisher_handler_wraps (e : exn) :
  publisher_handler e <> TypeError /\ publisher_handler e <> IOError /\
  ((exists msg, publisher_handler e = NVAutomationError msg) \/
   (publisher_handler e = e /\ e <> TypeError /\ e <> IOError)).
Proof.
  destruct e; simpl; repeat split; try discriminate;
    solve [left; eexists; reflexivity
          | right; repeat split; discriminate].
Qed.

(** What a failing call of the publisher has done. *)
Lemma publish_raise (w : world) (fmt : formatter)
    (results : list VerificationItem) (report_file : string) (e : exn)
    (evs : list event) :
  publish_verification_result w fmt results report_file = (Raise e, evs) ->
  (evs = [] /\ _read_report_template w REPORT_TEMPLATE_FILE = Raise e) \/
  (evs = [] /\ writable w report_file = false /\
   exists msg, e = NVAutomationError msg) \/
  (evs = [Opened report_file] /\ writable w report_file = true /\
   exists t template args e',
     _read_report_template w REPORT_TEMPLATE_FILE = Ok t /\
     fmt template args = Raise e' /\ e = publisher_handler e').
Proof.
  unfold publish_verification_result.
  destruct (_read_report_template w REPORT_TEMPLATE_FILE)
    as [[[header values] footer]|e0].
  - destruct (writable w report_file).
    + destruct (render_rows fmt values results "" _) as [[vals s]|e1]
        eqn:Hr; simpl.
      * destruct (fmt footer [PStr s]) as [foot|e2] eqn:Hf; simpl;
          [discriminate|].
        intros [= <- <-]. right; right. repeat split.
        exists (header, values, footer), footer, [PStr s], e2. now repeat split.
      * intros [= <- <-]. right; right. repeat split.
        destruct (render_rows_raise _ _ _ _ _ _ Hr) as (args & Ha).
        exists (header, values, footer), values, args, e1. now repeat split.
    + intros [= <- <-]. right; left. repeat split. eexists; reflexivity.
  - intros [= <- <-]. left. now split.
Qed.

(** X9: a failing publisher never writes text.  It leaves the files
    untouched when the template cannot be used or the report file cannot
    be opened; when the formatting fails, the report file has already
    been opened for writing and is left empty. *)
Theorem publish_failure_effects (w : world) (fmt : formatter)
    (result_list : list VerificationItem) (report_file : string)
    (e : exn) (evs : list event) :
  publish_verification_result w fmt result_list report_file
  = (Raise e, evs) ->
  (evs = [] /\
   (_read_report_template w REPORT_TEMPLATE_FILE = Raise e \/
    writable w report_file = false)) \/
  (evs = [Opened report_file] /\ writable w report_file = true /\
   exists t template args e',
     _read_report_template w REPORT_TEMPLATE_FILE = Ok t /\
     fmt template args = Raise e').
Proof.
  intros H. destruct (publish_raise _ _ _ _ _ _ H)
    as [[-> Ht]|[(-> & Hw & _)|(-> & Hw & t & tpl & args & e' & Ht & Hf & _)]].
  - left. split; [reflexivity | now left].
  - left. split; [reflexivity | now right].
  - right. repeat split; [exact Hw|]. now exists t, tpl, args, e'.
Qed.

Lemma publish_failure_effects_witness :
  ([Opened "report.html"] = [] /\
   (_read_report_template run_world REPORT_TEMPLATE_FILE
    = Raise (NVAutomationError "Unable to publish the result: ") \/
    writable run_world "report.html" = false)) \/
  ([Opened "report.html"] = [Opened "report.html"] /\
   writable run_world "report.html" = true /\
   exists t template args e',
     _read_report_template run_world REPORT_TEMPLATE_FILE = Ok t /\
     failing_format template args = Raise e').
Proof.
  apply (publish_failure_effects run_world failing_format
           run_results "report.html").
  vm_compute; reflexivity.
Defined.

(** X10: what the handlers of the publisher do.  IOError and TypeError
    never leave the publisher: those of the template file, of opening the
    report file and of the [%] operator are raised again as the domain
    error.  The UnboundLocalError of a template that lacks one of its
    markers is not among them: it leaves the publisher as it is, and the
    report file has not been opened. *)
Theorem publish_exceptions (w : world) (fmt : formatter)
    (result_list : list VerificationItem) (report_file : string)
    (r : result unit) (evs : list event) :
  publish_verification_result w fmt result_list report_file = (r, evs) ->
  r <> Raise TypeError /\ r <> Raise IOError /\
  (_read_report_template w REPORT_TEMPLATE_FILE = Raise UnboundLocalError ->
   r = Raise UnboundLocalError /\ evs = []).
Proof.
  intros H. split; [|split].
  - intros ->. destruct (publish_raise _ _ _ _ _ _ H)
      as [[_ Ht]|[(_ & _ & msg & Hm)|(_ & _ & t & tpl & args & e' & _ & _ & He)]].
    + destruct (read_report_template_raise _ _ _ Ht) as [(msg & Hm)|Hm];
        discriminate.
    + discriminate.
    + destruct (publisher_handler_wraps e') as (H1 & _). congruence.
  - intros ->. destruct (publish_raise _ _ _ _ _ _ H)
      as [[_ Ht]|[(_ & _ & msg & Hm)|(_ & _ & t & tpl & args & e' & _ & _ & He)]].
    + destruct (read_report_template_raise _ _ _ Ht) as [(msg & Hm)|Hm];
        discriminate.
    + discriminate.
    + destruct (publisher_handler_wraps e') as (_ & H2 & _). congruence.
  - intros Ht. unfold publish_verification_result in H. rewrite Ht in H.
    injection H as <- <-. now split.
Qed.

Lemma publish_exceptions_witness :
  Raise (NVAutomationError "Unable to publish the result: ")
  <> @Raise unit TypeError /\
  Raise (NVAutomationError "Unable to publish the result: ")
  <> @Raise unit IOError /\
  (_read_report_template run_world REPORT_TEMPLATE_FILE
   = Raise UnboundLocalError ->
   Raise (NVAutomationError "Unable to publish the result: ")
   = @Raise unit UnboundLocalError /\
   [Opened "report.html"] = []).
Proof.
  apply (publish_exceptions run_world failing_format
           run_results "report.html").
  vm_compute; reflexivity.
Defined.

(** A template whose three markers are on one line binds the header
    only, and the publisher ends with UnboundLocalError before it opens
    the report file. *)
Example publish_unbound_template :
  publish_verification_result
    (mkWorld (parse run_world)
             (fun _ => Some ["%header%%values%%footer%"])
             (writable run_world))
    format_percent run_results "report.html"
  = (Raise UnboundLocalError, []).
Proof. vm_compute; reflexivity. Qed.

(** ** The order of the device-read list *)

Lemma item_key_same (outs : list NVItem) (x y : NVItem) :
  NoDup (map item_key outs) -> In x outs -> In y outs ->
  item_key x = item_key y -> x = y.
Proof.
  induction outs as [|o outs IH]; simpl; intros Hnd Hx Hy E; [destruct Hx|].
  apply NoDup_cons_iff in Hnd. destruct Hnd as [Ho Hnd].
  destruct Hx as [<-|Hx], Hy as [<-|Hy].
  - reflexivity.
  - exfalso. apply Ho. rewrite E. now apply in_map.
  - exfalso. apply Ho. rewrite <- E. now apply in_map.
  - now apply IH.
Qed.

Lemma find_output_in (outs : list NVItem) (i o : NVItem) :
  NoDup (map item_key outs) -> In o outs -> same_key i o = true ->
  find_output i outs = Some o.
Proof.
  intros Hnd Hin Hk. apply same_key_spec in Hk.
  destruct (find_output i outs) as [o'|] eqn:E.
  - f_equal. pose proof (find_output_some _ _ _ E)
      as (before & after & Ho & _ & Hid & Hname).
    apply (item_key_same outs); [exact Hnd | | exact Hin |].
    + rewrite Ho. apply in_or_app. right. now left.
    + unfold item_key. destruct Hk as [<- <-]. now rewrite Hid, Hname.
  - exfalso. apply find_output_none in E. exact (E o Hin Hk).
Qed.

Lemma find_output_permutation (outs outs' : list NVItem) (i : NVItem) :
  NoDup (map item_key outs) -> Permutation outs outs' ->
  find_output i outs = find_output i outs'.
Proof.
  intros Hnd Hp.
  destruct (find_output i outs') as [o|] eqn:E.
  - pose proof (find_output_some _ _ _ E)
      as (before & after & Ho & _ & Hk).
    apply find_output_in; [exact Hnd | | now apply same_key_spec].
    apply (Permutation_in _ (Permutation_sym Hp)).
    rewrite Ho. apply in_or_app. right. now left.
  - apply find_output_no_key. apply find_output_none in E.
    intros x Hx. apply E. exact (Permutation_in _ Hp Hx).
Qed.

(** X11: when no two device-read items share their id and name, the
    order of the device-read list does not matter: [verify] gives the same
    results, and the same report, for every rearrangement of it. *)
Theorem verify_device_order (w : world) (fmt : formatter)
    (input_nv_items output_nv_items rearranged : list NVItem)
    (report_file : option string) :
  NoDup (map (fun o => (nv_id o, nv_name o)) output_nv_items) ->
  Permutation output_nv_items rearranged ->
  verify_items w fmt input_nv_items output_nv_items report_file
  = verify_items w fmt input_nv_items rearranged report_file.
Proof.
  intros Hnd Hp.
  assert (E : verify_loop input_nv_items output_nv_items []
              = verify_loop input_nv_items rearranged []).
  { rewrite !verify_loop_map. simpl. apply map_ext. intros i.
    unfold verify_item.
    now rewrite (find_output_permutation _ _ i Hnd Hp). }
  unfold verify_items. rewrite E.
  destruct input_nv_items as [|i ins]; [reflexivity|].
  destruct output_nv_items as [|o outs].
  - apply Permutation_nil in Hp. now subst.
  - destruct rearranged as [|o' outs'];
      [apply Permutation_sym, Permutation_nil in Hp; discriminate|].
    reflexivity.
Qed.

Lemma verify_device_order_witness :
  verify_items run_world format_percent run_input_items run_output_items
    (Some "report.html")
  = verify_items run_world format_percent run_input_items
      (rev run_output_items) (Some "report.html").
Proof.
  apply verify_device_order.
  - repeat constructor; simpl; intuition discriminate.
  - apply Permutation_rev.
Defined.

(** ** The template, line by line *)

Lemma scan_template_last (lines : list string) (h v f : option string) :
  scan_template lines h v f
  = (match last_of_role Header lines with Some t => Some t | None => h end,
     match last_of_role Values lines with Some t => Some t | None => v end,
     match last_of_role Footer lines with Some t => Some t | None => f end).
Proof.
  revert h v f. induction lines as [|line lines IH]; intros h v f.
  - reflexivity.
  - simpl. unfold line_role.
    destruct (PyStr.search "%header%" line);
      [|destruct (PyStr.search "%values%" line);
        [|destruct (PyStr.search "%footer%" line)]];
      rewrite IH; simpl;
      destruct (last_of_role Header lines), (last_of_role Values lines),
        (last_of_role Footer lines); reflexivity.
Qed.

(** X12: what the template reader returns.  A line stands for the first
    of header, values and footer whose marker it holds; the reader
    returns, for each of the three, the last line that stands for it,
    without outer white space and without that marker, and it returns
    only when each of the three has such a line. *)
Theorem read_report_template_last_lines (w : world) (file : string)
    (header values footer : string) :
  _read_report_template w file = Ok (header, values, footer) <->
  exists lines, readlines w file = Some lines /\
    last_of_role Header lines = Some header /\
    last_of_role Values lines = Some values /\
    last_of_role Footer lines = Some footer.
Proof.
  unfold _read_report_template. destruct (readlines w file) as [lines|].
  - rewrite scan_template_last. split.
    + intros H. exists lines. split; [reflexivity|].
      destruct (last_of_role Header lines), (last_of_role Values lines),
        (last_of_role Footer lines); try discriminate.
      now injection H as -> -> ->.
    + intros (lines' & [= <-] & -> & -> & ->). reflexivity.
  - split; [discriminate | intros (lines & Hl & _); discriminate].
Qed.

(** Two header lines: the later one is used; the marker of the values
    line does not count on a line that also holds the header marker. *)
Example template_later_line :
  _read_report_template
    (mkWorld (parse run_world)
             (fun _ => Some ["<a>%header%"; "<b>%header%%values%";
                             "  <tr>%s</tr>%values%  "; "%footer%</b>"])
             (writable run_world))
    REPORT_TEMPLATE_FILE
  = Ok ("<b>%values%", "<tr>%s</tr>", "</b>").
Proof. vm_compute; reflexivity. Qed.

(** ** The trimmer at its edges *)

(** The trimmer's [try] block on a definition document: after the first
    loop the [DataType] tags are under the new root, and the second loop
    runs over the [NvItem] tags of the master document. *)
Lemma build_definition_loops (w : world) (self : automation)
    (dom : Dom.document) (ids : list Z) :
  NoDup (Dom.keys dom) -> flat_declarations dom ->
  exists m1,
    build_definition w self dom ids
    = match copy_nv_items (Dom.getElementsByTagName dom "NvItem") ids
              (Dom.mkTrees m1 (Dom.getElementsByTagName dom "DataType")) with
      | Raise e => (Raise e, [])
      | Ok t =>
          if writable w (new_def_file self)
          then (Ok (Dom.root_tag t),
                [Opened (new_def_file self);
                 WroteXml (new_def_file self) "NvDefinition" (Dom.root_tag t)])
          else (Raise IOError, [])
      end.
Proof.
  intros Hnd Hflat. unfold build_definition, copy_data_types.
  assert (Hinv0 : trimmer_invariant (Dom.mkTrees dom [])).
  { split; [simpl; now rewrite app_nil_r | exact Hflat]. }
  destruct (appendChild_all (Dom.getElementsByTagName dom "DataType")
              (Dom.mkTrees dom []) Hinv0) as (m1 & -> & _ & Hd1).
  { apply distinct_keys_filter. exact Hnd. }
  { rewrite (tags_of_declarations _ "DataType") by now left.
    apply incl_filter. }
  exists m1. simpl in Hd1. simpl Dom.master. simpl app.
  now rewrite (nv_items_after_data_types dom m1 Hnd Hd1).
Qed.

Lemma copy_nv_items_nil (tags : list Dom.node) (t : Dom.trees) :
  copy_nv_items tags [] t = Ok t.
Proof. induction tags as [|tag tags IH]; simpl; [reflexivity | exact IH]. Qed.

Lemma copy_nv_items_bad_id (tags : list Dom.node) (ids : list Z)
    (tag : Dom.node) :
  ids <> [] -> In tag tags ->
  PyStr.int (Dom.getAttribute tag "id") = None ->
  forall t, copy_nv_items tags ids t = Raise ValueError.
Proof.
  intros Hne Hin Hbad.
  induction tags as [|x tags IH]; intros t; [destruct Hin|].
  simpl.
  destruct (PyStr.int (Dom.getAttribute x "id")) as [n|] eqn:Hx.
  - destruct (copy_if_listed_total x ids t) as (t1 & ->);
      [right; congruence|].
    simpl. apply IH. destruct Hin as [->|Hin]; [congruence | exact Hin].
  - destruct ids as [|id ids]; [congruence|]. simpl. now rewrite Hx.
Qed.

(** X13: the master document being a definition document (no DataType
    or NvItem element inside another one), with an input file that holds
    no NvItem element the trimmer writes a definition file that holds the
    DataType elements of the master document and nothing else; the ids of
    the master document are not read at all, so ids that are not integers
    do no harm. *)
Theorem create_with_no_input_ids (w : world) (self : automation)
    (dom : Dom.document) :
  read_input_file w self None = Ok [] ->
  parse w (definition_file self) = Parsed dom ->
  NoDup (Dom.keys dom) -> flat_declarations dom ->
  writable w (new_def_file self) = true ->
  create_new_definition_file w self
  = (Ok None,
     [Opened (new_def_file self);
      WroteXml (new_def_file self) "NvDefinition"
        (Dom.getElementsByTagName dom "DataType")]).
Proof.
  intros Hids Hdom Hnd Hflat Hw. unfold create_new_definition_file.
  rewrite Hids, Hdom.
  destruct (build_definition_loops w self dom [] Hnd Hflat) as (m1 & ->).
  rewrite copy_nv_items_nil, Hw. reflexivity.
Qed.

(** X14: the master document being a definition document (no DataType
    or NvItem element inside another one), with an input file that holds
    an NvItem element, an NvItem element of the master document whose id
    [int] does not accept makes the trimmer fail with the domain error
    before the new file is opened, whether or not any id matches. *)
Theorem create_with_bad_master_id (w : world) (self : automation)
    (ids : list Z) (dom : Dom.document) (tag : Dom.node) :
  read_input_file w self None = Ok ids -> ids <> [] ->
  parse w (definition_file self) = Parsed dom ->
  NoDup (Dom.keys dom) -> flat_declarations dom ->
  In tag (Dom.getElementsByTagName dom "NvItem") ->
  PyStr.int (Dom.getAttribute tag "id") = None ->
  create_new_definition_file w self
  = (Raise (NVAutomationError "Invalid nv item found: "), []).
Proof.
  intros Hids Hne Hdom Hnd Hflat Hin Hbad. unfold create_new_definition_file.
  rewrite Hids, Hdom.
  destruct (build_definition_loops w self dom ids Hnd Hflat) as (m1 & ->).
  rewrite (copy_nv_items_bad_id _ ids tag Hne Hin Hbad). reflexivity.
Qed.



Lemma create_with_no_input_ids_witness :
  create_new_definition_file no_input_world run_self
  = (Ok None,
     [Opened (new_def_file run_self);
      WroteXml (new_def_file run_self) "NvDefinition"
        (Dom.getElementsByTagName word_master_xml "DataType")]).
Proof.
  apply (create_with_no_input_ids no_input_world run_self word_master_xml).
  - vm_compute; reflexivity.
  - vm_compute; reflexivity.
  - apply distinctb_sound. vm_compute; reflexivity.
  - apply flat_declarationsb_sound. vm_compute; reflexivity.
  - reflexivity.
Defined.

Lemma create_with_bad_master_id_witness :
  create_new_definition_file word_master_world run_self
  = (Raise (NVAutomationError "Invalid nv item found: "), []).
Proof.
  apply (create_with_bad_master_id word_master_world run_self [1; 2; 3]
           word_master_xml (nv_tag 13 "one" "a" "false" "uint8")).
  - vm_compute; reflexivity.
  - discriminate.
  - vm_compute; reflexivity.
  - apply distinctb_sound. vm_compute; reflexivity.
  - apply flat_declarationsb_sound. vm_compute; reflexivity.
  - left. reflexivity.
  - vm_compute; reflexivity.
Defined.


Lemma filter_all (A : Type) (p : A -> bool) (l : list A) :
  (forall x, In x l -> p x = true) -> filter p l = l.
Proof.
  intros H. induction l as [|x l IH]; [reflexivity|]. simpl.
  rewrite (H x (or_introl eq_refl)). f_equal. apply IH.
  intros y Hy. apply H. now right.
Qed.

(** ** Reading the items from the phone *)

Lemma tool_on_path_spec (h : host) (PATH : list string) (tool : string) :
  tool_on_path h PATH tool = true <->
  exists p, In p PATH /\ isfile h (path_join h p tool) = true /\
            access_X_OK h (path_join h p tool) = true.
Proof.
  induction PATH as [|p PATH IH]; simpl.
  - split; [discriminate | intros (p & [] & _)].
  - unfold is_exe at 1.
    destruct (isfile h (path_join h p tool)
              && access_X_OK h (path_join h p tool)) eqn:E.
    + split; [|reflexivity]. intros _. exists p.
      apply andb_true_iff in E. split; [now left | exact E].
    + rewrite IH. split.
      * intros (q & Hq & H). exists q. split; [now right | exact H].
      * intros (q & [<-|Hq] & H1 & H2).
        -- rewrite H1, H2 in E. discriminate.
        -- now exists q.
Qed.

Lemma command_tool_exists_spec (h : host) (tool : string) :
  command_tool_exists h tool = Done true <-> on_PATH h tool.
Proof.
  unfold command_tool_exists, on_PATH.
  destruct (environ_PATH h) as [path|].
  - split.
    + intros [= H]. apply tool_on_path_spec in H.
      destruct H as (p & Hp & H). now exists path, p.
    + intros (path' & p & [= <-] & Hp & H). f_equal.
      apply tool_on_path_spec. now exists p.
  - split; [discriminate | intros (path & p & H & _); discriminate].
Qed.

(** X17: the device read returns exactly when the tool is found in some
    entry of PATH, the tool can be launched, and its output does not hold
    the text "Command failed"; the tool has then been launched once, with
    the definition file, the output file and the port as its arguments. *)
Theorem read_from_phone_returns (h : host) (self : automation)
    (definition_file : string) (launched : list (list string)) :
  read_nv_items_from_phone h self definition_file = (Done tt, launched) <->
  on_PATH h "qmsl_nvtool_msvc7r.exe" /\
  (exists output,
     run_cmd h ["qmsl_nvtool_msvc7r.exe"; "-ph2src";
                "-def=" ++ definition_file; "-src=" ++ out_file self;
                "-qpst"; "-com=" ++ connection_port self] = Some output /\
     ~ occurs "Command failed" output) /\
  launched = [["qmsl_nvtool_msvc7r.exe"; "-ph2src";
               "-def=" ++ definition_file; "-src=" ++ out_file self;
               "-qpst"; "-com=" ++ connection_port self]].
Proof.
  rewrite <- command_tool_exists_spec. unfold read_nv_items_from_phone.
  change QCT_COMMAND_TOOL_NAME with "qmsl_nvtool_msvc7r.exe".
  destruct (command_tool_exists h "qmsl_nvtool_msvc7r.exe") as [[|]|e].
  - unfold cmdandargs.
    change QCT_COMMAND_TOOL_NAME with "qmsl_nvtool_msvc7r.exe".
    destruct (run_cmd h _) as [output|].
    + destruct (PyStr.search "Command failed" output) eqn:E.
      * split; [discriminate|]. intros (_ & (o & [= <-] & Hn) & _).
        exfalso. now apply Hn, search_occurs.
      * split.
        -- intros [= <-]. split; [reflexivity|]. split; [|reflexivity].
           exists output. split; [reflexivity|].
           intros Ho. apply search_occurs in Ho. congruence.
        -- intros (_ & _ & ->). reflexivity.
    + split; [discriminate|]. intros (_ & (o & Ho & _) & _). discriminate.
  - split; [discriminate | intros (H & _); discriminate].
  - split; [discriminate | intros (H & _); discriminate].
Qed.

(** X18: the failures of the device read.  Without a PATH variable it
    ends with KeyError, which is not the domain error; every other
    failure is the domain error.  The tool is not launched when it is not
    found on PATH, and it is never launched a second time. *)
Theorem read_from_phone_failures (h : host) (self : automation)
    (definition_file : string) (e : py_exn)
    (launched : list (list string)) :
  read_nv_items_from_phone h self definition_file = (Failed e, launched) ->
  (e = KeyError /\ environ_PATH h = None /\ launched = []) \/
  (exists msg, e = Of (NVAutomationError msg)) /\
  ((launched = [] /\ ~ on_PATH h "qmsl_nvtool_msvc7r.exe") \/
   (launched = [cmdandargs self definition_file] /\
    on_PATH h "qmsl_nvtool_msvc7r.exe" /\
    (run_cmd h (cmdandargs self definition_file) = None \/
     exists output,
       run_cmd h (cmdandargs self definition_file) = Some output /\
       occurs "Command failed" output))).
Proof.
  rewrite <- command_tool_exists_spec. unfold read_nv_items_from_phone.
  change QCT_COMMAND_TOOL_NAME with "qmsl_nvtool_msvc7r.exe".
  destruct (command_tool_exists h "qmsl_nvtool_msvc7r.exe") as [[|]|e0] eqn:Ht.
  - destruct (run_cmd h (cmdandargs self definition_file)) as [output|].
    + destruct (PyStr.search "Command failed" output) eqn:E; [|discriminate].
      intros [= <- <-]. right. split; [eexists; reflexivity|]. right.
      split; [reflexivity|]. split; [reflexivity|]. right.
      exists output. split; [reflexivity | now apply search_occurs].
    + intros [= <- <-]. right. split; [eexists; reflexivity|]. right.
      split; [reflexivity|]. split; [reflexivity | now left].
  - intros [= <- <-]. right. split; [eexists; reflexivity|]. left.
    split; [reflexivity | discriminate].
  - intros [= <- <-]. left. unfold command_tool_exists in Ht.
    destruct (environ_PATH h); [discriminate|]. injection Ht as <-.
    repeat split.
Qed.

Lemma read_from_phone_failures_witness :
  (Of (NVAutomationError "Invalid parameter used in QCT command tool.")
   = KeyError /\
   environ_PATH (tool_host (Some "Command failed: port")) = None /\
   [cmdandargs run_self "d.xml"] = []) \/
  (exists msg,
     Of (NVAutomationError "Invalid parameter used in QCT command tool.")
     = Of (NVAutomationError msg)) /\
  (([cmdandargs run_self "d.xml"] = [] /\
    ~ on_PATH (tool_host (Some "Command failed: port"))
        "qmsl_nvtool_msvc7r.exe") \/
   ([cmdandargs run_self "d.xml"] = [cmdandargs run_self "d.xml"] /\
    on_PATH (tool_host (Some "Command failed: port"))
      "qmsl_nvtool_msvc7r.exe" /\
    (run_cmd (tool_host (Some "Command failed: port"))
       (cmdandargs run_self "d.xml") = None \/
     exists output,
       run_cmd (tool_host (Some "Command failed: port"))
         (cmdandargs run_self "d.xml") = Some output /\
       occurs "Command failed" output))).
Proof.
  apply (read_from_phone_failures (tool_host (Some "Command failed: port"))
           run_self "d.xml").
  vm_compute; reflexivity.
Defined.

Example read_from_phone_run :
  read_nv_items_from_phone (tool_host (Some "done")) run_self
    "new_definition_1b4e28ba.xml"
  = (Done tt,
     [["qmsl_nvtool_msvc7r.exe"; "-ph2src";
       "-def=new_definition_1b4e28ba.xml"; "-src=nv_out.xml"; "-qpst";
       "-com=COM3"]]).
Proof. vm_compute; reflexivity. Qed.

Example read_from_phone_without_path :
  read_nv_items_from_phone bare_host run_self "d.xml" = (Failed KeyError, []).
Proof. reflexivity. Qed.

(** ** The ids that are in one list only *)

(** X19: [find_unique] gives the ids that are in the first list and not
    in the second, each of them once. *)
Theorem find_unique_spec (first_nvids second_nvids : list Z) :
  (forall x, In x (find_unique first_nvids second_nvids) <->
             In x first_nvids /\ ~ In x second_nvids) /\
  NoDup (find_unique first_nvids second_nvids).
Proof.
  unfold find_unique. split; [|apply NoDup_nodup].
  intros x. rewrite nodup_In, filter_In, negb_true_iff.
  rewrite <- not_true_iff_false, existsb_exists.
  split; intros [H1 H2]; (split; [exact H1|]); intros H; apply H2.
  - exists x. split; [exact H | apply Z.eqb_refl].
  - destruct H as (y & Hy & E). apply Z.eqb_eq in E. now subst.
Qed.

(** ** The command line *)

Lemma not_removed_on_file (p : string) (evs : list event) :
  ~ In (Removed p) (map OnFile evs).
Proof.
  intros H. apply in_map_iff in H. destruct H as (x & Hx & _). discriminate.
Qed.

Lemma not_removed_launched (p : string) (cmds : list (list string)) :
  ~ In (Removed p) (map Launched cmds).
Proof.
  intros H. apply in_map_iff in H. destruct H as (x & Hx & _). discriminate.
Qed.

Lemma removed_quietly (h : host) (f p : string) :
  In (Removed p) (remove_quietly h f) -> p = f /\ removable h p = true.
Proof.
  unfold remove_quietly. destruct (removable h f) eqn:E; [|intros []].
  intros [[= <-]|[]]. now split.
Qed.

(** X20: when the command line removes the trimmed definition file.  A
    run removes no file but the trimmed definition file, and it removes
    it only at the end of a run that succeeds or after a device read that
    failed with the domain error; a run that fails in the verification or
    in the publishing, or with KeyError, leaves the file where it is. *)
Theorem main_removes_definition_file (h : host) (w : world)
    (fmt : formatter) (uuid : string) (o : options) (r : outcome unit)
    (acts : list action) (p : string) :
  _main h w fmt uuid o = (r, acts) -> In (Removed p) acts ->
  p = "new_definition_" ++ uuid ++ ".xml" /\ removable h p = true /\
  (r = Done tt \/
   r = Failed (Of (NVAutomationError "Unable to read nv items from phone: "))).
Proof.
  unfold _main. destruct (opt_port_num o) as [[|c port]|];
    try (intros [= <- <-] []).
  destruct (create_new_definition_file w _) as [[r0|e0] evs].
  2:{ intros [= <- <-] H. destruct (not_removed_on_file _ _ H). }
  simpl new_def_file.
  destruct (read_nv_items_from_phone h _ _) as [[[]|e1] cmds].
  - destruct (verify_and_publish _ fmt _ (opt_report_file o))
      as [[[]|e2] evs2]; intros [= <- <-] H;
      repeat (apply in_app_or in H; destruct H as [H|H]);
      try (destruct (not_removed_on_file _ _ H));
      try (destruct (not_removed_launched _ _ H)).
    apply removed_quietly in H. destruct H as [-> Hr].
    split; [reflexivity|]. split; [exact Hr | now left].
  - destruct e1 as [[msg| | | | | |]| | |]; intros [= <- <-] H;
      repeat (apply in_app_or in H; destruct H as [H|H]);
      try (destruct (not_removed_on_file _ _ H));
      try (destruct (not_removed_launched _ _ H)).
    apply removed_quietly in H. destruct H as [-> Hr].
    split; [reflexivity|]. split; [exact Hr | now right].
Qed.

Lemma main_removes_definition_file_witness :
  "new_definition_1b4e28ba.xml" = "new_definition_" ++ "1b4e28ba" ++ ".xml" /\
  removable (tool_host (Some "Command failed"))
    "new_definition_1b4e28ba.xml" = true /\
  (Failed (Of (NVAutomationError "Unable to read nv items from phone: "))
   = Done tt \/
   Failed (Of (NVAutomationError "Unable to read nv items from phone: "))
   = @Failed unit
       (Of (NVAutomationError "Unable to read nv items from phone: "))).
Proof.
  apply (main_removes_definition_file (tool_host (Some "Command failed"))
           run_world format_percent "1b4e28ba" default_options _
           (snd (_main (tool_host (Some "Command failed")) run_world
                   format_percent "1b4e28ba" default_options))).
  - vm_compute; reflexivity.
  - vm_compute. do 3 right. left. reflexivity.
Defined.

(** A run whose verification fails: the trimmed definition file has been
    written and the tool has been launched, and the file is not removed. *)
Example main_failed_verification :
  fst (_main silent_host run_world format_percent "1b4e28ba" run_options)
  = Failed (Of (NVAutomationError
                  "Can't verify. Problem in input or output nv items.")) /\
  ~ In (Removed "new_definition_1b4e28ba.xml")
       (snd (_main silent_host run_world format_percent "1b4e28ba"
               run_options)).
Proof.
  split; [vm_compute; reflexivity|]. vm_compute.
  intros [H|[H|[H|[]]]]; discriminate.
Qed.

Lemma phone_done (h : host) (self : automation) (definition_file : string)
    (u : unit) (cmds : list (list string)) :
  read_nv_items_from_phone h self definition_file = (Done u, cmds) ->
  cmds = [cmdandargs self definition_file].
Proof.
  unfold read_nv_items_from_phone.
  destruct (command_tool_exists h QCT_COMMAND_TOOL_NAME) as [[|]|e];
    try discriminate.
  destruct (run_cmd h _) as [output|]; [|discriminate].
  destruct (PyStr.search "Command failed" output); [discriminate|].
  now intros [= _ <-].
Qed.

Lemma verify_and_publish_ok (w : world) (fmt : formatter)
    (self : automation) (report_file : option string) (u : unit)
    (evs : list event) :
  verify_and_publish w fmt self report_file = (Ok u, evs) ->
  exists content,
    evs = [Opened (match report_file with
                   | None => REPORT_FILE
                   | Some f => f
                   end);
           WroteText (match report_file with
                      | None => REPORT_FILE
                      | Some f => f
                      end) content].
Proof.
  unfold verify_and_publish. destruct report_file as [f|].
  - destruct (verify w fmt self None) as [[l|e] evs0] eqn:Hv; [|discriminate].
    destruct (verify_none_ok _ _ _ _ _ Hv)
      as (_ & _ & _ & _ & _ & _ & _ & _ & _ & ->).
    destruct (publish_verification_result w fmt l f) as [r evs1] eqn:Hp.
    intros [= -> <-]. destruct u.
    destruct (publish_ok _ _ _ _ _ Hp)
      as (hd & vs & ft & rows & sm & foot & _ & -> & _).
    eexists; reflexivity.
  - change REPORT_FILE with (String "v" "erification_report.html").
    destruct (verify w fmt self _) as [[l|e] evs0] eqn:Hv; [|discriminate].
    destruct u. intros [= <-].
    destruct (verify_some_ok _ _ _ _ _ _ _ Hv)
      as (_ & _ & _ & _ & _ & _ & _ & _ & Hp).
    destruct (publish_ok _ _ _ _ _ Hp)
      as (hd & vs & ft & rows & sm & foot & _ & -> & _).
    eexists; reflexivity.
Qed.

(** X21: what a run of the command line that succeeds has done, in this
    order: it has written the trimmed definition file under its fresh
    name, launched the tool once on that file, the output file and the
    port, written the report, to the report file of the options or to
    verification_report.html when the options name none, and at the end
    removed the trimmed definition file if it could. *)
Theorem main_success (h : host) (w : world) (fmt : formatter)
    (uuid : string) (o : options) (acts : list action) :
  _main h w fmt uuid o = (Done tt, acts) ->
  exists port_num kept content,
    opt_port_num o = Some port_num /\ port_num <> "" /\
    acts
    = List.app
       [OnFile (Opened ("new_definition_" ++ uuid ++ ".xml"));
        OnFile (WroteXml ("new_definition_" ++ uuid ++ ".xml")
                         "NvDefinition" kept);
        Launched ["qmsl_nvtool_msvc7r.exe"; "-ph2src";
                  "-def=" ++ "new_definition_" ++ uuid ++ ".xml";
                  "-src=" ++ opt_output_file o; "-qpst";
                  "-com=" ++ port_num];
        OnFile (Opened (match opt_report_file o with
                        | None => "verification_report.html"
                        | Some f => f
                        end));
        OnFile (WroteText (match opt_report_file o with
                           | None => "verification_report.html"
                           | Some f => f
                           end) content)]
       (if removable h ("new_definition_" ++ uuid ++ ".xml")
        then [Removed ("new_definition_" ++ uuid ++ ".xml")]
        else []).
Proof.
  unfold _main. destruct (opt_port_num o) as [[|c port]|]; try discriminate.
  destruct (create_new_definition_file w _) as [[r0|e0] evs] eqn:Hc;
    [|discriminate].
  destruct (create_ok _ _ _ _ Hc) as (ids & dom & kept & _ & _ & _ & _ & ->).
  simpl new_def_file.
  destruct (read_nv_items_from_phone h _ _) as [[u|e1] cmds] eqn:Hph.
  - apply phone_done in Hph. subst cmds.
    destruct (verify_and_publish _ fmt _ (opt_report_file o))
      as [[u2|e2] evs2] eqn:Hv; [|discriminate].
    apply verify_and_publish_ok in Hv. destruct Hv as (content & ->).
    intros [= <-]. exists (String c port), kept, content.
    split; [reflexivity|]. split; [discriminate|]. reflexivity.
  - destruct e1 as [[msg| | | | | |]| | |]; discriminate.
Qed.

Lemma main_success_witness :
  exists port_num kept content,
    opt_port_num run_options = Some port_num /\ port_num <> "" /\
    snd (_main (tool_host (Some "done")) run_world format_percent
           "1b4e28ba" run_options)
    = List.app
       [OnFile (Opened ("new_definition_" ++ "1b4e28ba" ++ ".xml"));
        OnFile (WroteXml ("new_definition_" ++ "1b4e28ba" ++ ".xml")
                         "NvDefinition" kept);
        Launched ["qmsl_nvtool_msvc7r.exe"; "-ph2src";
                  "-def=" ++ "new_definition_" ++ "1b4e28ba" ++ ".xml";
                  "-src=" ++ opt_output_file run_options; "-qpst";
                  "-com=" ++ port_num];
        OnFile (Opened (match opt_report_file run_options with
                        | None => "verification_report.html"
                        | Some f => f
                        end));
        OnFile (WroteText (match opt_report_file run_options with
                           | None => "verification_report.html"
                           | Some f => f
                           end) content)]
       (if removable (tool_host (Some "done"))
             ("new_definition_" ++ "1b4e28ba" ++ ".xml")
        then [Removed ("new_definition_" ++ "1b4e28ba" ++ ".xml")]
        else []).
Proof.
  apply (main_success (tool_host (Some "done")) run_world format_percent
           "1b4e28ba" run_options).
  vm_compute; reflexivity.
Defined.

Lemma phone_failed (h : host) (self : automation) (definition_file : string)
    (e : py_exn) (cmds : list (list string)) :
  read_nv_items_from_phone h self definition_file = (Failed e, cmds) ->
  e = KeyError \/ exists msg, e = Of (NVAutomationError msg).
Proof.
  unfold read_nv_items_from_phone, command_tool_exists.
  destruct (environ_PATH h) as [path|]; [|intros [= <- _]; now left].
  destruct (tool_on_path h _ _).
  - destruct (run_cmd h _) as [output|].
    + destruct (PyStr.search "Command failed" output); [|discriminate].
      intros [= <- _]. right. eexists; reflexivity.
    + intros [= <- _]. right. eexists; reflexivity.
  - intros [= <- _]. right. eexists; reflexivity.
Qed.

(** X22: the command line ends with SystemExit exactly when the options
    hold no port, or an empty one; the exit status is then 2, and nothing
    has been read, written or launched. *)
Theorem main_without_port (h : host) (w : world) (fmt : formatter)
    (uuid : string) (o : options) (code : Z) (acts : list action) :
  _main h w fmt uuid o = (Failed (SystemExit code), acts) <->
  (opt_port_num o = None \/ opt_port_num o = Some "") /\
  code = 2 /\ acts = [].
Proof.
  unfold _main. destruct (opt_port_num o) as [[|c port]|].
  - split; [intros [= <- <-]; auto | intros (_ & -> & ->); reflexivity].
  - split; [|intros ([H|H] & _); discriminate].
    destruct (create_new_definition_file w _) as [[r0|e0] evs];
      [|discriminate].
    destruct (read_nv_items_from_phone h _ _) as [[u|e1] cmds] eqn:Hph.
    + destruct (verify_and_publish _ fmt _ (opt_report_file o))
        as [[u2|e2] evs2]; discriminate.
    + destruct (phone_failed _ _ _ _ _ Hph) as [->|(msg & ->)]; discriminate.
  - split; [intros [= <- <-]; auto | intros (_ & -> & ->); reflexivity].
Qed.

(** ** Setting the text of a node *)

Lemma key_of_set_in (k : nat) (v : string) (n : Dom.node) :
  Dom.key_of (set_in k v n) = Dom.key_of n.
Proof.
  destruct n as [k' t a cs|k' d|k' d]; simpl; try reflexivity;
    destruct (Nat.eqb k' k); reflexivity.
Qed.

Lemma is_decl_set_in (k : nat) (v : string) (n : Dom.node) :
  is_decl (set_in k v n) = is_decl n.
Proof.
  destruct n as [k' t a cs|k' d|k' d]; simpl; try reflexivity;
    destruct (Nat.eqb k' k); reflexivity.
Qed.

Lemma set_in_leaf (k : nat) (v : string) (c : Dom.node) :
  is_leaf c = true -> is_leaf (set_in k v c) = true.
Proof.
  destruct c as [k' t a cs|k' d|k' d]; simpl; try discriminate;
    destruct (Nat.eqb k' k); reflexivity.
Qed.

(** The nodes of a forest in which a text was set are the nodes of the
    forest, each with that text set. *)
Lemma nodes_set_in (k : nat) (v : string) (d : list Dom.node) :
  Dom.nodes (map (set_in k v) d) = map (set_in k v) (Dom.nodes d).
Proof.
  induction d as [|k' t a cs rest IHcs IHrest|c rest Hleaf IH]
    using forest_ind.
  - reflexivity.
  - change (map (set_in k v) (Dom.Element k' t a cs :: rest))
      with (Dom.Element k' t a (map (set_in k v) cs)
            :: map (set_in k v) rest).
    rewrite !nodes_element, IHcs, IHrest. simpl. now rewrite map_app.
  - change (map (set_in k v) (c :: rest))
      with (set_in k v c :: map (set_in k v) rest).
    rewrite (nodes_leaf _ _ Hleaf).
    rewrite (nodes_leaf _ _ (set_in_leaf k v c Hleaf)), IH. reflexivity.
Qed.

Lemma keys_set_in (k : nat) (v : string) (d : list Dom.node) :
  Dom.keys (map (set_in k v) d) = Dom.keys d.
Proof.
  unfold Dom.keys. rewrite nodes_set_in, map_map. apply map_ext.
  intros n. apply key_of_set_in.
Qed.

Lemma declarations_set_in (k : nat) (v : string) (d : list Dom.node) :
  declarations (map (set_in k v) d) = map (set_in k v) (declarations d).
Proof.
  unfold declarations. rewrite nodes_set_in.
  induction (Dom.nodes d) as [|n l IH]; [reflexivity|]. simpl.
  rewrite is_decl_set_in. destruct (is_decl n); simpl; now rewrite IH.
Qed.

(** Setting the text of a node that is not in the forest changes
    nothing. *)
Lemma set_in_absent (k : nat) (v : string) (d : list Dom.node) :
  ~ In k (Dom.keys d) -> map (set_in k v) d = d.
Proof.
  induction d as [|k' t a cs rest IHcs IHrest|c rest Hleaf IH]
    using forest_ind; intros Hk.
  - reflexivity.
  - rewrite keys_element in Hk. simpl. rewrite IHcs, IHrest; [reflexivity| |];
      intros H; apply Hk; right; apply in_or_app; auto.
  - rewrite (keys_leaf _ _ Hleaf) in Hk. simpl. rewrite IH.
    + f_equal. destruct c as [k' t a cs|k' d|k' d]; [discriminate| |];
        simpl in *; destruct (Nat.eqb_spec k' k) as [E|_]; try reflexivity;
        exfalso; apply Hk; now left.
    + intros H. apply Hk. now right.
Qed.

(** What is below a node of a forest is in the forest, and has distinct
    keys when the forest has. *)
Lemma children_in_nodes (d : list Dom.node) (x : Dom.node) :
  In x (Dom.nodes d) -> incl (Dom.nodes (Dom.children x)) (Dom.nodes d).
Proof.
  induction d as [|k' t a cs rest IHcs IHrest|c rest Hleaf IH]
    using forest_ind; intros Hx.
  - destruct Hx.
  - rewrite nodes_element in *. destruct Hx as [<-|Hx].
    + simpl. intros y Hy. right. apply in_or_app. now left.
    + apply in_app_or in Hx. intros y Hy. right. apply in_or_app.
      destruct Hx as [Hx|Hx]; [left; now apply (IHcs Hx)
                              | right; now apply (IHrest Hx)].
  - rewrite (nodes_leaf _ _ Hleaf) in *. destruct Hx as [<-|Hx].
    + destruct c; [discriminate | intros y [] ..].
    + intros y Hy. right. now apply (IH Hx).
Qed.

Lemma children_distinct (d : list Dom.node) (x : Dom.node) :
  NoDup (Dom.keys d) -> In x (Dom.nodes d) ->
  NoDup (Dom.keys (Dom.children x)).
Proof.
  induction d as [|k' t a cs rest IHcs IHrest|c rest Hleaf IH]
    using forest_ind; intros Hnd Hx.
  - destruct Hx.
  - destruct (NoDup_keys_element _ _ _ _ _ Hnd) as (_ & _ & Hc & Hr & _).
    rewrite nodes_element in Hx. destruct Hx as [<-|Hx]; [exact Hc|].
    apply in_app_or in Hx. destruct Hx as [Hx|Hx]; auto.
  - destruct (NoDup_keys_leaf _ _ Hleaf Hnd) as (_ & Hr).
    rewrite (nodes_leaf _ _ Hleaf) in Hx. destruct Hx as [<-|Hx]; auto.
    destruct c; [discriminate | constructor ..].
Qed.

Lemma below_in_keys (d : list Dom.node) (x : Dom.node) (k : nat) :
  In x (Dom.nodes d) -> In k (Dom.keys (Dom.children x)) -> In k (Dom.keys d).
Proof.
  intros Hx Hk. unfold Dom.keys in *. apply in_map_iff in Hk.
  destruct Hk as (y & <- & Hy). apply in_map.
  now apply (children_in_nodes d x Hx).
Qed.

Lemma set_in_node_absent (k : nat) (v : string) (x : Dom.node) :
  Dom.key_of x <> k -> ~ In k (Dom.keys (Dom.children x)) ->
  set_in k v x = x.
Proof.
  intros Hx Hk. destruct x as [k' t a cs|k' d|k' d]; simpl in *.
  - now rewrite (set_in_absent k v cs Hk).
  - destruct (Nat.eqb_spec k' k); [contradiction | reflexivity].
  - destruct (Nat.eqb_spec k' k); [contradiction | reflexivity].
Qed.

(** In a definition document with distinct keys, a node below one
    declaration is neither another declaration nor below one. *)
Lemma below_one_declaration (d : list Dom.node) (tag : Dom.node) (kc : nat) :
  NoDup (Dom.keys d) -> flat_declarations d ->
  In tag (declarations d) -> In kc (Dom.keys (Dom.children tag)) ->
  forall x, In x (declarations d) -> Dom.key_of x <> Dom.key_of tag ->
    Dom.key_of x <> kc /\ ~ In kc (Dom.keys (Dom.children x)).
Proof.
  assert (Hdecl : forall l y, In y (declarations l) -> In y (Dom.nodes l))
    by (intros l y H; unfold declarations in H; now apply filter_In in H).
  assert (Hself : forall l y j, In y (declarations l) ->
            Dom.key_of y = j \/ In j (Dom.keys (Dom.children y)) ->
            In j (Dom.keys l)).
  { intros l y j Hy [<-|Hj]; [apply in_keys; auto|].
    apply (below_in_keys l y j); auto. }
  induction d as [|k' t a cs rest IHcs IHrest|c rest Hleaf IH]
    using forest_ind; intros Hnd Hflat Htag Hkc x Hx Hne.
  - destruct Htag.
  - destruct (NoDup_keys_element _ _ _ _ _ Hnd)
      as (Hk1 & Hk2 & Hndc & Hndr & Hdis).
    destruct (flat_declarations_element _ _ _ _ _ Hflat)
      as (Hfc & Hfr & Hempty).
    rewrite declarations_element in Htag, Hx.
    apply in_app_or in Htag. apply in_app_or in Hx.
    assert (Hcases : forall y,
              In y (if is_decl (Dom.Element k' t a cs)
                    then [Dom.Element k' t a cs] else [])
              \/ In y (declarations cs ++ declarations rest) ->
              (y = Dom.Element k' t a cs /\ declarations cs = [])
              \/ (In y (declarations cs)
                  /\ is_decl (Dom.Element k' t a cs) = false)
              \/ In y (declarations rest)).
    { intros y [Hy|Hy].
      - destruct (is_decl (Dom.Element k' t a cs)) eqn:E; [|destruct Hy].
        destruct Hy as [<-|[]]. left. split; [reflexivity | now apply Hempty].
      - apply in_app_or in Hy. destruct Hy as [Hy|Hy]; [|now right; right].
        right; left. split; [exact Hy|].
        destruct (is_decl (Dom.Element k' t a cs)) eqn:E; [|reflexivity].
        rewrite (Hempty eq_refl) in Hy. destruct Hy. }
    destruct (Hcases tag Htag) as [[-> Ht]|[[Ht Hr]|Ht]];
      destruct (Hcases x Hx) as [[-> Hx']|[[Hx' Hr']|Hx']].
    + now contradiction Hne.
    + rewrite Ht in Hx'. destruct Hx'.
    + simpl in Hkc. split; [intros E | intros H];
        apply (Hdis kc Hkc), (Hself rest x kc Hx'); auto.
    + rewrite Hx' in Ht. destruct Ht.
    + now apply (IHcs Hndc Hfc Ht Hkc x Hx' Hne).
    + assert (Hc : In kc (Dom.keys cs)) by (apply (Hself cs tag kc Ht); auto).
      split; [intros E | intros H];
        apply (Hdis kc Hc), (Hself rest x kc Hx'); auto.
    + assert (Hc : In kc (Dom.keys rest))
        by (apply (Hself rest tag kc Ht); auto).
      simpl. split; [intros ->; contradiction|].
      intros H. now apply (Hdis kc H).
    + assert (Hc : In kc (Dom.keys rest))
        by (apply (Hself rest tag kc Ht); auto).
      split; [intros E | intros H];
        apply (fun H' => Hdis kc H' Hc), (Hself cs x kc Hx'); auto.
    + now apply (IHrest Hndr Hfr Ht Hkc x Hx' Hne).
  - destruct (NoDup_keys_leaf _ _ Hleaf Hnd) as (_ & Hndr).
    rewrite (declarations_leaf _ _ Hleaf) in Htag, Hx.
    apply (IH Hndr (flat_declarations_cons _ _ Hflat) Htag Hkc x Hx Hne).
Qed.

Lemma children_set_in (k : nat) (v : string) (n : Dom.node) :
  Dom.children (set_in k v n) = map (set_in k v) (Dom.children n).
Proof.
  destruct n as [k' t a cs|k' d|k' d]; simpl; try reflexivity;
    destruct (Nat.eqb k' k); reflexivity.
Qed.

Lemma flat_declarations_set_in (k : nat) (v : string) (d : list Dom.node) :
  flat_declarations d -> flat_declarations (map (set_in k v) d).
Proof.
  intros Hflat n x Hn Hd Hx. rewrite nodes_set_in in Hn.
  apply in_map_iff in Hn. destruct Hn as (n0 & <- & Hn0).
  rewrite is_decl_set_in in Hd.
  rewrite children_set_in, nodes_set_in in Hx.
  apply in_map_iff in Hx. destruct Hx as (x0 & <- & Hx0).
  rewrite is_decl_set_in. now apply (Hflat n0 x0).
Qed.

(** A reference to a node of a forest with distinct keys is a reference
    to that node as it is in the forest. *)
Lemma node_of_key_found (d : list Dom.node) (n : Dom.node) :
  NoDup (Dom.keys d) -> In n (Dom.nodes d) ->
  node_of_key (Dom.key_of n) d = Some n.
Proof.
  unfold node_of_key, Dom.keys.
  induction (Dom.nodes d) as [|x l IH]; simpl; intros Hnd Hin;
    [destruct Hin|].
  apply NoDup_cons_iff in Hnd. destruct Hnd as [Hx Hnd].
  destruct Hin as [->|Hin]; [now rewrite Nat.eqb_refl|].
  destruct (Nat.eqb_spec (Dom.key_of x) (Dom.key_of n)) as [E|_];
    [|now apply IH].
  exfalso. apply Hx. rewrite E. now apply in_map.
Qed.

Lemma current_in_master (t : Dom.trees) (tag : Dom.node) :
  trimmer_invariant t -> In tag (declarations (Dom.master t)) ->
  current t tag = tag.
Proof.
  intros [Hnd _] Hin. unfold current.
  rewrite node_of_key_found; [reflexivity | now apply NoDup_app_remove_r in Hnd |].
  unfold declarations in Hin. now apply filter_In in Hin.
Qed.

(** The text of the first child of a declaration is set in that
    declaration and nowhere else. *)
Lemma strip_first_child (d : list Dom.node) (tag c : Dom.node)
    (value : string) :
  NoDup (Dom.keys d) -> In tag (Dom.nodes d) ->
  firstChild tag = Some c -> Dom.nodeValue c = Some value ->
  set_in (Dom.key_of c) (PyStr.strip value) tag = with_stripped_text tag.
Proof.
  intros Hnd Hin Hc Hv. pose proof (children_distinct d tag Hnd Hin) as Hcs.
  destruct tag as [k t a [|c' cs]|k s|k s]; try discriminate.
  injection Hc as ->. simpl in Hcs |- *.
  assert (Hleaf : is_leaf c = true) by (destruct c; [discriminate|reflexivity..]).
  rewrite (keys_leaf _ _ Hleaf) in Hcs. apply NoDup_cons_iff in Hcs.
  rewrite (set_in_absent _ _ cs (proj1 Hcs)). f_equal. f_equal.
  destruct c as [k' t' a' cs'|k' s|k' s]; [discriminate| |];
    simpl in *; injection Hv as ->; now rewrite Nat.eqb_refl.
Qed.

Lemma filter_after_set_in (k kc : nat) (v : string) (l : list Dom.node) :
  (forall x, In x l -> Dom.key_of x <> k -> set_in kc v x = x) ->
  filter (other_key k) (map (set_in kc v) l) = filter (other_key k) l.
Proof.
  induction l as [|x l IH]; intros H; [reflexivity|]. simpl.
  assert (E : other_key k (set_in kc v x) = other_key k x)
    by (unfold other_key; now rewrite key_of_set_in).
  rewrite E, IH by (intros y Hy; apply H; now right).
  destruct (other_key k x) eqn:Ex; [|reflexivity].
  rewrite (H x (or_introl eq_refl)); [reflexivity|].
  unfold other_key in Ex. apply negb_true_iff in Ex.
  now apply Nat.eqb_neq in Ex.
Qed.

(** One turn of the loop of [copy_existing] on a matching item of the
    target document: the item leaves the document and becomes the last
    child of the root element, its text stripped. *)
Lemma copy_existing_step (t : Dom.trees) (tag c : Dom.node) (value : string) :
  trimmer_invariant t -> In tag (declarations (Dom.master t)) ->
  firstChild tag = Some c -> Dom.nodeValue c = Some value ->
  exists m',
    Dom.appendChild (set_nodeValue (Dom.key_of c) (PyStr.strip value) t) tag
    = Dom.mkTrees m' (Dom.root_tag t ++ [with_stripped_text tag]) /\
    trimmer_invariant
      (Dom.mkTrees m' (Dom.root_tag t ++ [with_stripped_text tag])) /\
    declarations m'
    = filter (other_key (Dom.key_of tag)) (declarations (Dom.master t)).
Proof.
  intros [Hnd Hflat] Hin Hc Hv.
  set (kc := Dom.key_of c). set (v := PyStr.strip value).
  assert (Hndm : NoDup (Dom.keys (Dom.master t)))
    by now apply NoDup_app_remove_r in Hnd.
  assert (Hnode : In tag (Dom.nodes (Dom.master t)))
    by (unfold declarations in Hin; now apply filter_In in Hin).
  assert (Hkc : In kc (Dom.keys (Dom.children tag))).
  { unfold firstChild in Hc. destruct (Dom.children tag) as [|c' cs];
      [discriminate|]. injection Hc as ->. apply in_keys, in_nodes_top.
    now left. }
  assert (Hroot : map (set_in kc v) (Dom.root_tag t) = Dom.root_tag t).
  { apply set_in_absent. apply (NoDup_app_disjoint _ _ _ _ Hnd).
    now apply (below_in_keys _ tag). }
  assert (Htag : set_in kc v tag = with_stripped_text tag)
    by now apply (strip_first_child (Dom.master t)).
  set (t1 := set_nodeValue kc v t).
  assert (Hinv1 : trimmer_invariant t1).
  { split; simpl.
    - now rewrite Hroot, keys_set_in.
    - now apply flat_declarations_set_in. }
  assert (Hin1 : In (with_stripped_text tag) (declarations (Dom.master t1))).
  { simpl. rewrite declarations_set_in, <- Htag. now apply in_map. }
  assert (Hkey : Dom.key_of (with_stripped_text tag) = Dom.key_of tag)
    by (rewrite <- Htag; apply key_of_set_in).
  destruct (appendChild_moves t1 _ Hinv1 Hin1) as (m' & Ha & Hinv' & Hd).
  exists m'. simpl Dom.root_tag in Ha, Hinv'. rewrite Hroot in Ha, Hinv'.
  split; [|split].
  - rewrite <- Ha. unfold Dom.appendChild. rewrite Hkey.
    destruct Hinv1 as [Hnd1 _].
    destruct (detach_found (Dom.master t1)
                (NoDup_app_remove_r _ _ Hnd1) (with_stripped_text tag))
      as (d' & E).
    + unfold declarations in Hin1. now apply filter_In in Hin1.
    + rewrite Hkey in E. now rewrite E.
  - exact Hinv'.
  - rewrite Hd, Hkey. simpl. rewrite declarations_set_in.
    apply filter_after_set_in. intros x Hx Hne.
    destruct (below_one_declaration _ tag kc Hndm Hflat Hin Hkc x Hx Hne)
      as [H1 H2].
    now apply set_in_node_absent.
Qed.

(** The loop of [copy_existing] over items it can pass: the matching
    ones have left the target document and follow the children of the
    root element, in the order of the list. *)
Lemma copy_existing_prefix (nvid : Z) (items : list Dom.node) :
  forall t rest, trimmer_invariant t ->
    NoDup (map Dom.key_of items) ->
    incl items (declarations (Dom.master t)) ->
    (forall x, In x items -> copyable nvid x) ->
    exists t1,
      copy_existing nvid (items ++ rest) t = copy_existing nvid rest t1 /\
      trimmer_invariant t1 /\
      Dom.root_tag t1
      = (Dom.root_tag t
         ++ map with_stripped_text (filter (has_id nvid) items))%list /\
      declarations (Dom.master t1)
      = filter (not_among (filter (has_id nvid) items))
               (declarations (Dom.master t)).
Proof.
  induction items as [|tag items IH]; intros t rest Hinv Hnd Hincl Hgood.
  - exists t. simpl. rewrite app_nil_r.
    split; [reflexivity|]. split; [exact Hinv|]. split; [reflexivity|].
    symmetry. now apply filter_all.
  - apply NoDup_cons_iff in Hnd. destruct Hnd as [Htag Hnd].
    assert (Hin : In tag (declarations (Dom.master t)))
      by (apply Hincl; now left).
    destruct (Hgood tag (or_introl eq_refl)) as [Hint Htext].
    assert (Hrest : forall x, In x items -> copyable nvid x)
      by (intros x Hx; apply Hgood; now right).
    change ((tag :: items) ++ rest)%list with (tag :: (items ++ rest))%list.
    destruct (PyStr.int (Dom.getAttribute tag "id")) as [n|] eqn:Ei;
      [|now contradiction Hint].
    assert (Hid : has_id nvid tag = (nvid =? n))
      by (unfold has_id; now rewrite Ei).
    cbn [copy_existing filter]. rewrite Ei, Hid. rewrite Hid in Htext.
    destruct (nvid =? n).
    + destruct (Htext eq_refl) as (c & value & Hc & Hv).
      rewrite (current_in_master t tag Hinv Hin), Hc, Hv.
      destruct (copy_existing_step t tag c value Hinv Hin Hc Hv)
        as (m' & -> & Hinv' & Hd).
      destruct (IH (Dom.mkTrees m'
                      (Dom.root_tag t ++ [with_stripped_text tag])) rest
                  Hinv' Hnd) as (t1 & E & Hinv1 & Hr & Hm); [|exact Hrest|].
      * intros x Hx. simpl. rewrite Hd. apply filter_In.
        split; [apply Hincl; now right|].
        unfold other_key. apply negb_true_iff, Nat.eqb_neq.
        intros Ek. apply Htag. rewrite <- Ek. now apply in_map.
      * exists t1. split; [exact E|]. split; [exact Hinv1|]. split.
        -- rewrite Hr. simpl. now rewrite <- app_assoc.
        -- rewrite Hm. simpl Dom.master. rewrite Hd, <- filter_twice.
           apply filter_ext. intros x. now rewrite not_among_cons.
    + destruct (IH t rest Hinv Hnd) as (t1 & E & H); [|exact Hrest|].
      * intros x Hx. apply Hincl. now right.
      * exists t1. split; [exact E | exact H].
Qed.

(** X23: [copy_existing] on distinct items of a target document that is
    a definition document (no DataType or NvItem element inside another
    one, and none of its nodes under the root element), when [int]
    accepts the id of every item and every item with the id looked for
    starts with a text: the call ends without an exception, the items
    with that id have become the last children of the root element, in
    the order of the list and with their text stripped, and they have
    left the target document; the other declarations of the document
    stay. *)
Theorem copy_existing_moves (nvid : Z) (target_items : list Dom.node)
    (t : Dom.trees) :
  trimmer_invariant t ->
  NoDup (map Dom.key_of target_items) ->
  incl target_items (declarations (Dom.master t)) ->
  (forall x, In x target_items -> copyable nvid x) ->
  exists t',
    copy_existing nvid target_items t = (Done tt, t') /\
    Dom.root_tag t'
    = (Dom.root_tag t
       ++ map with_stripped_text (filter (has_id nvid) target_items))%list /\
    declarations (Dom.master t')
    = filter (not_among (filter (has_id nvid) target_items))
             (declarations (Dom.master t)).
Proof.
  intros Hinv Hnd Hincl Hgood.
  destruct (copy_existing_prefix nvid target_items t [] Hinv Hnd Hincl Hgood)
    as (t1 & E & _ & Hr & Hm).
  rewrite app_nil_r in E. exists t1. now repeat split.
Qed.

Lemma copy_existing_moves_witness :
  exists t',
    copy_existing 2
      (Dom.getElementsByTagName input_xml "NvItem")
      (Dom.mkTrees input_xml []) = (Done tt, t') /\
    Dom.root_tag t' = [nv_tag 3 "2" " b " "true" "3"] /\
    declarations (Dom.master t')
    = [nv_tag 1 "1" "a" "false" "5"; nv_tag 5 "3" "c" "false" "7"].
Proof.
  apply (copy_existing_moves 2 (Dom.getElementsByTagName input_xml "NvItem")
           (Dom.mkTrees input_xml [])).
  - split; [apply distinctb_sound | apply flat_declarationsb_sound];
      vm_compute; reflexivity.
  - apply distinctb_sound. vm_compute; reflexivity.
  - intros x Hx. vm_compute in Hx |- *. tauto.
  - intros x Hx. vm_compute in Hx.
    destruct Hx as [<-|[<-|[<-|[]]]]; (split; [discriminate|]);
      intros H; try discriminate H.
    exists (Dom.Text 4 " 3 "), " 3 ". split; reflexivity.
Defined.

(** X24: [copy_existing] on distinct items of a target document that is
    a definition document (no DataType or NvItem element inside another
    one, and none of its nodes under the root element) stops at the first
    item it cannot pass, one whose id [int] does not accept or one with
    the id looked for that does not start with a text: NVParameterError
    is raised, and the items with that id before it have already been
    moved under the root element and stripped. *)
Theorem copy_existing_stops (nvid : Z) (before : list Dom.node)
    (bad : Dom.node) (after : list Dom.node) (t : Dom.trees) :
  trimmer_invariant t ->
  NoDup (map Dom.key_of (before ++ bad :: after)) ->
  incl (before ++ bad :: after) (declarations (Dom.master t)) ->
  (forall x, In x before -> copyable nvid x) ->
  ~ copyable nvid bad ->
  exists msg t',
    copy_existing nvid (before ++ bad :: after) t
    = (Failed (NVParameterError msg), t') /\
    Dom.root_tag t'
    = (Dom.root_tag t
       ++ map with_stripped_text (filter (has_id nvid) before))%list /\
    declarations (Dom.master t')
    = filter (not_among (filter (has_id nvid) before))
             (declarations (Dom.master t)).
Proof.
  intros Hinv Hnd Hincl Hgood Hbad.
  rewrite map_app in Hnd.
  destruct (copy_existing_prefix nvid before t (bad :: after) Hinv)
    as (t1 & -> & Hinv1 & Hr & Hm).
  - now apply NoDup_app_remove_r in Hnd.
  - intros x Hx. apply Hincl, in_or_app. now left.
  - exact Hgood.
  - assert (Hin : In bad (declarations (Dom.master t1))).
    { rewrite Hm. apply filter_In. split.
      - apply Hincl, in_or_app. right. now left.
      - apply not_among_spec. intros H.
        assert (Hb : In (Dom.key_of bad) (map Dom.key_of before)).
        { apply in_map_iff in H. destruct H as (y & E & Hy).
          apply filter_In in Hy. rewrite <- E. apply in_map. tauto. }
        apply (NoDup_app_disjoint _ _ _ _ Hnd Hb). now left. }
    exists "Invalid NV item found: ", t1.
    split; [|split; assumption].
    cbn [copy_existing]. unfold copyable, has_id in Hbad.
    destruct (PyStr.int (Dom.getAttribute bad "id")) as [n|];
      [|reflexivity].
    destruct (nvid =? n).
    + rewrite (current_in_master t1 bad Hinv1 Hin).
      destruct (firstChild bad) as [c|] eqn:Hc; [|reflexivity].
      destruct (Dom.nodeValue c) as [value|] eqn:Hv; [|reflexivity].
      exfalso. apply Hbad. split; [discriminate|].
      intros _. now exists c, value.
    + exfalso. apply Hbad. split; discriminate.
Qed.

Lemma copy_existing_stops_witness :
  exists msg t',
    copy_existing 2 (Dom.getElementsByTagName gapped_xml "NvItem")
      (Dom.mkTrees gapped_xml [])
    = (Failed (NVParameterError msg), t') /\
    Dom.root_tag t' = [nv_tag 1 "2" "a" "false" "5"] /\
    declarations (Dom.master t')
    = [empty_item; nv_tag 4 "2" "c" "false" "7"].
Proof.
  apply (copy_existing_stops 2 [nv_tag 1 "2" "a" "false" " 5 "] empty_item
           [nv_tag 4 "2" "c" "false" "7"] (Dom.mkTrees gapped_xml [])).
  - split; [apply distinctb_sound | apply flat_declarationsb_sound];
      vm_compute; reflexivity.
  - apply distinctb_sound. vm_compute; reflexivity.
  - intros x Hx. vm_compute in Hx |- *. tauto.
  - intros x [<-|[]]. split; [discriminate|]. intros _.
    exists (Dom.Text 2 " 5 "), " 5 ". split; reflexivity.
  - intros [_ H]. destruct (H eq_refl) as (c & value & Hc & _).
    discriminate Hc.
Defined.

Lemma filter_swap (p q : Dom.node -> bool) (l : list Dom.node) :
  filter p (filter q l) = filter q (filter p l).
Proof.
  rewrite <- !filter_twice. apply filter_ext. intros x. apply andb_comm.
Qed.

(** Among items with distinct keys, the ones that are not among the
    items with the id looked for are the ones with another id. *)
Lemma not_among_matching (nvid : Z) (items : list Dom.node) :
  NoDup (map Dom.key_of items) ->
  filter (not_among (filter (has_id nvid) items)) items
  = filter (fun x => negb (has_id nvid x)) items.
Proof.
  intros Hnd. apply filter_ext_in. intros x Hx.
  destruct (has_id nvid x) eqn:E; simpl.
  - apply not_true_iff_false. rewrite not_among_spec. intros H. apply H.
    apply in_map, filter_In. now split.
  - apply not_among_spec. intros H. apply in_map_iff in H.
    destruct H as (y & Ek & Hy). apply filter_In in Hy. destruct Hy as [Hy Ey].
    assert (y = x); [|congruence].
    clear E Ey. induction items as [|z items IH]; [destruct Hx|].
    simpl in Hnd. apply NoDup_cons_iff in Hnd. destruct Hnd as [Hz Hnd].
    destruct Hx as [->|Hx], Hy as [->|Hy]; auto.
    + exfalso. apply Hz. rewrite <- Ek. now apply in_map.
    + exfalso. apply Hz. rewrite Ek. now apply in_map.
Qed.

(** X25: [parse] and then [copy_existing] on the items it gives, for a
    target file that holds a definition document (no DataType or NvItem
    element inside another one, and none of its nodes under the root
    element), when [int] accepts the id of every NvItem element and every
    one with the id looked for starts with a text: the items of the file
    are split in two, those with that id are the new last children of the
    root element, in document order and stripped, and the others are the
    [NvItem] elements left in the target document, in document order. *)
Theorem parse_then_copy_existing (w : world) (parse_file : string)
    (nvid : Z) (parsed_doc : Dom.document) (parsed_items : list Dom.node)
    (root_children : list Dom.node) :
  NVParameter.parse w parse_file = Done (parsed_doc, parsed_items) ->
  NoDup (Dom.keys parsed_doc ++ Dom.keys root_children) ->
  flat_declarations parsed_doc ->
  (forall x, In x parsed_items -> copyable nvid x) ->
  exists t',
    copy_existing nvid parsed_items (Dom.mkTrees parsed_doc root_children)
    = (Done tt, t') /\
    Dom.root_tag t'
    = (root_children
       ++ map with_stripped_text (filter (has_id nvid) parsed_items))%list /\
    Dom.getElementsByTagName (Dom.master t') "NvItem"
    = filter (fun x => negb (has_id nvid x)) parsed_items.
Proof.
  unfold NVParameter.parse. intros Hparse Hnd Hflat Hgood.
  destruct (parse w parse_file) as [d| | |other]; try discriminate.
  injection Hparse as -> <-.
  set (items := Dom.getElementsByTagName parsed_doc "NvItem") in *.
  assert (Hitems : items = filter (Dom.has_tag "NvItem")
                             (declarations parsed_doc))
    by (apply tags_of_declarations; now right).
  assert (Hkeys : NoDup (map Dom.key_of items)).
  { unfold items, Dom.getElementsByTagName. apply distinct_keys_filter.
    now apply NoDup_app_remove_r in Hnd. }
  destruct (copy_existing_prefix nvid items
              (Dom.mkTrees parsed_doc root_children) []) as
    (t1 & E & _ & Hr & Hm); try assumption.
  - now split.
  - intros x Hx. rewrite Hitems in Hx. now apply filter_In in Hx.
  - rewrite app_nil_r in E. exists t1. split; [exact E|]. split; [exact Hr|].
    rewrite (tags_of_declarations _ "NvItem") by now right.
    rewrite Hm. simpl Dom.master. rewrite filter_swap, <- Hitems.
    now apply not_among_matching.
Qed.

Lemma parse_then_copy_existing_witness :
  exists t',
    copy_existing 2 (Dom.getElementsByTagName input_xml "NvItem")
      (Dom.mkTrees input_xml []) = (Done tt, t') /\
    Dom.root_tag t' = [nv_tag 3 "2" " b " "true" "3"] /\
    Dom.getElementsByTagName (Dom.master t') "NvItem"
    = [nv_tag 1 "1" "a" "false" "5"; nv_tag 5 "3" "c" "false" "7"].
Proof.
  apply (parse_then_copy_existing run_world "input.xml" 2 input_xml
           (Dom.getElementsByTagName input_xml "NvItem") []).
  - reflexivity.
  - apply distinctb_sound. vm_compute; reflexivity.
  - apply flat_declarationsb_sound. vm_compute; reflexivity.
  - intros x Hx. vm_compute in Hx.
    destruct Hx as [<-|[<-|[<-|[]]]]; (split; [discriminate|]);
      intros H; try discriminate H.
    exists (Dom.Text 4 " 3 "), " 3 ". split; reflexivity.
Defined.
